(** * pdf_form: a shallow embedding of the form-field logic of [src/src/lib.rs]
    and [src/src/utils.rs].

    The lopdf object graph is modelled as it is in Rust: an [Object] is a
    tagged union, a [Dictionary] an insertion-ordered association list
    (lopdf's linked hash map, keys are byte strings), the document a table
    from object ids to objects.  Byte strings are Stdlib [string]s (lists of
    8-bit characters); a Rust [String] is such a byte string that is valid
    UTF-8.

    A Rust panic ([unwrap] on an [Err]/[None], an index out of range) is
    [None] in the [option] that every fallible function returns; recoverable
    errors are the [result] type below. *)

From Stdlib Require Import String Ascii List Bool ZArith NArith QArith Lia.
Import ListNotations.
Set Warnings "-register-all".
Open Scope string_scope.

(** Option bind: panics propagate. *)
Notation "x <- m ;; k" :=
  (match m with Some x => k | None => None end)
  (at level 60, m at next level, right associativity).

(** Rust's [Result]. *)
Inductive result (A E : Type) : Type :=
| Ok (a : A)
| Err (e : E).
Arguments Ok {A E} a.
Arguments Err {A E} e.

(** ** UTF-8 (Rust's [str::from_utf8]) *)

Definition byte_in (c : ascii) (lo hi : nat) : bool :=
  (lo <=? nat_of_ascii c)%nat && (nat_of_ascii c <=? hi)%nat.

Definition cont_byte (c : ascii) : bool := byte_in c 128 191.

Fixpoint utf8_valid (s : string) : bool :=
  match s with
  | EmptyString => true
  | String c r =>
      let b := nat_of_ascii c in
      if (b <? 128)%nat then utf8_valid r
      else if byte_in c 194 223 then
        match r with
        | String c1 r1 => cont_byte c1 && utf8_valid r1
        | EmptyString => false
        end
      else if byte_in c 224 239 then
        match r with
        | String c1 (String c2 r2) =>
            (if (b =? 224)%nat then byte_in c1 160 191
             else if (b =? 237)%nat then byte_in c1 128 159
             else cont_byte c1)
            && cont_byte c2 && utf8_valid r2
        | _ => false
        end
      else if byte_in c 240 244 then
        match r with
        | String c1 (String c2 (String c3 r3)) =>
            (if (b =? 240)%nat then byte_in c1 144 191
             else if (b =? 244)%nat then byte_in c1 128 143
             else cont_byte c1)
            && cont_byte c2 && cont_byte c3 && utf8_valid r3
        | _ => false
        end
      else false
  end.

(** [str::from_utf8]: the bytes viewed as a [&str], or an error. *)
Definition from_utf8 (s : string) : option string :=
  if utf8_valid s then Some s else None.

(** ** The lopdf object model *)

Inductive StringFormat : Type := Literal | Hexadecimal.

(** [ObjectId = (u32, u16)]. *)
Definition ObjectId : Type := (N * N)%type.

Definition oid_eqb (a b : ObjectId) : bool :=
  N.eqb (fst a) (fst b) && N.eqb (snd a) (snd b).

(** [Object]; lopdf's [Object::String] is [Str] here, since [String] is the
    constructor of Rocq's byte strings.  Reals are idealised as rationals. *)
Inductive Object : Type :=
| Null
| Boolean (b : bool)
| Integer (i : Z)
| Real (r : Q)
| Name (n : string)
| Str (s : string) (f : StringFormat)
| Array (a : list Object)
| Dictionary (d : list (string * Object))
| Stream (d : list (string * Object)) (content : string)
| Reference (id : ObjectId).

Definition Dict : Type := list (string * Object).

(** [Dictionary::get]: keys are unique, the first match is the entry. *)
Fixpoint dict_get (d : Dict) (k : string) : option Object :=
  match d with
  | [] => None
  | (k', v) :: r => if String.eqb k k' then Some v else dict_get r k
  end.

Definition dict_remove (d : Dict) (k : string) : Dict :=
  filter (fun kv => negb (String.eqb k (fst kv))) d.

(** [Dictionary::set] ([LinkedHashMap::insert]): the entry ends up last. *)
Definition dict_set (d : Dict) (k : string) (v : Object) : Dict :=
  (dict_remove d k ++ [(k, v)])%list.

Definition as_dict (o : Object) : option Dict :=
  match o with Dictionary d => Some d | _ => None end.

Definition as_array (o : Object) : option (list Object) :=
  match o with Array a => Some a | _ => None end.

Definition as_reference (o : Object) : option ObjectId :=
  match o with Reference id => Some id | _ => None end.

Definition as_i64 (o : Object) : option Z :=
  match o with Integer i => Some i | _ => None end.

(** [Object::as_name_str]: a name whose bytes are UTF-8. *)
Definition as_name_str (o : Object) : option string :=
  match o with Name n => from_utf8 n | _ => None end.

Record Document : Type := mkDocument {
  objects : list (ObjectId * Object);
  trailer : Dict
}.

Fixpoint objects_get (objs : list (ObjectId * Object)) (id : ObjectId)
  : option Object :=
  match objs with
  | [] => None
  | (id', o) :: r => if oid_eqb id id' then Some o else objects_get r id
  end.

(** In-place update of the object stored under [id] ([get_mut]). *)
Definition objects_update (objs : list (ObjectId * Object)) (id : ObjectId)
  (g : Object -> Object) : list (ObjectId * Object) :=
  map (fun io => if oid_eqb id (fst io) then (fst io, g (snd io)) else io) objs.

(** The Rust [Form]. *)
Record Form : Type := mkForm {
  doc : Document;
  form_ids : list ObjectId
}.

(** ** Flags ([utils.rs]) *)

Module FieldFlags.
Definition READONLY : Z := 1.
Definition REQUIRED : Z := 2.
Definition all : Z := Z.lor READONLY REQUIRED.
End FieldFlags.

Module ButtonFlags.
Definition NO_TOGGLE_TO_OFF : Z := 32768.      (* 0x8000 *)
Definition RADIO : Z := 65536.                 (* 0x10000 *)
Definition PUSHBUTTON : Z := 131072.           (* 0x20000 *)
Definition RADIO_IN_UNISON : Z := 67108864.    (* 0x4000000 *)
Definition all : Z :=
  Z.lor (Z.lor NO_TOGGLE_TO_OFF RADIO) (Z.lor PUSHBUTTON RADIO_IN_UNISON).
End ButtonFlags.

Module ChoiceFlags.
Definition COBMO : Z := 131072.                (* 0x20000 *)
Definition EDIT : Z := 262144.                 (* 0x40000 *)
Definition SORT : Z := 524288.                 (* 0x80000 *)
Definition MULTISELECT : Z := 2097152.         (* 0x200000 *)
Definition DO_NOT_SPELLCHECK : Z := 8388608.   (* 0x800000 *)
Definition COMMIT_ON_CHANGE : Z := 134217728.  (* 0x8000000 *)
Definition all : Z :=
  Z.lor (Z.lor (Z.lor COBMO EDIT) (Z.lor SORT MULTISELECT))
        (Z.lor DO_NOT_SPELLCHECK COMMIT_ON_CHANGE).
End ChoiceFlags.

(** [from_bits_truncate] and [intersects] of the bitflags crate. *)
Definition from_bits_truncate (all bits : Z) : Z := Z.land bits all.
Definition intersects (a b : Z) : bool := negb (Z.land a b =? 0)%Z.

(** [get_field_flags]: [Ff] (absent: 0), [as_i64().unwrap() as u32]. *)
Definition get_field_flags (field : Dict) : option Z :=
  match dict_get field "Ff" with
  | None => Some 0%Z
  | Some o => i <- as_i64 o ;; Some (i mod 2 ^ 32)%Z
  end.

Definition is_read_only (field : Dict) : option bool :=
  flags <- get_field_flags field ;;
  Some (intersects (from_bits_truncate FieldFlags.all flags) FieldFlags.READONLY).

Definition is_required (field : Dict) : option bool :=
  flags <- get_field_flags field ;;
  Some (intersects (from_bits_truncate FieldFlags.all flags) FieldFlags.REQUIRED).

(** ** Field types and states *)

Module FieldType.
Inductive t : Type :=
| Button | Radio | CheckBox | ListBox | ComboBox | Text | Unknown.
End FieldType.

Module FieldState.
Inductive t : Type :=
| Button
| Radio (selected : string) (options : list string) (readonly required : bool)
| CheckBox (is_checked : bool) (readonly required : bool)
| ListBox (selected : list string) (options : list string)
    (multiselect readonly required : bool)
| ComboBox (selected : list string) (options : list string)
    (editable readonly required : bool)
| Text (text : string) (readonly required : bool)
| Unknown.
End FieldState.

Inductive ValueError : Type :=
| TypeMismatch | InvalidSelection | TooManySelected | Readonly.

(** [self.doc.objects.get(&self.form_ids[n]).unwrap().as_dict().unwrap()] *)
Definition form_field (f : Form) (n : nat) : option Dict :=
  id <- nth_error (form_ids f) n ;;
  o <- objects_get (objects (doc f)) id ;;
  as_dict o.

(** The flag dispatch of [get_type] for a [Btn] record. *)
Definition classify_button (flags : Z) : FieldType.t :=
  let flags := from_bits_truncate ButtonFlags.all flags in
  if intersects flags (Z.lor ButtonFlags.RADIO ButtonFlags.NO_TOGGLE_TO_OFF)
  then FieldType.Radio
  else if intersects flags ButtonFlags.PUSHBUTTON then FieldType.Button
  else FieldType.CheckBox.

Definition classify_choice (flags : Z) : FieldType.t :=
  let flags := from_bits_truncate ChoiceFlags.all flags in
  if intersects flags ChoiceFlags.COBMO then FieldType.ComboBox
  else FieldType.ListBox.

(** The body of [Form::get_type] on the field record. *)
Definition field_type (field : Dict) : option FieldType.t :=
  ft <- dict_get field "FT" ;;
  type_str <- as_name_str ft ;;
  if String.eqb type_str "Btn" then
    flags <- get_field_flags field ;; Some (classify_button flags)
  else if String.eqb type_str "Ch" then
    flags <- get_field_flags field ;; Some (classify_choice flags)
  else if String.eqb type_str "Tx" then Some FieldType.Text
  else Some FieldType.Unknown.

(** [Form::get_type] *)
Definition get_type (f : Form) (n : nat) : option FieldType.t :=
  field <- form_field f n ;; field_type field.

(** [PdfObjectDeref::deref]. *)
Inductive LoadError : Type :=
| LopdfError
| NoSuchReference (id : ObjectId)
| NotAReference.

Definition deref (d : Document) (o : Object) : result Object LoadError :=
  match o with
  | Reference oid =>
      match objects_get (objects d) oid with
      | Some o' => Ok o'
      | None => Err (NoSuchReference oid)
      end
  | _ => Err NotAReference
  end.

Definition unwrap {A E} (r : result A E) : option A :=
  match r with Ok a => Some a | Err _ => None end.

(** ** Decimal rendering ([usize::to_string]) *)

Fixpoint uint_to_string (u : Decimal.uint) : string :=
  match u with
  | Decimal.Nil => ""
  | Decimal.D0 u => String "0" (uint_to_string u)
  | Decimal.D1 u => String "1" (uint_to_string u)
  | Decimal.D2 u => String "2" (uint_to_string u)
  | Decimal.D3 u => String "3" (uint_to_string u)
  | Decimal.D4 u => String "4" (uint_to_string u)
  | Decimal.D5 u => String "5" (uint_to_string u)
  | Decimal.D6 u => String "6" (uint_to_string u)
  | Decimal.D7 u => String "7" (uint_to_string u)
  | Decimal.D8 u => String "8" (uint_to_string u)
  | Decimal.D9 u => String "9" (uint_to_string u)
  end.

Definition nat_to_string (i : nat) : string := uint_to_string (Nat.to_uint i).

(** ** The state reader ([Form::get_state], [Form::get_possibilities]) *)

(** The option name of one radio kid: the first key of [AP]/[N] (both
    direct dictionaries) that is not ["Off"], [from_utf8(key).unwrap_or("")];
    [None] when there is no such key. *)
Definition first_non_off (normal_appearance : Dict) : option string :=
  match find (fun kv => negb (String.eqb (fst kv) "Off")) normal_appearance with
  | Some (key, _) => Some (match from_utf8 key with Some k => k | None => "" end)
  | None => None
  end.

(** The loop body of [get_possibilities] for the kid at position [i]. *)
Definition kid_option (d : Document) (kid : Object) (i : nat) : option string :=
  o <- unwrap (deref d kid) ;;
  kd <- as_dict o ;;
  let found :=
    match dict_get kd "AP" with
    | Some (Dictionary appearance_states) =>
        match dict_get appearance_states "N" with
        | Some (Dictionary normal_appearance) => first_non_off normal_appearance
        | _ => None
        end
    | _ => None
    end in
  Some (match found with Some name => name | None => nat_to_string i end).

Fixpoint kids_options (d : Document) (kids : list Object) (i : nat)
  : option (list string) :=
  match kids with
  | [] => Some []
  | kid :: rest =>
      o <- kid_option d kid i ;;
      os <- kids_options d rest (S i) ;;
      Some (o :: os)
  end.

Definition get_possibilities (d : Document) (oid : ObjectId) : option (list string) :=
  o <- objects_get (objects d) oid ;;
  field <- as_dict o ;;
  match dict_get field "Kids" with
  | Some (Array kids) => kids_options d kids 0
  | _ => Some []
  end.

(** [V] of a choice field: one literal string, an array of them, else none. *)
Fixpoint literal_strings (chosen : list Object) : option (list string) :=
  match chosen with
  | [] => Some []
  | Str s Literal :: rest =>
      x <- from_utf8 s ;; xs <- literal_strings rest ;; Some (x :: xs)
  | _ :: rest => literal_strings rest
  end.

Definition choice_selected (field : Dict) : option (list string) :=
  match dict_get field "V" with
  | Some (Str s Literal) => x <- from_utf8 s ;; Some [x]
  | Some (Array chosen) => literal_strings chosen
  | _ => Some []
  end.

(** The closure mapped over [Opt]; [arr[1]] panics on a short array. *)
Definition option_entry (x : Object) : option string :=
  match x with
  | Str s Literal => from_utf8 s
  | Array arr =>
      e <- nth_error arr 1 ;;
      match e with
      | Str s Literal => from_utf8 s
      | _ => Some ""
      end
  | _ => Some ""
  end.

Fixpoint map_opt {A B} (g : A -> option B) (l : list A) : option (list B) :=
  match l with
  | [] => Some []
  | x :: r => y <- g x ;; ys <- map_opt g r ;; Some (y :: ys)
  end.

Definition is_empty (s : string) : bool :=
  match s with EmptyString => true | _ => false end.

Definition choice_options (field : Dict) : option (list string) :=
  match dict_get field "Opt" with
  | Some (Array options) =>
      l <- map_opt option_entry options ;;
      Some (filter (fun x => negb (is_empty x)) l)
  | _ => Some []
  end.

Definition name_is_yes (o : Object) : option bool :=
  s <- as_name_str o ;; Some (String.eqb s "Yes").

(** [Form::get_state] *)
Definition get_state (f : Form) (n : nat) : option FieldState.t :=
  field <- form_field f n ;;
  ty <- get_type f n ;;
  match ty with
  | FieldType.Button => Some FieldState.Button
  | FieldType.Radio =>
      selected <- match dict_get field "V" with
                  | Some name => as_name_str name
                  | None => match dict_get field "AS" with
                            | Some name => as_name_str name
                            | None => Some ""
                            end
                  end ;;
      id <- nth_error (form_ids f) n ;;
      options <- get_possibilities (doc f) id ;;
      ro <- is_read_only field ;;
      rq <- is_required field ;;
      Some (FieldState.Radio selected options ro rq)
  | FieldType.CheckBox =>
      is_checked <- match dict_get field "V" with
                    | Some name => name_is_yes name
                    | None => match dict_get field "AS" with
                              | Some name => name_is_yes name
                              | None => Some false
                              end
                    end ;;
      ro <- is_read_only field ;;
      rq <- is_required field ;;
      Some (FieldState.CheckBox is_checked ro rq)
  | FieldType.ListBox =>
      selected <- choice_selected field ;;
      options <- choice_options field ;;
      flags <- get_field_flags field ;;
      let multiselect :=
        intersects (from_bits_truncate ChoiceFlags.all flags) ChoiceFlags.MULTISELECT in
      ro <- is_read_only field ;;
      rq <- is_required field ;;
      Some (FieldState.ListBox selected options multiselect ro rq)
  | FieldType.ComboBox =>
      selected <- choice_selected field ;;
      options <- choice_options field ;;
      flags <- get_field_flags field ;;
      let editable :=
        intersects (from_bits_truncate ChoiceFlags.all flags) ChoiceFlags.EDIT in
      ro <- is_read_only field ;;
      rq <- is_required field ;;
      Some (FieldState.ComboBox selected options editable ro rq)
  | FieldType.Text =>
      text <- match dict_get field "V" with
              | Some (Str s Literal) => from_utf8 s
              | _ => Some ""
              end ;;
      ro <- is_read_only field ;;
      rq <- is_required field ;;
      Some (FieldState.Text text ro rq)
  | FieldType.Unknown => Some FieldState.Unknown
  end.

(** ** The value mutator *)

(** [self.doc.objects.get_mut(&self.form_ids[n]).unwrap().as_dict_mut().unwrap()]
    followed by the in-place edit [g] of that dictionary. *)
Definition update_field (f : Form) (n : nat) (g : Dict -> Dict) : option Form :=
  id <- nth_error (form_ids f) n ;;
  o <- objects_get (objects (doc f)) id ;;
  _ <- as_dict o ;;
  Some (mkForm
          (mkDocument
             (objects_update (objects (doc f)) id
                (fun o => match o with Dictionary d => Dictionary (g d) | o => o end))
             (trailer (doc f)))
          (form_ids f)).

(** [get_on_value] ([utils.rs]): the loop keeps the first key that is UTF-8
    and not ["Off"]. *)
Fixpoint on_value_scan (options : Dict) (option : Datatypes.option string)
  : Datatypes.option string :=
  match options with
  | [] => option
  | (name, _) :: rest =>
      on_value_scan rest
        (match from_utf8 name with
         | Some name =>
             if negb (String.eqb name "Off") && (match option with None => true | Some _ => false end)
             then Some name else option
         | None => option
         end)
  end.

Definition get_on_value (field : Dict) : string :=
  let option :=
    match dict_get field "AP" with
    | Some ap =>
        match as_dict ap with
        | Some dict =>
            match dict_get dict "N" with
            | Some values =>
                match as_dict values with
                | Some options => on_value_scan options None
                | None => None
                end
            | None => None
            end
        | None => None
        end
    | None => None
    end in
  match option with Some o => o | None => "Yes" end.

(** [Form::set_check_box] *)
Definition set_check_box (f : Form) (n : nat) (is_checked : bool)
  : option (Form * result unit ValueError) :=
  st <- get_state f n ;;
  match st with
  | FieldState.CheckBox _ _ _ =>
      field <- form_field f n ;;
      let on := get_on_value field in
      let state := Name (if is_checked then on else "Off") in
      f' <- update_field f n (fun d => dict_set (dict_set d "V" state) "AS" state) ;;
      Some (f', Ok tt)
  | _ => Some (f, Err TypeMismatch)
  end.

(** [Form::set_radio] *)
Definition set_radio (f : Form) (n : nat) (choice : string)
  : option (Form * result unit ValueError) :=
  st <- get_state f n ;;
  match st with
  | FieldState.Radio _ options _ _ =>
      if existsb (String.eqb choice) options then
        f' <- update_field f n (fun d => dict_set d "V" (Name choice)) ;;
        Some (f', Ok tt)
      else Some (f, Err InvalidSelection)
  | _ => Some (f, Err TypeMismatch)
  end.

(** The value [set_list_box] writes for its (validated) choices. *)
Definition list_box_value (choices : list string) : Object :=
  match length choices with
  | O => Null
  | S O => Str (nth 0 choices "") Literal
  | _ => Array (map (fun x => Str x Literal) choices)
  end.

(** [Form::set_list_box] *)
Definition set_list_box (f : Form) (n : nat) (choices : list string)
  : option (Form * result unit ValueError) :=
  st <- get_state f n ;;
  match st with
  | FieldState.ListBox _ options multiselect _ _ =>
      if fold_left (fun a h => existsb (String.eqb h) options && a) choices true then
        if negb multiselect && (1 <? length choices)%nat then
          Some (f, Err TooManySelected)
        else
          f' <- update_field f n (fun d => dict_set d "V" (list_box_value choices)) ;;
          Some (f', Ok tt)
      else Some (f, Err InvalidSelection)
  | _ => Some (f, Err TypeMismatch)
  end.

(** [Form::set_combo_box] *)
Definition set_combo_box (f : Form) (n : nat) (choice : string)
  : option (Form * result unit ValueError) :=
  st <- get_state f n ;;
  match st with
  | FieldState.ComboBox _ options editable _ _ =>
      if existsb (String.eqb choice) options || editable then
        f' <- update_field f n (fun d => dict_set d "V" (Str choice Literal)) ;;
        Some (f', Ok tt)
      else Some (f, Err InvalidSelection)
  | _ => Some (f, Err TypeMismatch)
  end.

(** ** The appearance regenerator *)

(** A content-stream instruction ([lopdf::content::Operation]). *)
Record Operation : Type := mkOperation {
  operator : string;
  operands : list Object
}.

(** lopdf's stream codec, an external collaborator: [Content::decode]
    ([None] on error), [Content::encode], [Stream::decompressed_content]
    ([None] when the stream is not compressed) and [Stream::compress]
    (whose error is ignored by the caller).  Everything below is stated for
    an arbitrary codec. *)
Record Codec : Type := mkCodec {
  content_decode : string -> option (list Operation);
  content_encode : list Operation -> option string;
  decompressed_content : Dict -> string -> option string;
  compress : Dict -> string -> Dict * string
}.

(** ASCII lower case; the ignored operators are ASCII words, so this decides
    membership as [to_lowercase] does. *)
Definition ascii_lower (c : ascii) : ascii :=
  let k := nat_of_ascii c in
  if (65 <=? k)%nat && (k <=? 90)%nat then ascii_of_nat (k + 32) else c.

Fixpoint to_lowercase (s : string) : string :=
  match s with
  | EmptyString => EmptyString
  | String c r => String (ascii_lower c) (to_lowercase r)
  end.

Definition ignored_operators : list string :=
  ["bt"; "tc"; "tw"; "tz"; "g"; "tr"; "tf"; "tj"; "et"; "q"; "bmc"; "emc"].

Fixpoint trim_start_slash (s : string) : string :=
  match s with
  | String "/" r => trim_start_slash r
  | _ => s
  end.

(** [str::split(' ')]: empty pieces are kept. *)
Fixpoint split_space (s : string) : list string :=
  match s with
  | EmptyString => [""]
  | String c r =>
      let rest := split_space r in
      if Ascii.eqb c " " then "" :: rest
      else match rest with
           | h :: t => String c h :: t
           | [] => [String c ""]
           end
  end.

Fixpoint digits_value (s : string) (acc : Z) : option Z :=
  match s with
  | EmptyString => Some acc
  | String c r =>
      let k := nat_of_ascii c in
      if (48 <=? k)%nat && (k <=? 57)%nat
      then digits_value r (acc * 10 + Z.of_nat (k - 48))%Z
      else None
  end.

(** [str::parse::<i32>]: an optional sign, at least one digit, in range. *)
Definition parse_i32 (s : string) : option Z :=
  let '(neg, body) :=
    match s with
    | String "-" r => (true, r)
    | String "+" r => (false, r)
    | _ => (false, s)
    end in
  match body with
  | EmptyString => None
  | _ =>
      v <- digits_value body 0 ;;
      let v := if neg then (- v)%Z else v in
      if (- 2147483648 <=? v)%Z && (v <=? 2147483647)%Z then Some v else None
  end.

Definition unwrap_or {A} (o : option A) (d : A) : A :=
  match o with Some a => a | None => d end.

(** Font name, size, color operand and color operator out of [DA];
    [Err] when a string [DA] is not UTF-8 (the [from_utf8(bytes)?]). *)
Definition parse_da (da : Object) : result (string * Z * Z * string) unit :=
  let default_font := ("Helv", 12%Z, 0%Z, "g") in
  match da with
  | Str bytes _ =>
      match from_utf8 bytes with
      | None => Err tt
      | Some s =>
          let values := split_space (trim_start_slash s) in
          if negb (length values =? 5)%nat then Ok default_font
          else Ok (nth 0 values "",
                   unwrap_or (parse_i32 (nth 1 values "")) 0%Z,
                   unwrap_or (parse_i32 (nth 3 values "")) 0%Z,
                   nth 4 values "")
      end
  | _ => Ok default_font
  end.

(** [as_f64().unwrap_or(as_i64().unwrap_or(0) as f64)]. *)
Definition rect_coord (o : Object) : Q :=
  match o with
  | Real r => r
  | Integer i => inject_Z i
  | _ => 0%Q
  end.

(** [Stream::set_plain_content]. *)
Definition set_plain_content (sd : Dict) (content : string) : Dict :=
  dict_set (dict_remove (dict_remove sd "DecodeParms") "Filter")
           "Length" (Integer (Z.of_nat (String.length content))).

Definition op0 (o : string) : Operation := mkOperation o [].

(** [Form::regenerate_text_appearance]: [None] is a panic, [Err tt] an
    lopdf error returned by a [?]. *)
Definition regenerate_text_appearance (c : Codec) (f : Form) (n : nat)
  : option (Form * result unit unit) :=
  let fail := Some (f, Err tt) in
  field <- form_field f n ;;
  match dict_get field "V" with None => fail | Some value =>
  match dict_get field "DA" with None => fail | Some da =>
  match (r <- dict_get field "Rect" ;; as_array r) with None => fail | Some rect_objs =>
  let rect := map rect_coord rect_objs in
  match (ap <- dict_get field "AP" ;; apd <- as_dict ap ;;
         nobj <- dict_get apd "N" ;; as_reference nobj) with
  | None => fail
  | Some object_id =>
  match objects_get (objects (doc f)) object_id with
  | Some (Stream sd sc) =>
  match (match decompressed_content c sd sc with
         | Some content => content_decode c content
         | None => content_decode c sc
         end) with
  | None => fail
  | Some ops =>
  let ops := (filter (fun op => negb (existsb (String.eqb (to_lowercase (operator op)))
                                               ignored_operators)) ops
              ++ [mkOperation "BMC" [Name "Tx"]; op0 "q"; op0 "BT"])%list in
  match parse_da da with
  | Err _ => fail
  | Ok (font_name, font_size, color, color_op) =>
  let ops := (ops ++ [mkOperation "Tf" [Name font_name; Integer font_size];
                      mkOperation color_op [Integer color]])%list in
  r3 <- nth_error rect 3 ;;
  r1 <- nth_error rect 1 ;;
  let x := 3%Q in
  let y := ((1 # 2) * (r3 - r1) - (2 # 5) * inject_Z font_size)%Q in
  let ops := (ops ++ [mkOperation "Tm" [Integer 1; Integer 0; Integer 0; Integer 1;
                                        Real x; Real y];
                      mkOperation "Tj" [value]; op0 "ET"; op0 "Q"; op0 "EMC"])%list in
  match content_encode c ops with
  | Some encoded =>
      let '(sd', sc') := compress c (set_plain_content sd encoded) encoded in
      Some (mkForm (mkDocument (objects_update (objects (doc f)) object_id
                                  (fun _ => Stream sd' sc'))
                               (trailer (doc f)))
                   (form_ids f), Ok tt)
  | None => Some (f, Ok tt)
  end
  end
  end
  | _ => fail
  end
  end
  end
  end
  end.

(** [Form::set_text]: the result of the regeneration is ignored. *)
Definition set_text (c : Codec) (f : Form) (n : nat) (s : string)
  : option (Form * result unit ValueError) :=
  st <- get_state f n ;;
  match st with
  | FieldState.Text _ _ _ =>
      f1 <- update_field f n (fun d => dict_set d "V" (Str s Literal)) ;;
      r <- regenerate_text_appearance c f1 n ;;
      Some (fst r, Ok tt)
  | _ => Some (f, Err TypeMismatch)
  end.

(** ** Field discovery ([Form::load_doc]) *)

(** The [Fields] array of the AcroForm: [Root] -> [AcroForm] -> [Fields].
    lopdf's own errors ([?] on [get], [as_dict], ...) are [LopdfError]. *)
Definition acroform_fields (d : Document) : result (list Object) LoadError :=
  match dict_get (trailer d) "Root" with
  | None => Err LopdfError
  | Some root_ref =>
  match deref d root_ref with
  | Err e => Err e
  | Ok root =>
  match (root_dict <- as_dict root ;; af <- dict_get root_dict "AcroForm" ;;
         as_reference af) with
  | None => Err LopdfError
  | Some acro_id =>
  match objects_get (objects d) acro_id with
  | None => Err NotAReference
  | Some acro =>
  match (acroform <- as_dict acro ;; fields <- dict_get acroform "Fields" ;;
         as_array fields) with
  | None => Err LopdfError
  | Some fields_list => Ok fields_list
  end
  end
  end
  end
  end.

Definition has_key (d : Dict) (k : string) : bool :=
  match dict_get d k with Some _ => true | None => false end.

Definition kids_entries (dict : Dict) : list Object :=
  match dict_get dict "Kids" with
  | Some (Array kids) => kids
  | _ => []
  end.

(** The [while let Some(objref) = queue.pop_front()] loop.  The loop need not
    terminate (a [Kids] cycle), so it runs on [fuel]; [None] means the fuel ran
    out (or a panic, which cannot happen here). *)
Fixpoint discover (fuel : nat) (d : Document) (queue : list Object)
  (form_ids : list ObjectId) : option (result (list ObjectId) LoadError) :=
  match fuel with
  | O => None
  | S fuel' =>
      match queue with
      | [] => Some (Ok form_ids)
      | objref :: rest =>
          match deref d objref with
          | Err e => Some (Err e)
          | Ok (Dictionary dict) =>
              id <- as_reference objref ;;
              let form_ids := if has_key dict "FT" then (form_ids ++ [id])%list
                              else form_ids in
              discover fuel' d (rest ++ kids_entries dict)%list form_ids
          | Ok _ => discover fuel' d rest form_ids
          end
      end
  end.

(** [Form::load_doc]; [doc.decompress()] only rewrites stream payloads and is
    not modelled. *)
Definition load_doc (fuel : nat) (d : Document) : option (result Form LoadError) :=
  match acroform_fields d with
  | Err e => Some (Err e)
  | Ok fields_list =>
      r <- discover fuel d fields_list [] ;;
      match r with
      | Err e => Some (Err e)
      | Ok ids => Some (Ok (mkForm d ids))
      end
  end.

(** [Form::len] *)
Definition len (f : Form) : nat := length (form_ids f).

(** ** A sample document

    Catalog [1 0], AcroForm [2 0] with the fields: a text field [3 0] (its
    normal appearance the stream [10 0]), a checkbox [4 0] whose on-state is
    named [X], a list box [5 0], and a radio group [6 0] with the widgets
    [7 0] and [8 0]. *)

Definition ref (a : N) : Object := Reference (a, 0%N).

Definition sample_text_field : Dict :=
  [("FT", Name "Tx"); ("T", Str "name" Literal); ("V", Str "old" Literal);
   ("DA", Str "/Helv 10 Tf 0 g" Literal);
   ("Rect", Array [Integer 0; Integer 0; Integer 100; Integer 20]);
   ("AP", Dictionary [("N", ref 10)])].

Definition sample_checkbox : Dict :=
  [("FT", Name "Btn"); ("V", Name "Off"); ("AS", Name "Off");
   ("AP", Dictionary [("N", Dictionary [("Off", Null); ("X", Null)])])].

Definition sample_list_box : Dict :=
  [("FT", Name "Ch");
   ("Opt", Array [Str "A" Literal; Array [Str "b" Literal; Str "B" Literal];
                  Str "C" Literal])].

Definition sample_radio : Dict :=
  [("FT", Name "Btn"); ("Ff", Integer 98304); ("Kids", Array [ref 7; ref 8])].

Definition sample_doc : Document :=
  mkDocument
    [((1, 0), Dictionary [("Type", Name "Catalog"); ("AcroForm", ref 2)]);
     ((2, 0), Dictionary [("Fields", Array [ref 3; ref 4; ref 5; ref 6])]);
     ((3, 0), Dictionary sample_text_field);
     ((4, 0), Dictionary sample_checkbox);
     ((5, 0), Dictionary sample_list_box);
     ((6, 0), Dictionary sample_radio);
     ((7, 0), Dictionary [("AP", Dictionary [("N", Dictionary [("Off", Null); ("a", Null)])])]);
     ((8, 0), Dictionary [("AP", Dictionary [("N", Dictionary [("Off", Null)])])]);
     ((10, 0), Stream [] "BT ET")]%N
    [("Root", ref 1)].

Definition sample_form : Form := mkForm sample_doc [(3, 0); (4, 0); (5, 0); (6, 0)]%N.

(** A codec that decodes every stream to no instruction. *)
Definition trivial_codec : Codec :=
  mkCodec (fun _ => Some []) (fun _ => Some "q Q") (fun _ _ => None) (fun d s => (d, s)).

(** A pushbutton record that also carries the radio flag
    ([Ff = RADIO | PUSHBUTTON = 0x30000]). *)
Definition radio_pushbutton : Dict :=
  [("FT", Name "Btn"); ("Ff", Integer 196608)].

Definition radio_pushbutton_form : Form :=
  mkForm (mkDocument [((20, 0)%N, Dictionary radio_pushbutton)] []) [(20, 0)%N].

(** The value a list-box selection is stored as, in the words of the spec:
    nothing selected is [null], one choice a literal string, several an
    array of literal strings. *)
Definition selection_value (choices : list string) : Object :=
  match choices with
  | [] => Null
  | [c] => Str c Literal
  | cs => Array (map (fun c => Str c Literal) cs)
  end.

(** A single byte [0xE9] ([e] acute in Latin-1): not UTF-8. *)
Definition latin1_e_acute : string := String (ascii_of_nat 233) EmptyString.

(** The normal-appearance dictionary [AP]/[N] of a record, as
    [get_on_value] reaches it. *)
Definition normal_appearance (field : Dict) : option Dict :=
  ap <- dict_get field "AP" ;;
  apd <- as_dict ap ;;
  values <- dict_get apd "N" ;;
  as_dict values.

(** The on-value in the words of the spec: the first key other than
    ["Off"], else ["Yes"]. *)
Definition claimed_on_value (field : Dict) : string :=
  match normal_appearance field with
  | Some na =>
      match find (fun kv => negb (String.eqb (fst kv) "Off")) na with
      | Some (k, _) => k
      | None => "Yes"
      end
  | None => "Yes"
  end.

(** The on-value as the code resolves it: the first key that is UTF-8 text
    and other than ["Off"], else ["Yes"]. *)
Definition utf8_on_value (field : Dict) : string :=
  match normal_appearance field with
  | Some na =>
      match find (fun kv => utf8_valid (fst kv) && negb (String.eqb (fst kv) "Off")) na with
      | Some (k, _) => k
      | None => "Yes"
      end
  | None => "Yes"
  end.

(** A checkbox whose first non-["Off"] appearance key is not UTF-8. *)
Definition latin1_checkbox : Dict :=
  [("FT", Name "Btn");
   ("AP", Dictionary [("N", Dictionary [(latin1_e_acute, Null); ("Off", Null)])])].

Definition latin1_checkbox_form : Form :=
  mkForm (mkDocument [((30, 0)%N, Dictionary latin1_checkbox)] []) [(30, 0)%N].

(** The direct [AP]/[N] dictionary of a radio kid, as [get_possibilities]
    reaches it. *)
Definition kid_normal_appearance (kd : Dict) : option Dict :=
  match dict_get kd "AP" with
  | Some (Dictionary appearance_states) =>
      match dict_get appearance_states "N" with
      | Some (Dictionary na) => Some na
      | _ => None
      end
  | _ => None
  end.

(** The option of the [i]-th radio kid in the words of the spec: its first
    key other than ["Off"], else [i] in decimal. *)
Definition claimed_kid_option (kd : Dict) (i : nat) : string :=
  match kid_normal_appearance kd with
  | Some na =>
      match find (fun kv => negb (String.eqb (fst kv) "Off")) na with
      | Some (k, _) => k
      | None => nat_to_string i
      end
  | None => nat_to_string i
  end.

(** The same, with the key read as UTF-8 text (the empty string when it is
    not UTF-8), as the code renders it. *)
Definition utf8_kid_option (kd : Dict) (i : nat) : string :=
  match kid_normal_appearance kd with
  | Some na =>
      match find (fun kv => negb (String.eqb (fst kv) "Off")) na with
      | Some (k, _) => if utf8_valid k then k else ""
      | None => nat_to_string i
      end
  | None => nat_to_string i
  end.

(** A radio group with one widget whose on-state key is not UTF-8. *)
Definition latin1_radio_form : Form :=
  mkForm (mkDocument
            [((40, 0)%N, Dictionary [("FT", Name "Btn"); ("Ff", Integer 65536);
                                     ("Kids", Array [ref 41])]);
             ((41, 0)%N, Dictionary [("AP", Dictionary
                                       [("N", Dictionary [("Off", Null);
                                                          (latin1_e_acute, Null)])])])]
            [])
         [(40, 0)%N].

(** The options of a choice field in the words of the spec: a literal string
    entry as it is, the second element of a two-element array entry, every
    other entry skipped. *)
Definition claimed_options (field : Dict) : list string :=
  match dict_get field "Opt" with
  | Some (Array options) =>
      flat_map (fun x => match x with
                         | Str s Literal => [s]
                         | Array [_; Str s Literal] => [s]
                         | _ => []
                         end) options
  | _ => []
  end.

(** The options as the code derives them when it does not panic: a literal
    string entry as it is, the second element of an array entry of two or
    more elements when that is a literal string, other entries skipped, and
    empty strings dropped. *)
Definition opt_entry_options (x : Object) : list string :=
  match x with
  | Str s Literal => [s]
  | Array (_ :: Str s Literal :: _) => [s]
  | _ => []
  end.

Definition amended_options (field : Dict) : list string :=
  match dict_get field "Opt" with
  | Some (Array options) =>
      filter (fun x => negb (is_empty x)) (flat_map opt_entry_options options)
  | _ => []
  end.

(** A list box with an empty option and a three-element option entry. *)
Definition odd_options_list_box : Dict :=
  [("FT", Name "Ch");
   ("Opt", Array [Str "" Literal;
                  Array [Str "a" Literal; Str "A" Literal; Str "x" Literal]])].

Definition odd_options_form : Form :=
  mkForm (mkDocument [((50, 0)%N, Dictionary odd_options_list_box)] []) [(50, 0)%N].

(** A text field whose [Rect] has two entries only; its normal appearance is
    the stream [61 0]. *)
Definition short_rect_text_field : Dict :=
  [("FT", Name "Tx"); ("V", Str "old" Literal);
   ("DA", Str "/Helv 10 Tf 0 g" Literal);
   ("Rect", Array [Integer 0; Integer 0]);
   ("AP", Dictionary [("N", ref 61)])].

Definition short_rect_form : Form :=
  mkForm (mkDocument [((60, 0), Dictionary short_rect_text_field);
                      ((61, 0), Stream [] "BT ET")]%N [])
         [(60, 0)%N].

(** ** Field trees

    A field hierarchy as the document should hold it: a node is an object id
    whose object is a dictionary, carries [FT] exactly when [ft] holds, and
    lists its children (and only them) as references in [Kids]. *)







(** An object id that resolves to a dictionary carrying [FT]. *)
Definition resolves_to_field (d : Document) (id : ObjectId) : Prop :=
  exists dict, objects_get (objects d) id = Some (Dictionary dict) /\
               has_key dict "FT" = true.


(** ** The readonly bit

    The same form with the [READONLY] bit of the field at index [n] cleared:
    an integer [Ff] loses bit 0, everything else is kept. *)

Definition clear_flag (o : Object) : Object :=
  match o with
  | Integer i => Integer (Z.land i (Z.lnot FieldFlags.READONLY))
  | o => o
  end.

Definition clear_ff (d : Dict) : Dict :=
  map (fun kv => if String.eqb (fst kv) "Ff" then (fst kv, clear_flag (snd kv)) else kv) d.

Definition clear_obj (o : Object) : Object :=
  match o with Dictionary d => Dictionary (clear_ff d) | o => o end.

Definition clear_readonly (f : Form) (n : nat) : Form :=
  match nth_error (form_ids f) n with
  | Some id =>
      mkForm (mkDocument (objects_update (objects (doc f)) id clear_obj)
                         (trailer (doc f)))
             (form_ids f)
  | None => f
  end.

(** The state of the field with [readonly] reset. *)
Definition clear_ro_state (st : FieldState.t) : FieldState.t :=
  match st with
  | FieldState.Radio s o _ rq => FieldState.Radio s o false rq
  | FieldState.CheckBox b _ rq => FieldState.CheckBox b false rq
  | FieldState.ListBox s o m _ rq => FieldState.ListBox s o m false rq
  | FieldState.ComboBox s o e _ rq => FieldState.ComboBox s o e false rq
  | FieldState.Text t _ rq => FieldState.Text t false rq
  | st => st
  end.

(** The outcome of a setter on [f], carried over to the cleared form. *)
Definition clear_outcome {E} (n : nat) (r : option (Form * E)) : option (Form * E) :=
  option_map (fun p => (clear_readonly (fst p) n, snd p)) r.

(** Whether an outcome is the [Readonly] error. *)
Definition is_readonly_error (r : option (Form * result unit ValueError)) : bool :=
  match r with Some (_, Err Readonly) => true | _ => false end.

(** ** More of the library: names, setters, loading, [parse_font] *)

(** [Form::get_name]: [None] outer is a panic. *)
Definition get_name (f : Form) (n : nat) : option (option string) :=
  field <- form_field f n ;;
  Some (match dict_get field "T" with
        | Some (Str data _) => from_utf8 data
        | _ => None
        end).

Definition get_all_types (f : Form) : option (list FieldType.t) :=
  map_opt (get_type f) (seq 0 (len f)).

Definition get_all_names (f : Form) : option (list (option string)) :=
  map_opt (get_name f) (seq 0 (len f)).

(** An editable combo box ([Ff] = [COBMO | EDIT]) with the options [A], [B]. *)
Definition sample_combo_box : Dict :=
  [("FT", Name "Ch"); ("Ff", Integer 393216);
   ("Opt", Array [Str "A" Literal; Str "B" Literal])].

Definition sample_combo_form : Form :=
  mkForm (mkDocument [((1, 0)%N, Dictionary sample_combo_box)] []) [(1, 0)%N].

(** A document whose [Fields] list a text field [3 0] and the dangling
    reference [9 0]. *)
Definition dangling_field_doc : Document :=
  mkDocument
    [((1, 0), Dictionary [("Type", Name "Catalog"); ("AcroForm", ref 2)]);
     ((2, 0), Dictionary [("Fields", Array [ref 3; ref 9])]);
     ((3, 0), Dictionary [("FT", Name "Tx")])]%N
    [("Root", ref 1)].

(** A document whose only field [3 0] lists itself as its kid. *)
Definition self_kid_doc : Document :=
  mkDocument
    [((1, 0), Dictionary [("Type", Name "Catalog"); ("AcroForm", ref 2)]);
     ((2, 0), Dictionary [("Fields", Array [ref 3])]);
     ((3, 0), Dictionary [("FT", Name "Tx"); ("Kids", Array [ref 3])])]%N
    [("Root", ref 1)].

(** A text field with no [DA], [Rect] or [AP] entry. *)
Definition plain_text_field : Dict := [("FT", Name "Tx"); ("T", Str "note" Literal)].

Definition plain_text_form : Form :=
  mkForm (mkDocument [((1, 0)%N, Dictionary plain_text_field)] []) [(1, 0)%N].

(** A radio group whose second kid [9 0] is dangling. *)
Definition bad_kid_radio : Dict :=
  [("FT", Name "Btn"); ("Ff", Integer 32768); ("Kids", Array [ref 2; ref 9])].

Definition bad_kid_form : Form :=
  mkForm (mkDocument [((1, 0)%N, Dictionary bad_kid_radio); ((2, 0)%N, Dictionary [])] [])
         [(1, 0)%N].

Inductive Setter : Type :=
| SetText (c : Codec) (s : string)
| SetCheckBox (is_checked : bool)
| SetRadio (choice : string)
| SetListBox (choices : list string)
| SetComboBox (choice : string).

Definition apply_setter (op : Setter) (f : Form) (n : nat)
  : option (Form * result unit ValueError) :=
  match op with
  | SetText c s => set_text c f n s
  | SetCheckBox b => set_check_box f n b
  | SetRadio s => set_radio f n s
  | SetListBox cs => set_list_box f n cs
  | SetComboBox s => set_combo_box f n s
  end.

Definition is_set_text (op : Setter) : bool :=
  match op with SetText _ _ => true | _ => false end.

(** The text arguments are Rust [String]s (or [&str]s): valid UTF-8. *)
Definition setter_utf8 (op : Setter) : Prop :=
  match op with
  | SetText _ s | SetRadio s | SetComboBox s => utf8_valid s = true
  | SetListBox cs => Forall (fun c => utf8_valid c = true) cs
  | SetCheckBox _ => True
  end.

(** The kind of field each setter is written for. *)
Definition setter_accepts (op : Setter) (st : FieldState.t) : bool :=
  match op, st with
  | SetText _ _, FieldState.Text _ _ _ => true
  | SetCheckBox _, FieldState.CheckBox _ _ _ => true
  | SetRadio _, FieldState.Radio _ _ _ _ => true
  | SetListBox _, FieldState.ListBox _ _ _ _ _ => true
  | SetComboBox _, FieldState.ComboBox _ _ _ _ _ => true
  | _, _ => false
  end.

(** The ids of the entries of a [Fields] array that are references to
    dictionaries carrying [FT], in order. *)
Definition top_level_fields (d : Document) (fields_list : list Object) : list ObjectId :=
  flat_map (fun o => match o with
                     | Reference id =>
                         match objects_get (objects d) id with
                         | Some (Dictionary dict) => if has_key dict "FT" then [id] else []
                         | _ => []
                         end
                     | _ => []
                     end) fields_list.

Definition same_except_value (d1 d2 : Dict) : Prop :=
  forall k, k <> "V" -> k <> "AS" -> dict_get d1 k = dict_get d2 k.

Definition obj_step (o1 o2 : option Object) : Prop :=
  o2 = o1 \/
  (exists a b a' b', o1 = Some (Stream a b) /\ o2 = Some (Stream a' b')) \/
  (exists d1 d2, o1 = Some (Dictionary d1) /\ o2 = Some (Dictionary d2) /\
                 same_except_value d1 d2).

Definition keeps_keys (g : Dict -> Dict) : Prop :=
  forall d k, k <> "V" -> k <> "AS" -> dict_get (g d) k = dict_get d k.

Definition form_step (n : nat) (f f' : Form) : Prop :=
  form_ids f' = form_ids f /\ trailer (doc f') = trailer (doc f) /\
  (forall x, obj_step (objects_get (objects (doc f)) x) (objects_get (objects (doc f')) x)) /\
  (forall x, nth_error (form_ids f) n <> Some x ->
     objects_get (objects (doc f')) x = objects_get (objects (doc f)) x \/
     exists a b a' b', objects_get (objects (doc f)) x = Some (Stream a b) /\
                       objects_get (objects (doc f')) x = Some (Stream a' b')).

(** What [get_state] reports apart from the current value. *)
Definition state_config (st : FieldState.t) : FieldState.t :=
  match st with
  | FieldState.Radio _ o ro rq => FieldState.Radio "" o ro rq
  | FieldState.CheckBox _ ro rq => FieldState.CheckBox false ro rq
  | FieldState.ListBox _ o ms ro rq => FieldState.ListBox [] o ms ro rq
  | FieldState.ComboBox _ o ed ro rq => FieldState.ComboBox [] o ed ro rq
  | FieldState.Text _ ro rq => FieldState.Text "" ro rq
  | st => st
  end.

(** ** [utils::parse_font] *)
(** [char::is_whitespace] on UTF-8 bytes: the one-byte white space
    characters U+0009..U+000D and U+0020, the two-byte ones U+0085 and
    U+00A0 ([C2 85], [C2 A0]) and the three-byte ones U+1680 ([E1 9A 80]),
    U+2000..U+200A ([E2 80 80]..[E2 80 8A]), U+2028, U+2029, U+202F
    ([E2 80 A8], [E2 80 A9], [E2 80 AF]), U+205F ([E2 81 9F]) and U+3000
    ([E3 80 80]). *)
Definition ws1 (c : ascii) : bool :=
  let k := nat_of_ascii c in
  ((9 <=? k)%nat && (k <=? 13)%nat) || (k =? 32)%nat.

Definition ws2 (c c1 : ascii) : bool :=
  let k := nat_of_ascii c in
  let k1 := nat_of_ascii c1 in
  (k =? 194)%nat && ((k1 =? 133)%nat || (k1 =? 160)%nat).

Definition ws3 (c c1 c2 : ascii) : bool :=
  let k := nat_of_ascii c in
  let k1 := nat_of_ascii c1 in
  let k2 := nat_of_ascii c2 in
  ((k =? 225)%nat && (k1 =? 154)%nat && (k2 =? 128)%nat)
  || ((k =? 226)%nat && (k1 =? 128)%nat
      && (((128 <=? k2)%nat && (k2 <=? 138)%nat) || (k2 =? 168)%nat
          || (k2 =? 169)%nat || (k2 =? 175)%nat))
  || ((k =? 226)%nat && (k1 =? 129)%nat && (k2 =? 159)%nat)
  || ((k =? 227)%nat && (k1 =? 128)%nat && (k2 =? 128)%nat).

(** [str::trim_start]. *)
Fixpoint trim_start (s : string) : string :=
  match s with
  | EmptyString => EmptyString
  | String c r =>
      if ws1 c then trim_start r else
      match r with
      | EmptyString => s
      | String c1 r1 =>
          if ws2 c c1 then trim_start r1 else
          match r1 with
          | EmptyString => s
          | String c2 r2 => if ws3 c c1 c2 then trim_start r2 else s
          end
      end
  end.

Fixpoint string_rev (s : string) : string :=
  match s with
  | EmptyString => EmptyString
  | String c r => string_rev r ++ String c EmptyString
  end.

(** [trim_start] on the reversed bytes: the white space characters read
    backwards. *)
Fixpoint trim_start_rev (s : string) : string :=
  match s with
  | EmptyString => EmptyString
  | String c r =>
      if ws1 c then trim_start_rev r else
      match r with
      | EmptyString => s
      | String c1 r1 =>
          if ws2 c1 c then trim_start_rev r1 else
          match r1 with
          | EmptyString => s
          | String c2 r2 => if ws3 c2 c1 c then trim_start_rev r2 else s
          end
      end
  end.

(** [str::trim_end] and [str::trim]. *)
Definition trim_end (s : string) : string :=
  string_rev (trim_start_rev (string_rev s)).

Definition trim (s : string) : string := trim_end (trim_start s).

(** [str::split("Tf")]: the matches are found left to right and do not
    overlap; empty pieces are kept. *)
Definition cons_head (c : ascii) (l : list string) : list string :=
  match l with
  | h :: t => String c h :: t
  | [] => [String c EmptyString]
  end.

Fixpoint split_tf (s : string) : list string :=
  match s with
  | EmptyString => [""]
  | String c r =>
      match r with
      | EmptyString => [String c EmptyString]
      | String c1 r1 =>
          if Ascii.eqb c "T" && Ascii.eqb c1 "f" then "" :: split_tf r1
          else cons_head c (split_tf r)
      end
  end.

(** [parse_font]: the font name and size before [Tf], and a gray, RGB or
    CMYK color chosen by the number of words after it. *)
Definition parse_font (font_string : option string)
  : (string * Z) * (string * Z * Z * Z * Z) :=
  let default_font := ("Helv", 12%Z) in
  let default_color := ("g", 0%Z, 0%Z, 0%Z, 0%Z) in
  match font_string with
  | Some font_string =>
      let font := split_tf (trim_start_slash font_string) in
      if (length font <? 2)%nat then (default_font, default_color)
      else
        let font_family := split_space (trim (nth 0 font "")) in
        let font_color := split_space (trim (nth 1 font "")) in
        let font :=
          if (2 <=? length font_family)%nat
          then (nth 0 font_family "",
                unwrap_or (parse_i32 (nth 1 font_family "")) 0%Z)
          else default_font in
        let color :=
          if (length font_color =? 2)%nat then
            ("g", unwrap_or (parse_i32 (nth 0 font_color "")) 0%Z, 0%Z, 0%Z, 0%Z)
          else if (length font_color =? 4)%nat then
            ("rg", unwrap_or (parse_i32 (nth 0 font_color "")) 0%Z,
             unwrap_or (parse_i32 (nth 1 font_color "")) 0%Z,
             unwrap_or (parse_i32 (nth 2 font_color "")) 0%Z, 0%Z)
          else if (length font_color =? 5)%nat then
            ("k", unwrap_or (parse_i32 (nth 0 font_color "")) 0%Z,
             unwrap_or (parse_i32 (nth 1 font_color "")) 0%Z,
             unwrap_or (parse_i32 (nth 2 font_color "")) 0%Z,
             unwrap_or (parse_i32 (nth 3 font_color "")) 0%Z)
          else default_color in
        (font, color)
  | None => (default_font, default_color)
  end.

(** Whether [s] contains the text [Tf]. *)
Fixpoint has_tf (s : string) : bool :=
  match s with
  | EmptyString => false
  | String c r =>
      match r with
      | EmptyString => false
      | String c1 _ => (Ascii.eqb c "T" && Ascii.eqb c1 "f") || has_tf r
      end
  end.

Fixpoint all_chars (p : ascii -> bool) (s : string) : bool :=
  match s with
  | EmptyString => true
  | String c r => p c && all_chars p r
  end.

Definition is_alnum (c : ascii) : bool :=
  let k := nat_of_ascii c in
  ((48 <=? k)%nat && (k <=? 57)%nat) || ((65 <=? k)%nat && (k <=? 90)%nat)
  || ((97 <=? k)%nat && (k <=? 122)%nat).

(** A non-empty ASCII word of letters and digits without [Tf]. *)
Definition alnum_word (s : string) : bool :=
  match s with
  | EmptyString => false
  | _ => all_chars is_alnum s && negb (has_tf s)
  end.

Definition is_digit (c : ascii) : bool :=
  let k := nat_of_ascii c in (48 <=? k)%nat && (k <=? 57)%nat.

Definition num_char (c : ascii) : bool :=
  is_digit c || Ascii.eqb c "-" || Ascii.eqb c "+".

(** A byte that [trim], [split(' ')], [split("Tf")] and
    [trim_start_matches('/')] all leave in place. *)
Definition plain_char (c : ascii) : bool :=
  (nat_of_ascii c <? 128)%nat && negb (ws1 c) && negb (Ascii.eqb c " ")
  && negb (Ascii.eqb c "/").

(** * Lemmas about the object store and dictionaries *)

Lemma oid_eqb_reflect (a b : ObjectId) : reflect (a = b) (oid_eqb a b).
Proof.
  destruct a as [a1 a2], b as [b1 b2]; unfold oid_eqb; simpl.
  destruct (N.eqb_spec a1 b1), (N.eqb_spec a2 b2); simpl; constructor;
    congruence.
Qed.

Lemma objects_get_update objs id g id' :
  objects_get (objects_update objs id g) id' =
  if oid_eqb id' id then option_map g (objects_get objs id')
  else objects_get objs id'.
Proof.
  induction objs as [|[id0 o] objs IH]; simpl.
  - destruct (oid_eqb id' id); reflexivity.
  - destruct (oid_eqb_reflect id id0) as [E1|E1]; simpl;
      destruct (oid_eqb_reflect id' id0) as [E2|E2]; rewrite ?IH;
      destruct (oid_eqb_reflect id' id) as [E3|E3]; subst; try congruence;
      reflexivity.
Qed.

Lemma dict_get_remove d k k' :
  dict_get (dict_remove d k) k' = if String.eqb k' k then None else dict_get d k'.
Proof.
  induction d as [|[k0 v0] d IH]; simpl.
  - destruct (String.eqb k' k); reflexivity.
  - destruct (String.eqb_spec k k0) as [->|Hne]; simpl.
    + rewrite IH. destruct (String.eqb_spec k' k0); reflexivity.
    + rewrite IH. destruct (String.eqb_spec k' k0) as [->|];
        destruct (String.eqb_spec k0 k); congruence.
Qed.

Lemma dict_get_app (d1 d2 : Dict) k :
  dict_get (d1 ++ d2)%list k =
  match dict_get d1 k with Some v => Some v | None => dict_get d2 k end.
Proof.
  induction d1 as [|[k0 v0] d1 IH]; simpl; [reflexivity|].
  destruct (String.eqb k k0); [reflexivity|exact IH].
Qed.

Lemma dict_get_set d k v k' :
  dict_get (dict_set d k v) k' = if String.eqb k' k then Some v else dict_get d k'.
Proof.
  unfold dict_set. rewrite dict_get_app, dict_get_remove. simpl.
  destruct (String.eqb_spec k' k) as [->|Hne].
  - simpl. destruct (String.eqb_spec k k); congruence.
  - destruct (dict_get d k') eqn:E; [reflexivity|]. simpl.
    destruct (String.eqb_spec k' k); congruence.
Qed.

(** [update_field] rewrites the field dictionary and nothing else that
    [form_field] reads at the same index. *)
Lemma form_field_update f n g field f' :
  form_field f n = Some field ->
  update_field f n g = Some f' ->
  form_field f' n = Some (g field).
Proof.
  unfold form_field, update_field.
  destruct (nth_error (form_ids f) n) as [id|] eqn:Hid; simpl; [|discriminate].
  destruct (objects_get (objects (doc f)) id) as [o|] eqn:Ho; simpl; [|discriminate].
  intros Hd Hf'. destruct o; simpl in Hd; try discriminate. injection Hd as <-.
  injection Hf' as <-. simpl. rewrite Hid, objects_get_update.
  destruct (oid_eqb_reflect id id); [|congruence]. rewrite Ho. reflexivity.
Qed.

Lemma update_field_some f n g field :
  form_field f n = Some field ->
  exists f', update_field f n g = Some f' /\ form_ids f' = form_ids f.
Proof.
  unfold form_field, update_field.
  destruct (nth_error (form_ids f) n) as [id|]; simpl; [|discriminate].
  destruct (objects_get (objects (doc f)) id) as [o|]; simpl; [|discriminate].
  intros Hd. rewrite Hd. eexists. split; reflexivity.
Qed.

(** The readers of the classifier only look at [FT] and [Ff]. *)
Lemma get_field_flags_ext d1 d2 :
  dict_get d1 "Ff" = dict_get d2 "Ff" -> get_field_flags d1 = get_field_flags d2.
Proof. unfold get_field_flags. intros ->. reflexivity. Qed.

Lemma field_type_ext d1 d2 :
  dict_get d1 "FT" = dict_get d2 "FT" -> dict_get d1 "Ff" = dict_get d2 "Ff" ->
  field_type d1 = field_type d2.
Proof.
  intros H1 H2. unfold field_type. rewrite H1, (get_field_flags_ext d1 d2 H2).
  reflexivity.
Qed.

Lemma is_read_only_ext d1 d2 :
  dict_get d1 "Ff" = dict_get d2 "Ff" -> is_read_only d1 = is_read_only d2.
Proof. intros H. unfold is_read_only. rewrite (get_field_flags_ext _ _ H). reflexivity. Qed.

Lemma is_required_ext d1 d2 :
  dict_get d1 "Ff" = dict_get d2 "Ff" -> is_required d1 = is_required d2.
Proof. intros H. unfold is_required. rewrite (get_field_flags_ext _ _ H). reflexivity. Qed.

Lemma choice_options_ext d1 d2 :
  dict_get d1 "Opt" = dict_get d2 "Opt" -> choice_options d1 = choice_options d2.
Proof. unfold choice_options. intros ->. reflexivity. Qed.

(** [get_state] with the field record looked up once. *)
Lemma get_state_unfold f n field :
  form_field f n = Some field ->
  get_state f n =
  (ty <- field_type field ;;
   match ty with
   | FieldType.Button => Some FieldState.Button
   | FieldType.Radio =>
       selected <- match dict_get field "V" with
                   | Some name => as_name_str name
                   | None => match dict_get field "AS" with
                             | Some name => as_name_str name
                             | None => Some ""
                             end
                   end ;;
       id <- nth_error (form_ids f) n ;;
       options <- get_possibilities (doc f) id ;;
       ro <- is_read_only field ;;
       rq <- is_required field ;;
       Some (FieldState.Radio selected options ro rq)
   | FieldType.CheckBox =>
       is_checked <- match dict_get field "V" with
                     | Some name => name_is_yes name
                     | None => match dict_get field "AS" with
                               | Some name => name_is_yes name
                               | None => Some false
                               end
                     end ;;
       ro <- is_read_only field ;;
       rq <- is_required field ;;
       Some (FieldState.CheckBox is_checked ro rq)
   | FieldType.ListBox =>
       selected <- choice_selected field ;;
       options <- choice_options field ;;
       flags <- get_field_flags field ;;
       ro <- is_read_only field ;;
       rq <- is_required field ;;
       Some (FieldState.ListBox selected options
               (intersects (from_bits_truncate ChoiceFlags.all flags)
                  ChoiceFlags.MULTISELECT) ro rq)
   | FieldType.ComboBox =>
       selected <- choice_selected field ;;
       options <- choice_options field ;;
       flags <- get_field_flags field ;;
       ro <- is_read_only field ;;
       rq <- is_required field ;;
       Some (FieldState.ComboBox selected options
               (intersects (from_bits_truncate ChoiceFlags.all flags)
                  ChoiceFlags.EDIT) ro rq)
   | FieldType.Text =>
       text <- match dict_get field "V" with
               | Some (Str s Literal) => from_utf8 s
               | _ => Some ""
               end ;;
       ro <- is_read_only field ;;
       rq <- is_required field ;;
       Some (FieldState.Text text ro rq)
   | FieldType.Unknown => Some FieldState.Unknown
   end).
Proof. intros H. unfold get_state, get_type. rewrite H. reflexivity. Qed.

(** Destructs the [option] matches of a hypothesis [Some _ = ...]-style
    computation until it is decided. *)
Ltac inv_opt H :=
  repeat (simpl in H;
          match type of H with
          | context [match ?x with _ => _ end] =>
              let E := fresh "E" in destruct x eqn:E; try discriminate H
          end).

Lemma intersects_truncate all fl m :
  Z.land all m = m ->
  intersects (from_bits_truncate all fl) m = intersects fl m.
Proof.
  intros H. unfold intersects, from_bits_truncate.
  rewrite <- Z.land_assoc, H. reflexivity.
Qed.

Lemma fold_member_all (opts choices : list string) (a : bool) :
  fold_left (fun a h => existsb (String.eqb h) opts && a) choices a =
  a && forallb (fun h => existsb (String.eqb h) opts) choices.
Proof.
  revert a. induction choices as [|c cs IH]; intros a; simpl.
  - rewrite andb_true_r. reflexivity.
  - rewrite IH. destruct a, (existsb (String.eqb c) opts),
      (forallb (fun h => existsb (String.eqb h) opts) cs); reflexivity.
Qed.

Lemma member_all_spec (opts choices : list string) :
  forallb (fun h => existsb (String.eqb h) opts) choices = true <->
  (forall c, In c choices -> In c opts).
Proof.
  rewrite forallb_forall. split; intros H c Hc; specialize (H c Hc).
  - apply existsb_exists in H as [x [Hx Hcx]].
    apply String.eqb_eq in Hcx. subst. exact Hx.
  - apply existsb_exists. exists c. split; [exact H|apply String.eqb_refl].
Qed.

Lemma list_box_value_selection_value choices :
  list_box_value choices = selection_value choices.
Proof. destruct choices as [|c [|c' cs]]; reflexivity. Qed.

Lemma get_state_form_field f n st :
  get_state f n = Some st -> exists field, form_field f n = Some field.
Proof.
  unfold get_state. destruct (form_field f n) as [field|]; [|discriminate].
  intros _. exists field. reflexivity.
Qed.

(** The list-box branch of [get_state], read backwards. *)
Lemma get_state_list_box f n field sel opts ms ro rq :
  form_field f n = Some field ->
  get_state f n = Some (FieldState.ListBox sel opts ms ro rq) ->
  field_type field = Some FieldType.ListBox /\
  choice_selected field = Some sel /\ choice_options field = Some opts /\
  (exists flags, get_field_flags field = Some flags /\
     ms = intersects (from_bits_truncate ChoiceFlags.all flags) ChoiceFlags.MULTISELECT) /\
  is_read_only field = Some ro /\ is_required field = Some rq.
Proof.
  intros Hf H. rewrite (get_state_unfold _ _ _ Hf) in H.
  destruct (field_type field) as [ty|] eqn:Ht; [|discriminate].
  destruct ty; simpl in H; inv_opt H; try discriminate; injection H as <- <- <- <- <-.
  repeat split; try reflexivity; try assumption. eexists; split; reflexivity.
Qed.

(** The checkbox branch of [get_state], read backwards. *)
Lemma get_state_check_box f n field b ro rq :
  form_field f n = Some field ->
  get_state f n = Some (FieldState.CheckBox b ro rq) ->
  field_type field = Some FieldType.CheckBox /\
  is_read_only field = Some ro /\ is_required field = Some rq.
Proof.
  intros Hf H. rewrite (get_state_unfold _ _ _ Hf) in H.
  destruct (field_type field) as [ty|] eqn:Ht; [|discriminate].
  destruct ty; simpl in H; inv_opt H; try discriminate; injection H as <- <- <-;
    repeat split; assumption.
Qed.

Lemma on_value_scan_utf8 options o s :
  (forall s', o = Some s' -> utf8_valid s' = true) ->
  on_value_scan options o = Some s -> utf8_valid s = true.
Proof.
  revert o. induction options as [|[name v] rest IH]; intros o Ho H; simpl in H.
  - exact (Ho s H).
  - refine (IH _ _ H). intros s' Hs'. unfold from_utf8 in Hs'.
    destruct (utf8_valid name) eqn:Hv.
    + destruct (negb (String.eqb name "Off") && match o with None => true | Some _ => false end).
      * injection Hs' as <-. exact Hv.
      * exact (Ho s' Hs').
    + exact (Ho s' Hs').
Qed.

(** The on-value of a checkbox is always a UTF-8 name. *)
Lemma get_on_value_utf8 field : utf8_valid (get_on_value field) = true.
Proof.
  unfold get_on_value.
  destruct (match dict_get field "AP" with
            | Some ap => match as_dict ap with
                         | Some dict => match dict_get dict "N" with
                                        | Some values => match as_dict values with
                                                         | Some options => on_value_scan options None
                                                         | None => None end
                                        | None => None end
                         | None => None end
            | None => None end) as [o|] eqn:E; [|reflexivity].
  destruct (dict_get field "AP") as [ap|]; [|discriminate].
  destruct (as_dict ap) as [dict|]; [|discriminate].
  destruct (dict_get dict "N") as [values|]; [|discriminate].
  destruct (as_dict values) as [options|]; [|discriminate].
  apply (on_value_scan_utf8 options None o); [discriminate|exact E].
Qed.

(** * Claims *)

(** C5: for a record of type [Btn] whose flags read as [flags], [get_type]
    yields [Radio] when [flags] meets [RADIO | NO_TOGGLE_TO_OFF], else
    [Button] when it meets [PUSHBUTTON], else [CheckBox]; in particular a
    record with both [RADIO] and [PUSHBUTTON] set is a [Radio], not a
    [Button]. *)
Theorem get_type_radio_before_pushbutton (f : Form) (n : nat) (field : Dict) (flags : Z) :
  form_field f n = Some field ->
  dict_get field "FT" = Some (Name "Btn") ->
  get_field_flags field = Some flags ->
  get_type f n =
    Some (if intersects flags (Z.lor ButtonFlags.RADIO ButtonFlags.NO_TOGGLE_TO_OFF)
          then FieldType.Radio
          else if intersects flags ButtonFlags.PUSHBUTTON then FieldType.Button
          else FieldType.CheckBox) /\
  (Z.land flags (Z.lor ButtonFlags.RADIO ButtonFlags.PUSHBUTTON)
     = Z.lor ButtonFlags.RADIO ButtonFlags.PUSHBUTTON ->
   get_type f n = Some FieldType.Radio).
Proof.
  intros Hf Hft Hfl.
  assert (Hty : get_type f n =
    Some (if intersects flags (Z.lor ButtonFlags.RADIO ButtonFlags.NO_TOGGLE_TO_OFF)
          then FieldType.Radio
          else if intersects flags ButtonFlags.PUSHBUTTON then FieldType.Button
          else FieldType.CheckBox)).
  { unfold get_type. rewrite Hf. unfold field_type. rewrite Hft. simpl.
    rewrite Hfl. unfold classify_button.
    rewrite !intersects_truncate by reflexivity. reflexivity. }
  split; [exact Hty|]. intros Hboth. rewrite Hty.
  assert (Hbit : Z.testbit flags 16 = true).
  { assert (E := f_equal (fun z => Z.testbit z 16) Hboth). cbv beta in E.
    rewrite Z.land_spec in E.
    replace (Z.testbit (Z.lor ButtonFlags.RADIO ButtonFlags.PUSHBUTTON) 16)
      with true in E by reflexivity.
    apply andb_prop in E. apply E. }
  unfold intersects.
  destruct (Z.land flags (Z.lor ButtonFlags.RADIO ButtonFlags.NO_TOGGLE_TO_OFF) =? 0)%Z eqn:E.
  - apply Z.eqb_eq in E. assert (E' := f_equal (fun z => Z.testbit z 16) E).
    cbv beta in E'. rewrite Z.land_spec, Hbit in E'. discriminate E'.
  - reflexivity.
Qed.

Lemma get_type_radio_before_pushbutton_witness :
  (form_field radio_pushbutton_form 0 = Some radio_pushbutton /\
   dict_get radio_pushbutton "FT" = Some (Name "Btn") /\
   get_field_flags radio_pushbutton = Some 196608%Z) /\
  get_type radio_pushbutton_form 0 = Some FieldType.Radio.
Proof.
  split; [repeat split; reflexivity|].
  apply (proj2 (get_type_radio_before_pushbutton radio_pushbutton_form 0
                  radio_pushbutton 196608 eq_refl eq_refl eq_refl)).
  reflexivity.
Defined.

(** C3: on a list box whose state reads with options [opts] and multiselect
    flag [ms], [set_list_box n choices] fails with [InvalidSelection] unless
    every choice is in [opts]; else with [TooManySelected] when there are
    several choices and [ms] is off; else it succeeds and stores [V] as
    [null], one literal string or an array of literal strings. *)
Theorem set_list_box_validation (f : Form) (n : nat) (choices : list string)
  (sel opts : list string) (ms ro rq : bool) :
  get_state f n = Some (FieldState.ListBox sel opts ms ro rq) ->
  exists field, form_field f n = Some field /\
  (~ (forall c, In c choices -> In c opts) ->
   set_list_box f n choices = Some (f, Err InvalidSelection)) /\
  ((forall c, In c choices -> In c opts) -> ms = false -> (1 < length choices)%nat ->
   set_list_box f n choices = Some (f, Err TooManySelected)) /\
  ((forall c, In c choices -> In c opts) -> (ms = true \/ (length choices <= 1)%nat) ->
   exists f', set_list_box f n choices = Some (f', Ok tt) /\
              form_field f' n = Some (dict_set field "V" (selection_value choices))).
Proof.
  intros H. destruct (get_state_form_field _ _ _ H) as [field Hf].
  exists field. split; [exact Hf|].
  unfold set_list_box. rewrite H. rewrite fold_member_all. simpl.
  split; [|split].
  - intros Hnot. destruct (forallb _ choices) eqn:E; [|reflexivity].
    exfalso. apply Hnot. apply member_all_spec. exact E.
  - intros Hall -> Hlen. apply member_all_spec in Hall. rewrite Hall.
    simpl. apply Nat.ltb_lt in Hlen. rewrite Hlen. reflexivity.
  - intros Hall Hms. apply member_all_spec in Hall. rewrite Hall.
    assert (Hc : negb ms && (1 <? length choices)%nat = false).
    { destruct Hms as [->|Hle]; [reflexivity|].
      apply Nat.ltb_ge in Hle. rewrite Hle. apply andb_false_r. }
    rewrite Hc.
    destruct (update_field_some f n (fun d => dict_set d "V" (list_box_value choices))
                field Hf) as [f' [Hu _]].
    rewrite Hu. exists f'. split; [reflexivity|].
    rewrite (form_field_update _ _ _ _ _ Hf Hu), list_box_value_selection_value.
    reflexivity.
Qed.

Lemma set_list_box_validation_witness :
  get_state sample_form 2 = Some (FieldState.ListBox [] ["A"; "B"; "C"] false false false) /\
  set_list_box sample_form 2 ["A"; "Z"] = Some (sample_form, Err InvalidSelection).
Proof.
  split; [reflexivity|].
  destruct (set_list_box_validation sample_form 2 ["A"; "Z"] [] ["A"; "B"; "C"]
              false false false eq_refl) as [field [_ [Hinv _]]].
  apply Hinv. intros Hall. specialize (Hall "Z" (or_intror (or_introl eq_refl))).
  simpl in Hall. repeat destruct Hall as [Hall|Hall]; try discriminate; contradiction.
Defined.

(** C10: on every list box whose state reads, [set_list_box n []] succeeds
    whatever the multiselect flag and the options, stores [V = null], and
    [get_state n] then reports an empty selection (the rest unchanged). *)
Theorem set_list_box_empty_succeeds (f : Form) (n : nat)
  (sel opts : list string) (ms ro rq : bool) :
  get_state f n = Some (FieldState.ListBox sel opts ms ro rq) ->
  exists field f',
    form_field f n = Some field /\
    set_list_box f n [] = Some (f', Ok tt) /\
    form_field f' n = Some (dict_set field "V" Null) /\
    get_state f' n = Some (FieldState.ListBox [] opts ms ro rq).
Proof.
  intros H. destruct (get_state_form_field _ _ _ H) as [field Hf].
  destruct (get_state_list_box _ _ _ _ _ _ _ _ Hf H)
    as (Ht & Hsel & Hopt & [fl [Hfl Hms]] & Hro & Hrq).
  destruct (update_field_some f n (fun d => dict_set d "V" (list_box_value []))
              field Hf) as [f' [Hu _]].
  pose proof (form_field_update _ _ _ _ _ Hf Hu) as Hf'. simpl in Hf'.
  exists field, f'. split; [exact Hf|]. split.
  { unfold set_list_box. rewrite H. simpl. rewrite andb_false_r, Hu. reflexivity. }
  split; [exact Hf'|].
  rewrite (get_state_unfold _ _ _ Hf').
  rewrite (field_type_ext _ field) by (rewrite dict_get_set; reflexivity).
  rewrite Ht. simpl.
  unfold choice_selected. rewrite dict_get_set. simpl.
  rewrite (choice_options_ext _ field) by (rewrite dict_get_set; reflexivity).
  rewrite Hopt.
  rewrite (get_field_flags_ext _ field) by (rewrite dict_get_set; reflexivity).
  rewrite Hfl.
  rewrite (is_read_only_ext _ field) by (rewrite dict_get_set; reflexivity).
  rewrite (is_required_ext _ field) by (rewrite dict_get_set; reflexivity).
  rewrite Hro, Hrq, Hms. reflexivity.
Qed.

Lemma set_list_box_empty_succeeds_witness :
  get_state sample_form 2 = Some (FieldState.ListBox [] ["A"; "B"; "C"] false false false) /\
  exists field f',
    form_field sample_form 2 = Some field /\
    set_list_box sample_form 2 [] = Some (f', Ok tt) /\
    form_field f' 2 = Some (dict_set field "V" Null) /\
    get_state f' 2 = Some (FieldState.ListBox [] ["A"; "B"; "C"] false false false).
Proof.
  split; [reflexivity|].
  exact (set_list_box_empty_succeeds sample_form 2 [] ["A"; "B"; "C"] false false false
           eq_refl).
Defined.

(** C9: on every checkbox whose state reads, [set_check_box n true]
    succeeds, and [get_state n] afterwards reports [is_checked] exactly when
    the on-value is ["Yes"]; so with any other on-value it reads back
    unchecked. *)
Theorem check_box_round_trip_needs_yes (f : Form) (n : nat) (b ro rq : bool)
  (field : Dict) :
  get_state f n = Some (FieldState.CheckBox b ro rq) ->
  form_field f n = Some field ->
  exists f',
    set_check_box f n true = Some (f', Ok tt) /\
    get_state f' n =
      Some (FieldState.CheckBox (String.eqb (get_on_value field) "Yes") ro rq) /\
    (get_on_value field <> "Yes" ->
     get_state f' n = Some (FieldState.CheckBox false ro rq)).
Proof.
  intros H Hf.
  destruct (get_state_check_box _ _ _ _ _ _ Hf H) as (Ht & Hro & Hrq).
  set (on := get_on_value field).
  destruct (update_field_some f n
              (fun d => dict_set (dict_set d "V" (Name on)) "AS" (Name on))
              field Hf) as [f' [Hu _]].
  pose proof (form_field_update _ _ _ _ _ Hf Hu) as Hf'. simpl in Hf'.
  assert (Hst : get_state f' n =
                Some (FieldState.CheckBox (String.eqb on "Yes") ro rq)).
  { rewrite (get_state_unfold _ _ _ Hf').
    rewrite (field_type_ext _ field) by (rewrite !dict_get_set; reflexivity).
    rewrite Ht. simpl. rewrite !dict_get_set. simpl.
    unfold name_is_yes, as_name_str, from_utf8.
    assert (Hv : utf8_valid on = true) by apply get_on_value_utf8.
    rewrite Hv. simpl.
    rewrite (is_read_only_ext _ field) by (rewrite !dict_get_set; reflexivity).
    rewrite (is_required_ext _ field) by (rewrite !dict_get_set; reflexivity).
    rewrite Hro, Hrq. reflexivity. }
  exists f'. split; [|split].
  - unfold set_check_box. rewrite H, Hf. simpl. fold on. rewrite Hu. reflexivity.
  - exact Hst.
  - intros Hne. rewrite Hst. destruct (String.eqb_spec on "Yes"); [contradiction|].
    reflexivity.
Qed.

Lemma check_box_round_trip_needs_yes_witness :
  (get_state sample_form 1 = Some (FieldState.CheckBox false false false) /\
   form_field sample_form 1 = Some sample_checkbox) /\
  exists f',
    set_check_box sample_form 1 true = Some (f', Ok tt) /\
    get_state f' 1 = Some (FieldState.CheckBox false false false).
Proof.
  split; [split; reflexivity|].
  destruct (check_box_round_trip_needs_yes sample_form 1 false false false
              sample_checkbox eq_refl eq_refl) as [f' [Hs [_ Hoff]]].
  exists f'. split; [exact Hs|]. apply Hoff. discriminate.
Defined.

(** ** C6: the checkbox on-value *)

Lemma on_value_scan_some options s : on_value_scan options (Some s) = Some s.
Proof.
  induction options as [|[name v] rest IH]; simpl; [reflexivity|].
  destruct (from_utf8 name); [|exact IH].
  rewrite andb_false_r. exact IH.
Qed.

Lemma on_value_scan_none options :
  on_value_scan options None =
  match find (fun kv => utf8_valid (fst kv) && negb (String.eqb (fst kv) "Off")) options with
  | Some (k, _) => Some k
  | None => None
  end.
Proof.
  induction options as [|[name v] rest IH]; simpl; [reflexivity|].
  unfold from_utf8. destruct (utf8_valid name); simpl; [|exact IH].
  destruct (negb (String.eqb name "Off")); simpl; [|exact IH].
  apply on_value_scan_some.
Qed.

Lemma get_on_value_spec field : get_on_value field = utf8_on_value field.
Proof.
  unfold get_on_value, utf8_on_value, normal_appearance.
  destruct (dict_get field "AP") as [ap|]; [|reflexivity]. simpl.
  destruct (as_dict ap) as [dict|]; [|reflexivity]. simpl.
  destruct (dict_get dict "N") as [values|]; [|reflexivity]. simpl.
  destruct (as_dict values) as [options|]; [|reflexivity].
  rewrite on_value_scan_none.
  destruct (find _ options) as [[k v]|]; reflexivity.
Qed.

(** C6 (as amended): on every checkbox whose state reads, [set_check_box n
    checked] succeeds and stores [V] and [AS] as the same name: ["Off"] when
    unchecked, and when checked the first key of the normal-appearance
    dictionary that is UTF-8 text other than ["Off"], ["Yes"] when there is
    none.  On the sample checkbox with keys [Off] and [X] this is [X]. *)
Theorem set_check_box_writes_on_value (f : Form) (n : nat) (b ro rq : bool)
  (field : Dict) (checked : bool) :
  get_state f n = Some (FieldState.CheckBox b ro rq) ->
  form_field f n = Some field ->
  exists f' field',
    set_check_box f n checked = Some (f', Ok tt) /\
    form_field f' n = Some field' /\
    dict_get field' "V" = Some (Name (if checked then utf8_on_value field else "Off")) /\
    dict_get field' "AS" = Some (Name (if checked then utf8_on_value field else "Off")).
Proof.
  intros H Hf.
  set (state := Name (if checked then get_on_value field else "Off")).
  destruct (update_field_some f n
              (fun d => dict_set (dict_set d "V" state) "AS" state) field Hf)
    as [f' [Hu _]].
  pose proof (form_field_update _ _ _ _ _ Hf Hu) as Hf'. simpl in Hf'.
  exists f', (dict_set (dict_set field "V" state) "AS" state).
  split; [|split; [exact Hf'|]].
  - unfold set_check_box. rewrite H, Hf. simpl. fold state. rewrite Hu. reflexivity.
  - rewrite !dict_get_set. simpl. unfold state. rewrite get_on_value_spec.
    split; reflexivity.
Qed.

Lemma set_check_box_writes_on_value_witness :
  (get_state sample_form 1 = Some (FieldState.CheckBox false false false) /\
   form_field sample_form 1 = Some sample_checkbox) /\
  exists f' field',
    set_check_box sample_form 1 true = Some (f', Ok tt) /\
    form_field f' 1 = Some field' /\
    dict_get field' "V" = Some (Name "X") /\ dict_get field' "AS" = Some (Name "X").
Proof.
  split; [split; reflexivity|].
  exact (set_check_box_writes_on_value sample_form 1 false false false
           sample_checkbox true eq_refl eq_refl).
Defined.

(** C6 fails as stated: the first key of this checkbox's normal appearance
    other than ["Off"] is the byte [0xE9], yet checking it stores ["Yes"]. *)
Lemma set_check_box_claimed_on_value_cex :
  claimed_on_value latin1_checkbox = latin1_e_acute /\
  (exists f', set_check_box latin1_checkbox_form 0 true = Some (f', Ok tt)) /\
  ~ (forall f' field',
       set_check_box latin1_checkbox_form 0 true = Some (f', Ok tt) ->
       form_field f' 0 = Some field' ->
       dict_get field' "V" = Some (Name (claimed_on_value latin1_checkbox))).
Proof.
  split; [reflexivity|]. split; [eexists; reflexivity|].
  intros Hall. specialize (Hall _ _ eq_refl eq_refl).
  vm_compute in Hall. discriminate Hall.
Qed.

(** ** C7: the options of a radio group *)

Lemma kids_options_spec d kids i0 opts :
  kids_options d kids i0 = Some opts ->
  length opts = length kids /\
  forall j kid, nth_error kids j = Some kid ->
    exists o, kid_option d kid (i0 + j) = Some o /\ nth_error opts j = Some o.
Proof.
  revert i0 opts. induction kids as [|kid kids IH]; intros i0 opts H; simpl in H.
  - injection H as <-. split; [reflexivity|]. intros [|j] kid Hj; discriminate.
  - destruct (kid_option d kid i0) as [o|] eqn:Ho; [|discriminate].
    destruct (kids_options d kids (S i0)) as [os|] eqn:Hos; [|discriminate].
    injection H as <-. destruct (IH _ _ Hos) as [Hlen Hnth].
    split; [simpl; congruence|].
    intros [|j] k Hj; simpl in Hj.
    + injection Hj as <-. exists o. rewrite Nat.add_0_r. split; [exact Ho|reflexivity].
    + destruct (Hnth j k Hj) as [o' [Ho' Hj']]. exists o'.
      rewrite <- Nat.add_succ_comm. split; assumption.
Qed.

Lemma kid_option_spec d kid i o :
  kid_option d kid i = Some o ->
  exists kd, deref d kid = Ok (Dictionary kd) /\ o = utf8_kid_option kd i.
Proof.
  unfold kid_option, utf8_kid_option, kid_normal_appearance.
  destruct (deref d kid) as [ko|e] eqn:Hk; simpl; [|discriminate].
  destruct ko; simpl; try discriminate. intros H. injection H as <-.
  exists d0. split; [reflexivity|].
  destruct (dict_get d0 "AP") as [[]|]; try reflexivity.
  destruct (dict_get d1 "N") as [[]|]; try reflexivity.
  unfold first_non_off, from_utf8.
  destruct (find _ d2) as [[k v]|]; [|reflexivity].
  destruct (utf8_valid k); reflexivity.
Qed.

(** The radio branch of [get_state], read backwards. *)
Lemma get_state_radio f n field sel opts ro rq :
  form_field f n = Some field ->
  get_state f n = Some (FieldState.Radio sel opts ro rq) ->
  exists id, nth_error (form_ids f) n = Some id /\
             get_possibilities (doc f) id = Some opts.
Proof.
  intros Hf H. rewrite (get_state_unfold _ _ _ Hf) in H.
  destruct (field_type field) as [ty|] eqn:Ht; [|discriminate].
  destruct ty; simpl in H; inv_opt H; try discriminate; injection H as <- <- <- <-.
  eexists; split; [reflexivity|eassumption].
Qed.

Lemma get_possibilities_field f n field id :
  form_field f n = Some field ->
  nth_error (form_ids f) n = Some id ->
  get_possibilities (doc f) id = kids_options (doc f) (kids_entries field) 0.
Proof.
  unfold form_field, get_possibilities, kids_entries. intros Hf Hid.
  rewrite Hid in Hf. simpl in Hf.
  destruct (objects_get (objects (doc f)) id) as [o|]; [|discriminate].
  simpl in Hf. rewrite Hf.
  destruct (dict_get field "Kids") as [[]|]; reflexivity.
Qed.

(** C7 (as amended): for every radio group whose state reads, [options]
    has one entry per element of its [Kids] array, in order: for the kid at
    position [i], the first key of its normal-appearance dictionary other
    than ["Off"] read as UTF-8 text (the empty string when it is not UTF-8),
    or [i] in decimal when there is no such key; so [options] is exactly as
    long as [Kids]. *)
Theorem radio_options_one_per_kid (f : Form) (n : nat) (field : Dict)
  (sel : string) (opts : list string) (ro rq : bool) :
  get_state f n = Some (FieldState.Radio sel opts ro rq) ->
  form_field f n = Some field ->
  length opts = length (kids_entries field) /\
  forall i kid, nth_error (kids_entries field) i = Some kid ->
    exists kd, deref (doc f) kid = Ok (Dictionary kd) /\
               nth_error opts i = Some (utf8_kid_option kd i).
Proof.
  intros H Hf. destruct (get_state_radio _ _ _ _ _ _ _ Hf H) as [id [Hid Hp]].
  rewrite (get_possibilities_field _ _ _ _ Hf Hid) in Hp.
  destruct (kids_options_spec _ _ _ _ Hp) as [Hlen Hnth].
  split; [exact Hlen|].
  intros i kid Hk. destruct (Hnth i kid Hk) as [o [Ho Hi]].
  destruct (kid_option_spec _ _ _ _ Ho) as [kd [Hd ->]].
  exists kd. split; [exact Hd|exact Hi].
Qed.

Lemma radio_options_one_per_kid_witness :
  (get_state sample_form 3 = Some (FieldState.Radio "" ["a"; "1"] false false) /\
   form_field sample_form 3 = Some sample_radio) /\
  length ["a"; "1"] = length (kids_entries sample_radio).
Proof.
  split; [split; reflexivity|].
  exact (proj1 (radio_options_one_per_kid sample_form 3 sample_radio "" ["a"; "1"]
                  false false eq_refl eq_refl)).
Defined.

(** C7 fails as stated: the widget's first key other than ["Off"] is the
    byte [0xE9], and the option the code lists for it is the empty string. *)
Lemma radio_claimed_option_cex :
  get_state latin1_radio_form 0 = Some (FieldState.Radio "" [""] false false) /\
  ~ (forall sel opts ro rq field kd,
       get_state latin1_radio_form 0 = Some (FieldState.Radio sel opts ro rq) ->
       form_field latin1_radio_form 0 = Some field ->
       deref (doc latin1_radio_form) (ref 41) = Ok (Dictionary kd) ->
       nth_error opts 0 = Some (claimed_kid_option kd 0)).
Proof.
  split; [reflexivity|]. intros Hall.
  specialize (Hall _ _ _ _ _ _ eq_refl eq_refl eq_refl).
  vm_compute in Hall. discriminate Hall.
Qed.

(** ** C2: the options of a choice field *)

Lemma option_entries_spec l l' :
  map_opt option_entry l = Some l' ->
  filter (fun x => negb (is_empty x)) l' =
  filter (fun x => negb (is_empty x)) (flat_map opt_entry_options l).
Proof.
  revert l'. induction l as [|x l IH]; intros l' H; simpl in H.
  - injection H as <-. reflexivity.
  - destruct (option_entry x) as [y|] eqn:Hx; [|discriminate].
    destruct (map_opt option_entry l) as [ys|] eqn:Hys; [|discriminate].
    injection H as <-. simpl. rewrite filter_app, <- (IH ys eq_refl).
    destruct x as [ | b | i | r | nm | s fmt | arr | d | d c | id ];
      simpl in Hx |- *; try (injection Hx as <-; reflexivity).
    + (* a string *)
      destruct fmt.
      * unfold from_utf8 in Hx. destruct (utf8_valid s); [|discriminate].
        injection Hx as <-. simpl. destruct (negb (is_empty s)); reflexivity.
      * injection Hx as <-. reflexivity.
    + (* an array: its second element *)
      destruct arr as [|a0 [|a1 rest]]; simpl in Hx; try discriminate.
      destruct a1 as [ | b | i | r | nm | s fmt | arr | d | d c | id ];
        try (injection Hx as <-; reflexivity).
      destruct fmt; [|injection Hx as <-; reflexivity].
      unfold from_utf8 in Hx. destruct (utf8_valid s); [|discriminate].
      injection Hx as <-. simpl. destruct (negb (is_empty s)); reflexivity.
Qed.

Lemma choice_options_spec field opts :
  choice_options field = Some opts -> opts = amended_options field.
Proof.
  unfold choice_options, amended_options.
  destruct (dict_get field "Opt") as [[]|]; intros H; try (injection H as <-; reflexivity).
  destruct (map_opt option_entry a) as [l'|] eqn:Hm; [|discriminate].
  injection H as <-. apply option_entries_spec. exact Hm.
Qed.

(** C2 (as amended): for every list box or combo box whose state reads,
    [options] is derived from a direct [Opt] array by taking each literal
    string entry as it is, the second element of each array entry of two or
    more elements when that is a literal string, skipping every other entry,
    and dropping empty strings; with no [Opt] array it is empty. *)
Theorem choice_options_derivation (f : Form) (n : nat) (field : Dict) :
  form_field f n = Some field ->
  (forall sel opts ms ro rq,
     get_state f n = Some (FieldState.ListBox sel opts ms ro rq) ->
     opts = amended_options field) /\
  (forall sel opts ed ro rq,
     get_state f n = Some (FieldState.ComboBox sel opts ed ro rq) ->
     opts = amended_options field).
Proof.
  intros Hf. split.
  - intros sel opts ms ro rq H.
    destruct (get_state_list_box _ _ _ _ _ _ _ _ Hf H) as (_ & _ & Hopt & _).
    apply choice_options_spec. exact Hopt.
  - intros sel opts ed ro rq H. rewrite (get_state_unfold _ _ _ Hf) in H.
    destruct (field_type field) as [ty|]; [|discriminate].
    destruct ty; simpl in H; inv_opt H; try discriminate.
    injection H as <- <- <- <- <-. apply choice_options_spec. assumption.
Qed.

Lemma choice_options_derivation_witness :
  form_field odd_options_form 0 = Some odd_options_list_box /\
  ["A"] = amended_options odd_options_list_box.
Proof.
  split; [reflexivity|].
  apply (proj1 (choice_options_derivation odd_options_form 0 odd_options_list_box
                  eq_refl) [] ["A"] false false false).
  reflexivity.
Defined.

(** C2 fails as stated: an empty literal option is dropped and a
    three-element array entry still contributes its second element. *)
Lemma choice_claimed_options_cex :
  get_state odd_options_form 0 = Some (FieldState.ListBox [] ["A"] false false false) /\
  claimed_options odd_options_list_box = [""].
Proof. split; reflexivity. Qed.

(** ** C4: writing a text field *)

(** Regeneration only rewrites the appearance stream: the field record and
    the field list stay as they are. *)
Lemma regenerate_keeps_field c f n f' r :
  regenerate_text_appearance c f n = Some (f', r) ->
  form_ids f' = form_ids f /\ form_field f' n = form_field f n.
Proof.
  unfold regenerate_text_appearance. cbv zeta.
  destruct (form_field f n) as [field|] eqn:Hf; [|discriminate].
  intros H.
  repeat match type of H with
         | context [match ?x with _ => _ end] => destruct x eqn:?; try discriminate H
         end;
  try (injection H as <- _; split; [reflexivity|exact Hf]).
  injection H as <- _. split; [reflexivity|].
  revert Hf. unfold form_field. simpl.
  destruct (nth_error (form_ids f) n) as [id|]; simpl; [|discriminate].
  intros Hf. rewrite objects_get_update.
  match goal with E : objects_get _ ?oid = Some (Stream _ _) |- _ =>
    destruct (oid_eqb_reflect id oid) as [->|]; [rewrite E in Hf; discriminate|exact Hf]
  end.
Qed.

(** The text branch of [get_state], read backwards. *)
Lemma get_state_text f n field t ro rq :
  form_field f n = Some field ->
  get_state f n = Some (FieldState.Text t ro rq) ->
  field_type field = Some FieldType.Text /\
  is_read_only field = Some ro /\ is_required field = Some rq.
Proof.
  intros Hf H. rewrite (get_state_unfold _ _ _ Hf) in H.
  destruct (field_type field) as [ty|] eqn:Ht; [|discriminate].
  destruct ty; simpl in H; inv_opt H; try discriminate; injection H as <- <- <-;
    repeat split; assumption.
Qed.

(** Whenever [set_text] returns, it returns [Ok] and the new value reads
    back: the value write is kept whatever the regeneration did. *)
Lemma set_text_round_trip c f n s old ro rq f' r :
  get_state f n = Some (FieldState.Text old ro rq) ->
  utf8_valid s = true ->
  set_text c f n s = Some (f', r) ->
  r = Ok tt /\ get_state f' n = Some (FieldState.Text s ro rq).
Proof.
  intros Hst Hs H.
  destruct (get_state_form_field _ _ _ Hst) as [field Hf].
  destruct (get_state_text _ _ _ _ _ _ Hf Hst) as (Ht & Hro & Hrq).
  unfold set_text in H. rewrite Hst in H.
  destruct (update_field f n (fun d => dict_set d "V" (Str s Literal))) as [f1|] eqn:Hu;
    [|discriminate].
  pose proof (form_field_update _ _ _ _ _ Hf Hu) as Hf1.
  destruct (regenerate_text_appearance c f1 n) as [[f2 r2]|] eqn:Hr; [|discriminate].
  injection H as <- <-. split; [reflexivity|].
  destruct (regenerate_keeps_field _ _ _ _ _ Hr) as [_ Hf2]. rewrite Hf1 in Hf2.
  rewrite (get_state_unfold _ _ _ Hf2).
  rewrite (field_type_ext _ field) by (rewrite !dict_get_set; reflexivity).
  rewrite Ht. simpl. rewrite dict_get_set. simpl. unfold from_utf8. rewrite Hs.
  rewrite (is_read_only_ext _ field), (is_required_ext _ field)
    by (rewrite !dict_get_set; reflexivity).
  rewrite Hro, Hrq. reflexivity.
Qed.

(** C4 (code bug): [set_text] does not always succeed.  On a text field whose
    [Rect] has fewer than four entries, with a [DA] string and a normal
    appearance stream that decodes, [regenerate_text_appearance] indexes
    [rect[3]] out of range and panics, for any codec and any new text; the
    panic is not an error that [let _ =] could swallow. *)
Theorem set_text_short_rect_panics (c : Codec) (s : string) :
  (forall content, content_decode c content <> None) ->
  get_state short_rect_form 0 = Some (FieldState.Text "old" false false) /\
  set_text c short_rect_form 0 s = None.
Proof.
  intros Hc. split; [reflexivity|].
  unfold set_text. simpl. unfold regenerate_text_appearance. simpl.
  destruct (decompressed_content c [] "BT ET") as [content|];
    [destruct (content_decode c content) as [ops|] eqn:E
    |destruct (content_decode c "BT ET") as [ops|] eqn:E];
    try (exfalso; eapply Hc; eassumption); reflexivity.
Qed.

Lemma set_text_short_rect_panics_witness :
  (forall content, content_decode trivial_codec content <> None) /\
  get_state short_rect_form 0 = Some (FieldState.Text "old" false false) /\
  set_text trivial_codec short_rect_form 0 "hello" = None.
Proof.
  assert (H : forall content, content_decode trivial_codec content <> None)
    by (intros content; simpl; discriminate).
  split; [exact H|].
  exact (set_text_short_rect_panics trivial_codec "hello" H).
Defined.

(** ** C1: field discovery *)

(** One turn of the discovery loop on a reference to a dictionary. *)
Lemma discover_step fuel d id dict rest ids :
  objects_get (objects d) id = Some (Dictionary dict) ->
  discover (S fuel) d (Reference id :: rest) ids =
  discover fuel d (rest ++ kids_entries dict)%list
    (if has_key dict "FT" then (ids ++ [id])%list else ids).
Proof. intros H. simpl. rewrite H. reflexivity. Qed.






(** ** C8: the readonly flag *)

(** Clearing the readonly bit only touches [Ff]. *)
Lemma dict_get_clear_ff d k :
  dict_get (clear_ff d) k =
  if String.eqb k "Ff" then option_map clear_flag (dict_get d k) else dict_get d k.
Proof.
  induction d as [|[k0 v0] d IH]; simpl.
  - destruct (String.eqb k "Ff"); reflexivity.
  - destruct (String.eqb_spec k0 "Ff") as [->|Hne]; simpl; rewrite IH.
    + destruct (String.eqb k "Ff"); reflexivity.
    + destruct (String.eqb_spec k k0) as [->|Hk].
      * destruct (String.eqb_spec k0 "Ff"); [congruence|reflexivity].
      * destruct (String.eqb k "Ff"); reflexivity.
Qed.

Lemma clear_ff_dict_set d k v :
  k <> "Ff" -> clear_ff (dict_set d k v) = dict_set (clear_ff d) k v.
Proof.
  intros Hk. unfold clear_ff, dict_set, dict_remove. rewrite map_app. simpl.
  destruct (String.eqb_spec k "Ff"); [congruence|]. f_equal.
  induction d as [|[k0 v0] d IH]; simpl; [reflexivity|].
  destruct (String.eqb k k0) eqn:Ekk, (String.eqb k0 "Ff") eqn:E0; simpl;
    rewrite ?E0; simpl; rewrite ?Ekk; simpl; rewrite ?E0, IH; reflexivity.
Qed.

(** In-place updates of the object store fuse and, at distinct ids, commute. *)
Lemma objects_update_fuse objs id g h :
  objects_update (objects_update objs id g) id h =
  objects_update objs id (fun o => h (g o)).
Proof.
  unfold objects_update. rewrite map_map. apply map_ext. intros [id0 o]; simpl.
  destruct (oid_eqb id id0) eqn:E; simpl; rewrite ?E; reflexivity.
Qed.

Lemma objects_update_comm objs id1 id2 g h :
  id1 <> id2 ->
  objects_update (objects_update objs id1 g) id2 h =
  objects_update (objects_update objs id2 h) id1 g.
Proof.
  intros Hne. unfold objects_update. rewrite !map_map. apply map_ext.
  intros [id0 o]; simpl.
  destruct (oid_eqb id1 id0) eqn:E1, (oid_eqb id2 id0) eqn:E2; simpl;
    rewrite ?E1, ?E2; try reflexivity.
  exfalso. apply Hne.
  destruct (oid_eqb_reflect id1 id0), (oid_eqb_reflect id2 id0); congruence.
Qed.

Lemma objects_update_ext objs id g h :
  (forall o, g o = h o) -> objects_update objs id g = objects_update objs id h.
Proof.
  intros H. unfold objects_update. apply map_ext. intros [id0 o]; simpl.
  rewrite H. reflexivity.
Qed.

(** The [as u32] truncation keeps bit 0 where it is. *)
Lemma mod_clear_bit0 i :
  (Z.land i (Z.lnot FieldFlags.READONLY) mod 2 ^ 32)%Z =
  Z.land (i mod 2 ^ 32) (Z.lnot FieldFlags.READONLY).
Proof.
  change (2 ^ 32)%Z with (2 ^ Z.of_nat 32)%Z.
  rewrite <- !Z.land_ones by lia.
  rewrite <- !Z.land_assoc. f_equal; try apply Z.land_comm.
Qed.

Lemma get_field_flags_clear d :
  get_field_flags (clear_ff d) =
  option_map (fun z => Z.land z (Z.lnot FieldFlags.READONLY)) (get_field_flags d).
Proof.
  unfold get_field_flags. rewrite dict_get_clear_ff. simpl.
  destruct (dict_get d "Ff") as [o|]; [|reflexivity].
  destruct o; simpl; try reflexivity. rewrite mod_clear_bit0. reflexivity.
Qed.

(** Clearing bit 0 is invisible through a mask without bit 0. *)
Lemma land_clear_mask z m :
  Z.land (Z.lnot FieldFlags.READONLY) m = m ->
  Z.land (Z.land z (Z.lnot FieldFlags.READONLY)) m = Z.land z m.
Proof. intros H. rewrite <- Z.land_assoc, H. reflexivity. Qed.

Lemma classify_button_clear z :
  classify_button (Z.land z (Z.lnot FieldFlags.READONLY)) = classify_button z.
Proof.
  unfold classify_button, from_bits_truncate.
  rewrite land_clear_mask by reflexivity. reflexivity.
Qed.

Lemma classify_choice_clear z :
  classify_choice (Z.land z (Z.lnot FieldFlags.READONLY)) = classify_choice z.
Proof.
  unfold classify_choice, from_bits_truncate.
  rewrite land_clear_mask by reflexivity. reflexivity.
Qed.

Lemma choice_flag_clear z m :
  intersects (from_bits_truncate ChoiceFlags.all (Z.land z (Z.lnot FieldFlags.READONLY))) m =
  intersects (from_bits_truncate ChoiceFlags.all z) m.
Proof. unfold from_bits_truncate. rewrite land_clear_mask by reflexivity. reflexivity. Qed.

Lemma field_type_clear d : field_type (clear_ff d) = field_type d.
Proof.
  unfold field_type. rewrite dict_get_clear_ff, get_field_flags_clear. simpl.
  destruct (dict_get d "FT") as [ft|]; simpl; [|reflexivity].
  destruct (as_name_str ft) as [ty|]; simpl; [|reflexivity].
  destruct (get_field_flags d) as [z|]; simpl;
    [rewrite classify_button_clear, classify_choice_clear|]; reflexivity.
Qed.

Lemma is_read_only_clear d :
  is_read_only (clear_ff d) = option_map (fun _ => false) (is_read_only d).
Proof.
  unfold is_read_only. rewrite get_field_flags_clear.
  destruct (get_field_flags d) as [z|]; simpl; [|reflexivity].
  unfold intersects, from_bits_truncate. rewrite <- !Z.land_assoc.
  change (Z.land (Z.lnot FieldFlags.READONLY) (Z.land FieldFlags.all FieldFlags.READONLY))
    with 0%Z.
  rewrite Z.land_0_r. reflexivity.
Qed.

Lemma is_required_clear d : is_required (clear_ff d) = is_required d.
Proof.
  unfold is_required. rewrite get_field_flags_clear.
  destruct (get_field_flags d) as [z|]; simpl; [|reflexivity].
  unfold intersects, from_bits_truncate. rewrite <- !Z.land_assoc.
  change (Z.land (Z.lnot FieldFlags.READONLY) (Z.land FieldFlags.all FieldFlags.REQUIRED))
    with (Z.land FieldFlags.all FieldFlags.REQUIRED).
  reflexivity.
Qed.

(** The cleared form differs from the original in the record of field [n]
    only, and only in [Ff]: every other reader sees the same thing. *)
Lemma form_ids_clear f n : form_ids (clear_readonly f n) = form_ids f.
Proof. unfold clear_readonly. destruct (nth_error (form_ids f) n); reflexivity. Qed.

Lemma objects_get_clear f n x :
  objects_get (objects (doc (clear_readonly f n))) x = objects_get (objects (doc f)) x \/
  objects_get (objects (doc (clear_readonly f n))) x =
  option_map clear_obj (objects_get (objects (doc f)) x).
Proof.
  unfold clear_readonly. destruct (nth_error (form_ids f) n) as [id|]; simpl; [|left; reflexivity].
  rewrite objects_get_update. destruct (oid_eqb x id); [right|left]; reflexivity.
Qed.

Lemma form_field_clear f n :
  form_field (clear_readonly f n) n = option_map clear_ff (form_field f n).
Proof.
  unfold form_field, clear_readonly.
  destruct (nth_error (form_ids f) n) as [id|] eqn:Hid; simpl; rewrite ?Hid; [|reflexivity].
  rewrite objects_get_update. destruct (oid_eqb_reflect id id); [|congruence].
  destruct (objects_get (objects (doc f)) id) as [o|]; simpl; [|reflexivity].
  destruct o; reflexivity.
Qed.

Lemma kid_option_clear f n kid i :
  kid_option (doc (clear_readonly f n)) kid i = kid_option (doc f) kid i.
Proof.
  unfold kid_option, deref. destruct kid; try reflexivity.
  destruct (objects_get_clear f n id) as [E|E]; rewrite E; [reflexivity|].
  destruct (objects_get (objects (doc f)) id) as [o|]; simpl; [|reflexivity].
  destruct o; simpl; try reflexivity. rewrite dict_get_clear_ff. reflexivity.
Qed.

Lemma kids_options_clear f n kids i :
  kids_options (doc (clear_readonly f n)) kids i = kids_options (doc f) kids i.
Proof.
  revert i. induction kids as [|kid kids IH]; intros i; simpl; [reflexivity|].
  rewrite kid_option_clear, IH. reflexivity.
Qed.

Lemma get_possibilities_clear f n oid :
  get_possibilities (doc (clear_readonly f n)) oid = get_possibilities (doc f) oid.
Proof.
  unfold get_possibilities.
  destruct (objects_get_clear f n oid) as [E|E]; rewrite E;
    destruct (objects_get (objects (doc f)) oid) as [o|]; simpl; try reflexivity;
    destruct o; simpl; try reflexivity; rewrite ?dict_get_clear_ff; simpl;
    destruct (dict_get d "Kids") as [[]|]; try reflexivity; apply kids_options_clear.
Qed.

Lemma choice_selected_clear d : choice_selected (clear_ff d) = choice_selected d.
Proof. unfold choice_selected. rewrite dict_get_clear_ff. reflexivity. Qed.

Lemma choice_options_clear d : choice_options (clear_ff d) = choice_options d.
Proof. apply choice_options_ext. rewrite dict_get_clear_ff. reflexivity. Qed.

Lemma get_on_value_clear d : get_on_value (clear_ff d) = get_on_value d.
Proof. unfold get_on_value. rewrite dict_get_clear_ff. reflexivity. Qed.

(** The cleared field reads as the original one, with [readonly] false. *)
Lemma get_state_clear f n :
  get_state (clear_readonly f n) n = option_map clear_ro_state (get_state f n).
Proof.
  destruct (form_field f n) as [field|] eqn:Hf.
  2:{ unfold get_state. rewrite form_field_clear, Hf. reflexivity. }
  assert (Hc : form_field (clear_readonly f n) n = Some (clear_ff field))
    by (rewrite form_field_clear, Hf; reflexivity).
  rewrite (get_state_unfold _ _ _ Hc), (get_state_unfold _ _ _ Hf).
  rewrite field_type_clear. destruct (field_type field) as [ty|]; [|reflexivity].
  rewrite is_read_only_clear, is_required_clear, choice_selected_clear,
    choice_options_clear, get_field_flags_clear, !dict_get_clear_ff, form_ids_clear.
  destruct (is_read_only field) as [ro|], (get_field_flags field) as [z|];
  cbn [option_map]; rewrite ?choice_flag_clear;
  destruct ty; simpl; try reflexivity;
    repeat match goal with
           | |- context [get_possibilities (doc (clear_readonly f n)) ?i] =>
               rewrite (get_possibilities_clear f n i)
           | |- context [match ?x with _ => _ end] => destruct x
           end; simpl; rewrite ?choice_flag_clear; reflexivity.
Qed.

(** The edits of the setters commute with the clearing. *)
Lemma update_field_clear f n g :
  (forall d, g (clear_ff d) = clear_ff (g d)) ->
  update_field (clear_readonly f n) n g =
  option_map (fun f' => clear_readonly f' n) (update_field f n g).
Proof.
  intros Hg. destruct f as [[objs tr] ids].
  unfold update_field, clear_readonly; simpl.
  destruct (nth_error ids n) as [id|] eqn:Hid; simpl; [|rewrite ?Hid; reflexivity].
  rewrite Hid, objects_get_update. destruct (oid_eqb_reflect id id); [|congruence].
  destruct (objects_get objs id) as [o|]; simpl; [|reflexivity].
  destruct o; simpl; try reflexivity. rewrite Hid, !objects_update_fuse.
  do 3 f_equal. apply objects_update_ext. intros []; simpl; rewrite ?Hg; reflexivity.
Qed.

Lemma regenerate_clear c f n :
  regenerate_text_appearance c (clear_readonly f n) n =
  clear_outcome n (regenerate_text_appearance c f n).
Proof.
  destruct (form_field f n) as [field|] eqn:Hf.
  2:{ unfold regenerate_text_appearance. rewrite form_field_clear, Hf. reflexivity. }
  assert (Hc : form_field (clear_readonly f n) n = Some (clear_ff field))
    by (rewrite form_field_clear, Hf; reflexivity).
  unfold regenerate_text_appearance. cbv zeta. rewrite Hc, Hf.
  rewrite !dict_get_clear_ff. simpl.
  destruct f as [[objs tr] ids]. revert Hf Hc.
  unfold clear_outcome, form_field, clear_readonly; simpl.
  destruct (nth_error ids n) as [id|] eqn:Hid; simpl; [|discriminate].
  intros Hf _. rewrite ?Hid.
  destruct (dict_get field "V") as [value|]; [|simpl; rewrite ?Hid; reflexivity].
  destruct (dict_get field "DA") as [da|]; [|simpl; rewrite ?Hid; reflexivity].
  destruct (dict_get field "Rect") as [r|]; simpl; [|simpl; rewrite ?Hid; reflexivity].
  destruct (as_array r) as [rect_objs|]; [|simpl; rewrite ?Hid; reflexivity].
  destruct (dict_get field "AP") as [ap|]; simpl; [|simpl; rewrite ?Hid; reflexivity].
  destruct (as_dict ap) as [apd|]; [|simpl; rewrite ?Hid; reflexivity].
  destruct (dict_get apd "N") as [nobj|]; [|simpl; rewrite ?Hid; reflexivity].
  destruct (as_reference nobj) as [oid|]; [|simpl; rewrite ?Hid; reflexivity].
  rewrite objects_get_update.
  destruct (oid_eqb_reflect oid id) as [->|Hne].
  - destruct (objects_get objs id) as [o|]; [|discriminate].
    destruct o; try discriminate. simpl; rewrite ?Hid; reflexivity.
  - destruct (objects_get objs oid) as [o|]; [|simpl; rewrite ?Hid; reflexivity].
    destruct o; try (simpl; rewrite ?Hid; reflexivity).
    repeat match goal with
           | |- context [match ?x with _ => _ end] => destruct x
           end; simpl; rewrite ?Hid; try (simpl; rewrite ?Hid; reflexivity).
    rewrite objects_update_comm by (intros E; apply Hne; symmetry; exact E).
    reflexivity.
Qed.

(** Each setter commutes with the clearing. *)
Lemma set_check_box_clear f n b :
  set_check_box (clear_readonly f n) n b = clear_outcome n (set_check_box f n b).
Proof.
  unfold set_check_box. rewrite get_state_clear.
  destruct (get_state f n) as [st|]; [|reflexivity].
  destruct st; try reflexivity. simpl.
  rewrite form_field_clear. destruct (form_field f n) as [field|]; [|reflexivity]. simpl.
  rewrite get_on_value_clear, update_field_clear.
  - destruct (update_field f n _); reflexivity.
  - intros d. rewrite !clear_ff_dict_set by discriminate. reflexivity.
Qed.

Lemma set_radio_clear f n s :
  set_radio (clear_readonly f n) n s = clear_outcome n (set_radio f n s).
Proof.
  unfold set_radio. rewrite get_state_clear.
  destruct (get_state f n) as [st|]; [|reflexivity].
  destruct st; try reflexivity. simpl.
  destruct (existsb (String.eqb s) options); [|reflexivity].
  rewrite update_field_clear.
  - destruct (update_field f n _); reflexivity.
  - intros d. rewrite !clear_ff_dict_set by discriminate. reflexivity.
Qed.

Lemma set_list_box_clear f n choices :
  set_list_box (clear_readonly f n) n choices = clear_outcome n (set_list_box f n choices).
Proof.
  unfold set_list_box. rewrite get_state_clear.
  destruct (get_state f n) as [st|]; [|reflexivity].
  destruct st; try reflexivity. simpl.
  destruct (fold_left _ choices true); [|reflexivity].
  destruct (negb multiselect && _)%bool; [reflexivity|].
  rewrite update_field_clear.
  - destruct (update_field f n _); reflexivity.
  - intros d. rewrite !clear_ff_dict_set by discriminate. reflexivity.
Qed.

Lemma set_combo_box_clear f n s :
  set_combo_box (clear_readonly f n) n s = clear_outcome n (set_combo_box f n s).
Proof.
  unfold set_combo_box. rewrite get_state_clear.
  destruct (get_state f n) as [st|]; [|reflexivity].
  destruct st; try reflexivity. simpl.
  destruct (existsb (String.eqb s) options || editable)%bool; [|reflexivity].
  rewrite update_field_clear.
  - destruct (update_field f n _); reflexivity.
  - intros d. rewrite !clear_ff_dict_set by discriminate. reflexivity.
Qed.

Lemma set_text_clear c f n s :
  set_text c (clear_readonly f n) n s = clear_outcome n (set_text c f n s).
Proof.
  unfold set_text. rewrite get_state_clear.
  destruct (get_state f n) as [st|]; [|reflexivity].
  destruct st; try reflexivity. simpl.
  rewrite update_field_clear.
  - destruct (update_field f n _) as [f1|]; [|reflexivity]. simpl.
    rewrite regenerate_clear. destruct (regenerate_text_appearance c f1 n); reflexivity.
  - intros d. rewrite !clear_ff_dict_set by discriminate. reflexivity.
Qed.

(** The outcomes of the setters: [Ok], or a mismatch or selection error. *)
Ltac no_readonly :=
  repeat match goal with
         | |- context [match ?x with _ => _ end] =>
             match x with
             | context [match _ with _ => _ end] => fail 1
             | _ => destruct x
             end
         end; reflexivity.

(** C8: no setter enforces the readonly flag.  Clearing the [READONLY] bit
    of field [n] only resets the [readonly] of its state, and [set_text],
    [set_check_box], [set_radio], [set_list_box] and [set_combo_box] behave on
    the cleared form exactly as on the original one (same outcome, same
    written form up to that bit, same panics); none of them ever returns the
    [Readonly] error. *)
Theorem setters_ignore_readonly (c : Codec) (f : Form) (n : nat) :
  get_state (clear_readonly f n) n = option_map clear_ro_state (get_state f n) /\
  (forall s, set_text c (clear_readonly f n) n s = clear_outcome n (set_text c f n s)) /\
  (forall b, set_check_box (clear_readonly f n) n b = clear_outcome n (set_check_box f n b)) /\
  (forall s, set_radio (clear_readonly f n) n s = clear_outcome n (set_radio f n s)) /\
  (forall cs, set_list_box (clear_readonly f n) n cs = clear_outcome n (set_list_box f n cs)) /\
  (forall s, set_combo_box (clear_readonly f n) n s = clear_outcome n (set_combo_box f n s)) /\
  (forall s, is_readonly_error (set_text c f n s) = false) /\
  (forall b, is_readonly_error (set_check_box f n b) = false) /\
  (forall s, is_readonly_error (set_radio f n s) = false) /\
  (forall cs, is_readonly_error (set_list_box f n cs) = false) /\
  (forall s, is_readonly_error (set_combo_box f n s) = false).
Proof.
  split; [apply get_state_clear|].
  split; [intros; apply set_text_clear|].
  split; [intros; apply set_check_box_clear|].
  split; [intros; apply set_radio_clear|].
  split; [intros; apply set_list_box_clear|].
  split; [intros; apply set_combo_box_clear|].
  repeat split; intros;
    [unfold set_text|unfold set_check_box|unfold set_radio|unfold set_list_box
    |unfold set_combo_box]; unfold is_readonly_error; no_readonly.
Qed.

(** * Further properties of the library *)

Import ListNotations.
Open Scope string_scope.

Lemma same_except_value_refl d : same_except_value d d.
Proof. intros k _ _. reflexivity. Qed.

Lemma same_except_value_trans d1 d2 d3 :
  same_except_value d1 d2 -> same_except_value d2 d3 -> same_except_value d1 d3.
Proof. intros H12 H23 k H1 H2. rewrite (H12 k H1 H2). apply H23; assumption. Qed.

Lemma obj_step_trans o1 o2 o3 : obj_step o1 o2 -> obj_step o2 o3 -> obj_step o1 o3.
Proof.
  intros [E1|[(a&b&a'&b'&E1&E2)|(d1&d2&E1&E2&H12)]]
         [F1|[(c&e&c'&e'&F1&F2)|(d3&d4&F1&F2&H34)]]; subst;
    try discriminate;
    repeat match goal with H : Some _ = Some _ |- _ => injection H as H; subst end;
    try discriminate;
    repeat match goal with H : Stream _ _ = Stream _ _ |- _ => injection H as -> -> end;
    repeat match goal with H : Dictionary _ = Dictionary _ |- _ => injection H as -> end;
    first [left; reflexivity
          | right; left; do 4 eexists; split; reflexivity
          | right; right; do 2 eexists; split; [reflexivity|split; [reflexivity|]];
            first [eassumption | eapply same_except_value_trans; eassumption]].
Qed.

Lemma form_step_refl n f : form_step n f f.
Proof.
  repeat split; [intros x; left; reflexivity|intros x _; left; reflexivity].
Qed.

Lemma form_step_trans n f1 f2 f3 :
  form_step n f1 f2 -> form_step n f2 f3 -> form_step n f1 f3.
Proof.
  intros (I12 & T12 & S12 & O12) (I23 & T23 & S23 & O23).
  split; [congruence|split; [congruence|split]].
  - intros x. eapply obj_step_trans; [apply S12|apply S23].
  - intros x Hx. rewrite I12 in O23.
    destruct (O12 x Hx) as [E1|(a&b&a'&b'&E1&E2)], (O23 x Hx) as [F1|(c&e&c'&e'&F1&F2)].
    + left. congruence.
    + right. rewrite E1 in F1. do 4 eexists. split; [exact F1|exact F2].
    + right. do 4 eexists. split; [exact E1|rewrite F1; exact E2].
    + right. do 4 eexists. split; [exact E1|exact F2].
Qed.

Lemma update_field_step f n g f' :
  keeps_keys g -> update_field f n g = Some f' -> form_step n f f'.
Proof.
  intros Hg. unfold update_field.
  destruct (nth_error (form_ids f) n) as [id|] eqn:Hid; [|discriminate]. simpl.
  destruct (objects_get (objects (doc f)) id) as [o|] eqn:Ho; [|discriminate].
  destruct o; try discriminate. simpl. intros H. injection H as <-.
  split; [reflexivity|split; [reflexivity|split]]; simpl.
  - intros x. rewrite objects_get_update.
    destruct (oid_eqb_reflect x id) as [->|]; [|left; reflexivity].
    rewrite Ho. right; right. do 2 eexists. split; [reflexivity|split; [reflexivity|]].
    intros k H1 H2. symmetry. apply Hg; assumption.
  - intros x Hx. left. rewrite objects_get_update.
    destruct (oid_eqb_reflect x id) as [->|]; [congruence|reflexivity].
Qed.

Lemma update_stream_step f n oid a b G :
  objects_get (objects (doc f)) oid = Some (Stream a b) ->
  (forall o, exists a' b', G o = Stream a' b') ->
  form_step n f (mkForm (mkDocument (objects_update (objects (doc f)) oid G)
                                    (trailer (doc f))) (form_ids f)).
Proof.
  intros E HG.
  assert (Hx : forall x,
    objects_get (objects_update (objects (doc f)) oid G) x =
    objects_get (objects (doc f)) x \/
    exists a b a' b', objects_get (objects (doc f)) x = Some (Stream a b) /\
      objects_get (objects_update (objects (doc f)) oid G) x = Some (Stream a' b')).
  { intros x. rewrite objects_get_update.
    destruct (oid_eqb_reflect x oid) as [->|]; [|left; reflexivity].
    rewrite E. destruct (HG (Stream a b)) as (a' & b' & HGs).
    right. do 4 eexists. split; [reflexivity|simpl; rewrite HGs; reflexivity]. }
  split; [reflexivity|split; [reflexivity|split]]; simpl.
  - intros x. destruct (Hx x) as [E'|E']; [left; exact E'|right; left; exact E'].
  - intros x _. exact (Hx x).
Qed.

Lemma regenerate_step c f n f' r :
  regenerate_text_appearance c f n = Some (f', r) -> form_step n f f'.
Proof.
  unfold regenerate_text_appearance. cbv zeta.
  destruct (form_field f n) as [field|] eqn:Hf; [|discriminate].
  intros H.
  repeat match type of H with
         | context [match ?x with _ => _ end] => destruct x eqn:?; try discriminate H
         end;
  try (injection H as <- _; apply form_step_refl).
  injection H as <- _.
  eapply update_stream_step; [eassumption|intros; do 2 eexists; reflexivity].
Qed.

Lemma keeps_keys_set_v v : keeps_keys (fun d => dict_set d "V" v).
Proof.
  intros d k H1 H2. rewrite dict_get_set.
  destruct (String.eqb_spec k "V"); [congruence|reflexivity].
Qed.

Lemma keeps_keys_set_v_as v : keeps_keys (fun d => dict_set (dict_set d "V" v) "AS" v).
Proof.
  intros d k H1 H2. rewrite !dict_get_set.
  destruct (String.eqb_spec k "AS"); [congruence|].
  destruct (String.eqb_spec k "V"); [congruence|reflexivity].
Qed.

Lemma setter_step op f n f' r :
  apply_setter op f n = Some (f', r) -> form_step n f f'.
Proof.
  destruct op as [c s|b|s|cs|s]; simpl.
  - unfold set_text. destruct (get_state f n) as [st|]; [|discriminate].
    destruct st; try (intros H; injection H as <- _; apply form_step_refl).
    destruct (update_field f n _) as [f1|] eqn:Hu; [|discriminate].
    destruct (regenerate_text_appearance c f1 n) as [[f2 r2]|] eqn:Hr; [|discriminate].
    intros H; injection H as <- _.
    apply (form_step_trans n f f1 f2).
    + eapply update_field_step; [apply keeps_keys_set_v|exact Hu].
    + exact (regenerate_step _ _ _ _ _ Hr).
  - unfold set_check_box. destruct (get_state f n) as [st|]; [|discriminate].
    destruct st; try (intros H; injection H as <- _; apply form_step_refl).
    destruct (form_field f n) as [field|]; [|discriminate]. simpl.
    destruct (update_field f n _) as [f1|] eqn:Hu; [|discriminate].
    intros H; injection H as <- _.
    eapply update_field_step; [apply keeps_keys_set_v_as|exact Hu].
  - unfold set_radio. destruct (get_state f n) as [st|]; [|discriminate].
    destruct st; try (intros H; injection H as <- _; apply form_step_refl).
    destruct (existsb _ _); [|intros H; injection H as <- _; apply form_step_refl].
    destruct (update_field f n _) as [f1|] eqn:Hu; [|discriminate].
    intros H; injection H as <- _.
    eapply update_field_step; [apply keeps_keys_set_v|exact Hu].
  - unfold set_list_box. destruct (get_state f n) as [st|]; [|discriminate].
    destruct st; try (intros H; injection H as <- _; apply form_step_refl).
    destruct (fold_left _ _ _); [|intros H; injection H as <- _; apply form_step_refl].
    destruct (_ && _)%bool; [intros H; injection H as <- _; apply form_step_refl|].
    destruct (update_field f n _) as [f1|] eqn:Hu; [|discriminate].
    intros H; injection H as <- _.
    eapply update_field_step; [apply keeps_keys_set_v|exact Hu].
  - unfold set_combo_box. destruct (get_state f n) as [st|]; [|discriminate].
    destruct st; try (intros H; injection H as <- _; apply form_step_refl).
    destruct (_ || _)%bool; [|intros H; injection H as <- _; apply form_step_refl].
    destruct (update_field f n _) as [f1|] eqn:Hu; [|discriminate].
    intros H; injection H as <- _.
    eapply update_field_step; [apply keeps_keys_set_v|exact Hu].
Qed.

Lemma obj_step_as_dict o1 o2 :
  obj_step o1 o2 ->
  match (o <- o1 ;; as_dict o), (o <- o2 ;; as_dict o) with
  | None, None => True
  | Some d1, Some d2 => same_except_value d1 d2
  | _, _ => False
  end.
Proof.
  intros [->|[(a&b&a'&b'&->&->)|(d1&d2&->&->&H)]]; simpl; [|exact I|exact H].
  destruct o1 as [o|]; simpl; [|exact I].
  destruct (as_dict o); [apply same_except_value_refl|exact I].
Qed.

Lemma form_step_form_field n f f' m :
  form_step n f f' ->
  match form_field f m, form_field f' m with
  | None, None => True
  | Some d1, Some d2 => same_except_value d1 d2
  | _, _ => False
  end.
Proof.
  intros (Hi & _ & S & _). unfold form_field. rewrite Hi.
  destruct (nth_error (form_ids f) m) as [id|]; simpl; [|exact I].
  exact (obj_step_as_dict _ _ (S id)).
Qed.

Lemma kid_option_step d d' kid i :
  (forall x, obj_step (objects_get (objects d) x) (objects_get (objects d') x)) ->
  kid_option d' kid i = kid_option d kid i.
Proof.
  intros S. unfold kid_option, deref.
  destruct kid as [| | | | | | | | |oid]; try reflexivity.
  pose proof (obj_step_as_dict _ _ (S oid)) as H.
  destruct (objects_get (objects d) oid) as [o1|], (objects_get (objects d') oid) as [o2|];
    simpl in *; try reflexivity; try contradiction.
  - destruct (as_dict o1) as [d1|], (as_dict o2) as [d2|]; simpl; try contradiction;
      [|reflexivity].
    rewrite (H "AP") by discriminate. reflexivity.
  - destruct (as_dict o1); [contradiction|reflexivity].
  - destruct (as_dict o2); [contradiction|reflexivity].
Qed.

Lemma kids_options_step d d' kids i :
  (forall x, obj_step (objects_get (objects d) x) (objects_get (objects d') x)) ->
  kids_options d' kids i = kids_options d kids i.
Proof.
  intros S. revert i. induction kids as [|kid kids IH]; intros i; simpl; [reflexivity|].
  rewrite (kid_option_step d d' kid i S), IH. reflexivity.
Qed.

Lemma get_possibilities_step d d' oid :
  (forall x, obj_step (objects_get (objects d) x) (objects_get (objects d') x)) ->
  get_possibilities d' oid = get_possibilities d oid.
Proof.
  intros S. unfold get_possibilities.
  pose proof (obj_step_as_dict _ _ (S oid)) as H.
  destruct (objects_get (objects d) oid) as [o1|], (objects_get (objects d') oid) as [o2|];
    simpl in *; try reflexivity.
  - destruct (as_dict o1) as [d1|], (as_dict o2) as [d2|]; simpl; try contradiction;
      [|reflexivity].
    rewrite (H "Kids") by discriminate.
    destruct (dict_get d2 "Kids") as [[]|]; try reflexivity.
    apply kids_options_step; exact S.
  - destruct (as_dict o1); [contradiction|reflexivity].
  - destruct (as_dict o2); [contradiction|reflexivity].
Qed.

Lemma get_state_config_step n f f' m st st' :
  form_step n f f' -> get_state f m = Some st -> get_state f' m = Some st' ->
  state_config st' = state_config st.
Proof.
  intros Hs H1 H2.
  pose proof (form_step_form_field n f f' m Hs) as Hff.
  destruct (form_field f m) as [d1|] eqn:F1, (form_field f' m) as [d2|] eqn:F2;
    try contradiction;
    [|apply get_state_form_field in H1 as [? E]; congruence].
  rewrite (get_state_unfold _ _ _ F1) in H1. rewrite (get_state_unfold _ _ _ F2) in H2.
  destruct Hs as (Hi & _ & S & _).
  rewrite (field_type_ext d2 d1), (is_read_only_ext d2 d1), (is_required_ext d2 d1),
    (get_field_flags_ext d2 d1), (choice_options_ext d2 d1) in H2
    by (symmetry; apply Hff; discriminate).
  destruct (field_type d1) as [ty|]; [|discriminate].
  destruct ty; simpl in H1, H2; inv_opt H1; inv_opt H2; try discriminate;
    injection H1 as <-; injection H2 as <-; simpl;
    repeat match goal with
           | E : nth_error (form_ids f') _ = _ |- _ => rewrite Hi in E
           | E : get_possibilities (doc f') ?i = _ |- _ =>
               rewrite (get_possibilities_step (doc f) (doc f') i S) in E
           end;
    congruence.
Qed.

Lemma form_step_other n f f' m :
  form_step n f f' -> nth_error (form_ids f) m <> nth_error (form_ids f) n ->
  form_field f' m = form_field f m.
Proof.
  intros (Hi & _ & _ & O) Hm. unfold form_field. rewrite Hi.
  destruct (nth_error (form_ids f) m) as [id|] eqn:Em; [|reflexivity]. simpl.
  destruct (O id) as [E|(a&b&a'&b'&E1&E2)]; [congruence|rewrite E; reflexivity|].
  rewrite E1, E2. reflexivity.
Qed.

Lemma get_type_step n f f' m : form_step n f f' -> get_type f' m = get_type f m.
Proof.
  intros Hs. pose proof (form_step_form_field n f f' m Hs) as H. unfold get_type.
  destruct (form_field f m) as [d1|], (form_field f' m) as [d2|]; try contradiction;
    simpl; [|reflexivity].
  apply field_type_ext; symmetry; apply H; discriminate.
Qed.

Lemma get_name_step n f f' m : form_step n f f' -> get_name f' m = get_name f m.
Proof.
  intros Hs. pose proof (form_step_form_field n f f' m Hs) as H. unfold get_name.
  destruct (form_field f m) as [d1|], (form_field f' m) as [d2|]; try contradiction;
    simpl; [|reflexivity].
  rewrite (H "T") by discriminate. reflexivity.
Qed.

Lemma map_opt_ext {A B} (g h : A -> option B) l :
  (forall x, In x l -> g x = h x) -> map_opt g l = map_opt h l.
Proof.
  induction l as [|x l IH]; intros H; simpl; [reflexivity|].
  rewrite (H x (or_introl eq_refl)), IH; [reflexivity|].
  intros y Hy. apply H. right. exact Hy.
Qed.

Lemma get_state_other_step n f f' m :
  form_step n f f' -> nth_error (form_ids f) m <> nth_error (form_ids f) n ->
  get_state f' m = get_state f m.
Proof.
  intros Hs Hm. pose proof (form_step_other n f f' m Hs Hm) as Hf.
  pose proof (get_type_step n f f' m Hs) as Ht.
  destruct Hs as (Hi & _ & S & _).
  unfold get_state. rewrite Hf, Ht, Hi.
  destruct (form_field f m) as [d|]; simpl; [|reflexivity].
  destruct (get_type f m) as [[]|]; simpl; try reflexivity.
  destruct (match dict_get d "V" with
            | Some name => as_name_str name
            | None => match dict_get d "AS" with
                      | Some name => as_name_str name
                      | None => Some "" end end); simpl; [|reflexivity].
  destruct (nth_error (form_ids f) m); simpl; [|reflexivity].
  rewrite (get_possibilities_step (doc f) (doc f')) by exact S. reflexivity.
Qed.

(** X1: a setter call that returns (success or error) keeps the field ids and the trailer, changes no object other than field [n]'s except by replacing a stream with a stream, leaves the dictionary and the state of every field with another id as they were, and changes field [n]'s dictionary only at [V] and [AS]. *)
Theorem setter_frame (op : Setter) (f : Form) (n : nat) (f' : Form)
  (r : result unit ValueError) :
  apply_setter op f n = Some (f', r) ->
  form_ids f' = form_ids f /\
  trailer (doc f') = trailer (doc f) /\
  (forall x, nth_error (form_ids f) n <> Some x ->
     objects_get (objects (doc f')) x = objects_get (objects (doc f)) x \/
     exists a b a' b', objects_get (objects (doc f)) x = Some (Stream a b) /\
                       objects_get (objects (doc f')) x = Some (Stream a' b')) /\
  (forall m, nth_error (form_ids f) m <> nth_error (form_ids f) n ->
     form_field f' m = form_field f m /\ get_state f' m = get_state f m) /\
  (forall d d', form_field f n = Some d -> form_field f' n = Some d' ->
     forall k, k <> "V" -> k <> "AS" -> dict_get d' k = dict_get d k).
Proof.
  intros H. pose proof (setter_step op f n f' r H) as Hs.
  pose proof Hs as (Hi & Ht & _ & O).
  split; [exact Hi|split; [exact Ht|split; [exact O|split]]].
  - intros m Hm. split; [exact (form_step_other n f f' m Hs Hm)
                        |exact (get_state_other_step n f f' m Hs Hm)].
  - intros d d' E E' k Hk1 Hk2. pose proof (form_step_form_field n f f' n Hs) as Hf.
    rewrite E, E' in Hf. symmetry. exact (Hf k Hk1 Hk2).
Qed.

Lemma setter_frame_witness :
  exists f' r, apply_setter (SetCheckBox true) sample_form 1 = Some (f', r) /\
  (form_ids f' = form_ids sample_form /\
  trailer (doc f') = trailer (doc sample_form) /\
  (forall x, nth_error (form_ids sample_form) 1 <> Some x ->
     objects_get (objects (doc f')) x = objects_get (objects (doc sample_form)) x \/
     exists a b a' b', objects_get (objects (doc sample_form)) x = Some (Stream a b) /\
                       objects_get (objects (doc f')) x = Some (Stream a' b')) /\
  (forall m, nth_error (form_ids sample_form) m <> nth_error (form_ids sample_form) 1 ->
     form_field f' m = form_field sample_form m /\ get_state f' m = get_state sample_form m) /\
  (forall d d', form_field sample_form 1 = Some d -> form_field f' 1 = Some d' ->
     forall k, k <> "V" -> k <> "AS" -> dict_get d' k = dict_get d k)).
Proof.
  do 2 eexists. split; [reflexivity|].
  apply (setter_frame (SetCheckBox true) sample_form 1 _ (Ok tt)). reflexivity.
Defined.

(** X2: a setter call leaves [get_type] and [get_name] of every index, and so [get_all_types] and [get_all_names], unchanged. *)
Theorem setters_keep_types_and_names (op : Setter) (f : Form) (n : nat) (f' : Form)
  (r : result unit ValueError) :
  apply_setter op f n = Some (f', r) ->
  (forall m, get_type f' m = get_type f m /\ get_name f' m = get_name f m) /\
  get_all_types f' = get_all_types f /\ get_all_names f' = get_all_names f.
Proof.
  intros H. pose proof (setter_step op f n f' r H) as Hs.
  assert (Hl : len f' = len f) by (unfold len; destruct Hs as [-> _]; reflexivity).
  split; [intros m; split; [exact (get_type_step n f f' m Hs)|exact (get_name_step n f f' m Hs)]|].
  unfold get_all_types, get_all_names. rewrite Hl. split; apply map_opt_ext; intros m _.
  - exact (get_type_step n f f' m Hs).
  - exact (get_name_step n f f' m Hs).
Qed.

Lemma setters_keep_types_and_names_witness :
  exists f' r, apply_setter (SetRadio "a") sample_form 3 = Some (f', r) /\
  ((forall m, get_type f' m = get_type sample_form m /\ get_name f' m = get_name sample_form m) /\
   get_all_types f' = get_all_types sample_form /\ get_all_names f' = get_all_names sample_form).
Proof.
  do 2 eexists. split; [reflexivity|].
  apply (setters_keep_types_and_names (SetRadio "a") sample_form 3 _ (Ok tt)). reflexivity.
Defined.

Lemma form_field_out_of_range f n : (len f <= n)%nat -> form_field f n = None.
Proof.
  intros H. unfold form_field. rewrite (proj2 (nth_error_None _ _) H). reflexivity.
Qed.

(** X4: for an index [n >= len f], [get_type], [get_name] and [get_state] panic, and so does every setter. *)
Theorem out_of_range_panics (f : Form) (n : nat) :
  (len f <= n)%nat ->
  get_type f n = None /\ get_name f n = None /\ get_state f n = None /\
  (forall op, apply_setter op f n = None).
Proof.
  intros H. pose proof (form_field_out_of_range f n H) as E.
  assert (Hs : get_state f n = None) by (unfold get_state; rewrite E; reflexivity).
  unfold get_type, get_name. rewrite E.
  split; [reflexivity|split; [reflexivity|split; [exact Hs|]]].
  intros op. destruct op; simpl;
      [unfold set_text|unfold set_check_box|unfold set_radio|unfold set_list_box
      |unfold set_combo_box]; rewrite Hs; reflexivity.
Qed.

Lemma out_of_range_panics_witness :
  (len sample_form <= 4)%nat /\
  (get_type sample_form 4 = None /\ get_name sample_form 4 = None /\
   get_state sample_form 4 = None /\
   (forall op, apply_setter op sample_form 4 = None)).
Proof.
  split; [vm_compute; lia|]. apply out_of_range_panics. vm_compute; lia.
Defined.





(** The reads of [get_state] that a write of [V] leaves alone. *)
Ltac v_ext field :=
  rewrite ?(field_type_ext _ field), ?(is_read_only_ext _ field),
    ?(is_required_ext _ field), ?(get_field_flags_ext _ field),
    ?(choice_options_ext _ field) by (rewrite !dict_get_set; reflexivity).

Lemma existsb_eqb_in (s : string) l : existsb (String.eqb s) l = true <-> In s l.
Proof.
  rewrite existsb_exists. split.
  - intros (x & Hx & E). apply String.eqb_eq in E. subst. exact Hx.
  - intros H. exists s. split; [exact H|apply String.eqb_refl].
Qed.

Lemma radio_written f n sel opts ro rq choice f1 :
  get_state f n = Some (FieldState.Radio sel opts ro rq) -> utf8_valid choice = true ->
  update_field f n (fun d => dict_set d "V" (Name choice)) = Some f1 ->
  get_state f1 n = Some (FieldState.Radio choice opts ro rq).
Proof.
  intros H Hu8 Hu.
  destruct (get_state_form_field _ _ _ H) as [field Hf].
  pose proof (form_field_update _ _ _ _ _ Hf Hu) as Hf'.
  pose proof (update_field_step f n _ f1 (keeps_keys_set_v _) Hu) as (Hids & _ & S & _).
  rewrite (get_state_unfold _ _ _ Hf'). rewrite (get_state_unfold _ _ _ Hf) in H.
  v_ext field.
  destruct (field_type field) as [ty|]; [|discriminate].
  destruct ty; simpl in H |- *; inv_opt H; try discriminate.
  injection H as <- <- <- <-.
  rewrite dict_get_set. simpl. unfold from_utf8. rewrite Hu8. simpl.
  rewrite Hids. match goal with E : nth_error (form_ids f) n = Some ?i |- _ => rewrite E end.
  simpl. rewrite (get_possibilities_step (doc f) (doc f1)) by exact S.
  match goal with E : get_possibilities (doc f) _ = Some _ |- _ => rewrite E end.
  reflexivity.
Qed.

Lemma combo_box_written f n sel opts ed ro rq choice f1 :
  get_state f n = Some (FieldState.ComboBox sel opts ed ro rq) -> utf8_valid choice = true ->
  update_field f n (fun d => dict_set d "V" (Str choice Literal)) = Some f1 ->
  get_state f1 n = Some (FieldState.ComboBox [choice] opts ed ro rq).
Proof.
  intros H Hu8 Hu.
  destruct (get_state_form_field _ _ _ H) as [field Hf].
  pose proof (form_field_update _ _ _ _ _ Hf Hu) as Hf'.
  rewrite (get_state_unfold _ _ _ Hf'). rewrite (get_state_unfold _ _ _ Hf) in H.
  v_ext field.
  destruct (field_type field) as [ty|]; [|discriminate].
  destruct ty; simpl in H |- *; inv_opt H; try discriminate.
  injection H as <- <- <- <- <-.
  unfold choice_selected. rewrite dict_get_set. simpl. unfold from_utf8. rewrite Hu8.
  simpl. repeat match goal with E : _ = Some _ |- _ => rewrite E; simpl end.
  reflexivity.
Qed.

Lemma literal_strings_map cs :
  Forall (fun c => utf8_valid c = true) cs ->
  literal_strings (map (fun x => Str x Literal) cs) = Some cs.
Proof.
  induction 1 as [|c cs Hc _ IH]; simpl; [reflexivity|].
  unfold from_utf8. rewrite Hc, IH. reflexivity.
Qed.

Lemma choice_selected_list_box_value field cs :
  Forall (fun c => utf8_valid c = true) cs ->
  choice_selected (dict_set field "V" (list_box_value cs)) = Some cs.
Proof.
  intros H. unfold choice_selected. rewrite dict_get_set. simpl.
  destruct cs as [|c [|c' cs]]; simpl; [reflexivity| |].
  - inversion H as [|? ? Hc]; subst. unfold from_utf8. rewrite Hc. reflexivity.
  - exact (literal_strings_map (c :: c' :: cs) H).
Qed.

Lemma list_box_written f n sel opts ms ro rq choices f1 :
  get_state f n = Some (FieldState.ListBox sel opts ms ro rq) ->
  Forall (fun c => utf8_valid c = true) choices ->
  update_field f n (fun d => dict_set d "V" (list_box_value choices)) = Some f1 ->
  get_state f1 n = Some (FieldState.ListBox choices opts ms ro rq).
Proof.
  intros H Hu8 Hu.
  destruct (get_state_form_field _ _ _ H) as [field Hf].
  pose proof (form_field_update _ _ _ _ _ Hf Hu) as Hf'.
  rewrite (get_state_unfold _ _ _ Hf'). rewrite (get_state_unfold _ _ _ Hf) in H.
  v_ext field.
  destruct (field_type field) as [ty|]; [|discriminate].
  destruct ty; simpl in H |- *; inv_opt H; try discriminate.
  injection H as <- <- <- <- <-.
  rewrite (choice_selected_list_box_value field choices Hu8). simpl.
  repeat match goal with E : _ = Some _ |- _ => rewrite E; simpl end.
  reflexivity.
Qed.

Lemma check_box_written f n b ro rq v f1 :
  get_state f n = Some (FieldState.CheckBox b ro rq) -> utf8_valid v = true ->
  update_field f n (fun d => dict_set (dict_set d "V" (Name v)) "AS" (Name v)) = Some f1 ->
  get_state f1 n = Some (FieldState.CheckBox (String.eqb v "Yes") ro rq).
Proof.
  intros H Hu8 Hu.
  destruct (get_state_form_field _ _ _ H) as [field Hf].
  pose proof (form_field_update _ _ _ _ _ Hf Hu) as Hf'.
  rewrite (get_state_unfold _ _ _ Hf'). rewrite (get_state_unfold _ _ _ Hf) in H.
  v_ext field.
  destruct (field_type field) as [ty|]; [|discriminate].
  destruct ty; simpl in H |- *; inv_opt H; try discriminate.
  injection H as <- <- <-.
  rewrite !dict_get_set. simpl. unfold name_is_yes, as_name_str, from_utf8. rewrite Hu8.
  simpl. repeat match goal with E : _ = Some _ |- _ => rewrite E; simpl end.
  reflexivity.
Qed.

Lemma get_state_same_id f m n :
  nth_error (form_ids f) m = nth_error (form_ids f) n -> get_state f m = get_state f n.
Proof. intro E. unfold get_state, get_type, form_field. rewrite E. reflexivity. Qed.

(** After a setter call with UTF-8 text, the state of the field it was
    called on still reads. *)
Lemma setter_state_reads op f n f' r st :
  setter_utf8 op -> apply_setter op f n = Some (f', r) -> get_state f n = Some st ->
  exists st', get_state f' n = Some st'.
Proof.
  intros Hu H Hst. destruct op as [c s|b|s|cs|s]; simpl in Hu, H.
  - destruct st; try (unfold set_text in H; rewrite Hst in H;
                      injection H as <- _; eauto).
    destruct (set_text_round_trip c f n s _ _ _ f' r Hst Hu H) as [_ E]. eauto.
  - unfold set_check_box in H. rewrite Hst in H.
    destruct st; try (injection H as <- _; eauto).
    destruct (form_field f n) as [field|] eqn:Hf; [|discriminate]. simpl in H.
    destruct (update_field f n _) as [f1|] eqn:Hu1; [|discriminate].
    injection H as <- _.
    assert (Hv : utf8_valid (if b then get_on_value field else "Off") = true)
      by (destruct b; [apply get_on_value_utf8|reflexivity]).
    eexists. exact (check_box_written f n _ _ _ _ f1 Hst Hv Hu1).
  - unfold set_radio in H. rewrite Hst in H.
    destruct st; try (injection H as <- _; eauto).
    destruct (existsb (String.eqb s) options); [|injection H as <- _; eauto].
    destruct (update_field f n _) as [f1|] eqn:Hu1; [|discriminate].
    injection H as <- _. eexists. exact (radio_written f n _ _ _ _ s f1 Hst Hu Hu1).
  - unfold set_list_box in H. rewrite Hst in H.
    destruct st; try (injection H as <- _; eauto).
    destruct (fold_left _ cs true); [|injection H as <- _; eauto].
    destruct (negb multiselect && _); [injection H as <- _; eauto|].
    destruct (update_field f n _) as [f1|] eqn:Hu1; [|discriminate].
    injection H as <- _. eexists. exact (list_box_written f n _ _ _ _ _ cs f1 Hst Hu Hu1).
  - unfold set_combo_box in H. rewrite Hst in H.
    destruct st; try (injection H as <- _; eauto).
    destruct (existsb (String.eqb s) options || editable); [|injection H as <- _; eauto].
    destruct (update_field f n _) as [f1|] eqn:Hu1; [|discriminate].
    injection H as <- _. eexists. exact (combo_box_written f n _ _ _ _ _ s f1 Hst Hu Hu1).
Qed.

(** X3: after a setter call with UTF-8 text, every field whose state read before still reads, and its state is the same as before apart from the selected value: options and flags do not change. *)
Theorem setters_keep_state_config (op : Setter) (f : Form) (n : nat) (f' : Form)
  (r : result unit ValueError) (m : nat) (st : FieldState.t) :
  setter_utf8 op ->
  apply_setter op f n = Some (f', r) ->
  get_state f m = Some st ->
  exists st', get_state f' m = Some st' /\ state_config st' = state_config st.
Proof.
  intros Hu H Hm. pose proof (setter_step op f n f' r H) as Hs.
  assert (Hother : nth_error (form_ids f) m <> nth_error (form_ids f) n ->
                   exists st', get_state f' m = Some st' /\ state_config st' = state_config st).
  { intro Hne. exists st. split; [|reflexivity].
    rewrite (get_state_other_step n f f' m Hs Hne). exact Hm. }
  destruct (nth_error (form_ids f) m) as [im|] eqn:Em.
  - destruct (nth_error (form_ids f) n) as [i_n|] eqn:En;
      [|apply Hother; discriminate].
    destruct (oid_eqb_reflect im i_n) as [<-|Hne];
      [|apply Hother; intro E; injection E; exact Hne].
    assert (Ef : get_state f m = get_state f n)
      by (apply get_state_same_id; rewrite Em, En; reflexivity).
    assert (Ef' : get_state f' m = get_state f' n).
    { apply get_state_same_id. destruct Hs as (Hi & _). rewrite Hi, Em, En. reflexivity. }
    rewrite Ef in Hm. destruct (setter_state_reads op f n f' r st Hu H Hm) as [st' Hst'].
    exists st'. split; [rewrite Ef'; exact Hst'|].
    exact (get_state_config_step n f f' n st st' Hs Hm Hst').
  - destruct (get_state_form_field _ _ _ Hm) as [field Hf].
    unfold form_field in Hf. rewrite Em in Hf. discriminate.
Qed.

Lemma setters_keep_state_config_witness :
  exists f' r, apply_setter (SetListBox ["C"]) sample_form 2 = Some (f', r) /\
  get_state sample_form 2 = Some (FieldState.ListBox [] ["A"; "B"; "C"] false false false) /\
  exists st', get_state f' 2 = Some st' /\
    state_config st' = state_config (FieldState.ListBox [] ["A"; "B"; "C"] false false false).
Proof.
  do 2 eexists. split; [reflexivity|]. split; [reflexivity|].
  eapply (setters_keep_state_config (SetListBox ["C"]) sample_form 2 _ (Ok tt) 2);
    [repeat constructor|reflexivity|reflexivity].
Defined.

(** X7: [set_radio] with one of the radio group's options succeeds, and afterwards [get_state] reads that option as selected with the same options and flags. *)
Theorem set_radio_round_trip (f : Form) (n : nat) (sel : string) (opts : list string)
  (ro rq : bool) (choice : string) :
  get_state f n = Some (FieldState.Radio sel opts ro rq) ->
  In choice opts -> utf8_valid choice = true ->
  exists f', set_radio f n choice = Some (f', Ok tt) /\
             get_state f' n = Some (FieldState.Radio choice opts ro rq).
Proof.
  intros H Hin Hu8.
  destruct (get_state_form_field _ _ _ H) as [field Hf].
  destruct (update_field_some f n (fun d => dict_set d "V" (Name choice)) field Hf)
    as [f' [Hu _]].
  exists f'. split.
  - unfold set_radio. rewrite H. rewrite (proj2 (existsb_eqb_in _ _) Hin).
    rewrite Hu. reflexivity.
  - exact (radio_written _ _ _ _ _ _ _ _ H Hu8 Hu).
Qed.

Lemma set_radio_round_trip_witness :
  (get_state sample_form 3 = Some (FieldState.Radio "" ["a"; "1"] false false) /\
   In "1" ["a"; "1"] /\ utf8_valid "1" = true) /\
  exists f', set_radio sample_form 3 "1" = Some (f', Ok tt) /\
             get_state f' 3 = Some (FieldState.Radio "1" ["a"; "1"] false false).
Proof.
  split; [split; [reflexivity|split; [simpl; auto|reflexivity]]|].
  apply (set_radio_round_trip sample_form 3 "" ["a"; "1"] false false "1");
    [reflexivity|simpl; auto|reflexivity].
Defined.

(** X8: [set_combo_box] with one of the options, or any choice on an editable combo box, succeeds, and afterwards [get_state] reads exactly that choice as selected with the same options and flags. *)
Theorem set_combo_box_round_trip (f : Form) (n : nat) (sel opts : list string)
  (ed ro rq : bool) (choice : string) :
  get_state f n = Some (FieldState.ComboBox sel opts ed ro rq) ->
  In choice opts \/ ed = true -> utf8_valid choice = true ->
  exists f', set_combo_box f n choice = Some (f', Ok tt) /\
             get_state f' n = Some (FieldState.ComboBox [choice] opts ed ro rq).
Proof.
  intros H Hin Hu8.
  destruct (get_state_form_field _ _ _ H) as [field Hf].
  destruct (update_field_some f n (fun d => dict_set d "V" (Str choice Literal)) field Hf)
    as [f' [Hu _]].
  exists f'. split.
  - unfold set_combo_box. rewrite H.
    replace (existsb (String.eqb choice) opts || ed)%bool with true.
    + rewrite Hu. reflexivity.
    + destruct Hin as [Hin| ->]; [rewrite (proj2 (existsb_eqb_in _ _) Hin)|];
        rewrite ?orb_true_r; reflexivity.
  - exact (combo_box_written _ _ _ _ _ _ _ _ _ H Hu8 Hu).
Qed.

Lemma set_combo_box_round_trip_witness :
  (get_state sample_combo_form 0 = Some (FieldState.ComboBox [] ["A"; "B"] true false false) /\
   (In "Z" ["A"; "B"] \/ true = true) /\ utf8_valid "Z" = true) /\
  exists f', set_combo_box sample_combo_form 0 "Z" = Some (f', Ok tt) /\
             get_state f' 0 = Some (FieldState.ComboBox ["Z"] ["A"; "B"] true false false).
Proof.
  split; [split; [reflexivity|split; [right; reflexivity|reflexivity]]|].
  apply (set_combo_box_round_trip sample_combo_form 0 [] ["A"; "B"] true false false "Z");
    [reflexivity|right; reflexivity|reflexivity].
Defined.

(** X9: [set_list_box] with options of the list (at most one unless it is multi-select) succeeds, and afterwards [get_state] reads exactly those choices, in the given order, with the same options and flags. *)
Theorem set_list_box_round_trip (f : Form) (n : nat) (sel opts : list string)
  (ms ro rq : bool) (choices : list string) :
  get_state f n = Some (FieldState.ListBox sel opts ms ro rq) ->
  (forall c, In c choices -> In c opts) ->
  ms = true \/ (length choices <= 1)%nat ->
  Forall (fun c => utf8_valid c = true) choices ->
  exists f', set_list_box f n choices = Some (f', Ok tt) /\
             get_state f' n = Some (FieldState.ListBox choices opts ms ro rq).
Proof.
  intros H Hin Hms Hu8.
  destruct (get_state_form_field _ _ _ H) as [field Hf].
  destruct (update_field_some f n (fun d => dict_set d "V" (list_box_value choices)) field Hf)
    as [f' [Hu _]].
  exists f'. split.
  - unfold set_list_box. rewrite H, fold_member_all, (proj2 (member_all_spec _ _) Hin).
    simpl. replace (negb ms && (1 <? length choices)%nat)%bool with false.
    + rewrite Hu. reflexivity.
    + destruct Hms as [->|Hl]; [reflexivity|].
      destruct (Nat.ltb_spec 1 (length choices)); [lia|rewrite andb_false_r; reflexivity].
  - exact (list_box_written _ _ _ _ _ _ _ _ _ H Hu8 Hu).
Qed.

Lemma set_list_box_round_trip_witness :
  (get_state sample_form 2 = Some (FieldState.ListBox [] ["A"; "B"; "C"] false false false) /\
   (forall c, In c ["B"] -> In c ["A"; "B"; "C"]) /\
   (false = true \/ (length ["B"] <= 1)%nat) /\
   Forall (fun c => utf8_valid c = true) ["B"]) /\
  exists f', set_list_box sample_form 2 ["B"] = Some (f', Ok tt) /\
             get_state f' 2 = Some (FieldState.ListBox ["B"] ["A"; "B"; "C"] false false false).
Proof.
  assert (Hin : forall c, In c ["B"] -> In c ["A"; "B"; "C"]).
  { intros c [<-|[]]. simpl. auto. }
  assert (Hl : false = true \/ (length ["B"] <= 1)%nat) by (right; simpl; lia).
  assert (Hv : Forall (fun c => utf8_valid c = true) ["B"]) by (repeat constructor).
  split; [split; [reflexivity|split; [exact Hin|split; [exact Hl|exact Hv]]]|].
  exact (set_list_box_round_trip sample_form 2 [] ["A"; "B"; "C"] false false false ["B"]
           eq_refl Hin Hl Hv).
Defined.

(** X10: [set_check_box] with [false] on a check box succeeds, and afterwards [get_state] reads the box as unchecked with the same flags. *)
Theorem uncheck_round_trip (f : Form) (n : nat) (b ro rq : bool) :
  get_state f n = Some (FieldState.CheckBox b ro rq) ->
  exists f', set_check_box f n false = Some (f', Ok tt) /\
             get_state f' n = Some (FieldState.CheckBox false ro rq).
Proof.
  intros H.
  destruct (get_state_form_field _ _ _ H) as [field Hf].
  destruct (update_field_some f n
              (fun d => dict_set (dict_set d "V" (Name "Off")) "AS" (Name "Off")) field Hf)
    as [f' [Hu _]].
  exists f'. split.
  - unfold set_check_box. rewrite H, Hf. simpl. rewrite Hu. reflexivity.
  - exact (check_box_written _ _ _ _ _ "Off" _ H eq_refl Hu).
Qed.

Lemma uncheck_round_trip_witness :
  get_state sample_form 1 = Some (FieldState.CheckBox false false false) /\
  exists f', set_check_box sample_form 1 false = Some (f', Ok tt) /\
             get_state f' 1 = Some (FieldState.CheckBox false false false).
Proof.
  split; [reflexivity|]. apply (uncheck_round_trip sample_form 1 false). reflexivity.
Defined.

Lemma update_field_twice f n g1 g2 f1 :
  update_field f n g1 = Some f1 ->
  update_field f1 n g2 = update_field f n (fun d => g2 (g1 d)).
Proof.
  unfold update_field.
  destruct (nth_error (form_ids f) n) as [id|] eqn:Hid; simpl; [|discriminate].
  destruct (objects_get (objects (doc f)) id) as [o|] eqn:Ho; simpl; [|discriminate].
  destruct o; simpl; try discriminate. intros H. injection H as <-. simpl.
  rewrite Hid. simpl. rewrite objects_get_update.
  destruct (oid_eqb_reflect id id) as [_|]; [|congruence]. rewrite Ho. simpl.
  rewrite objects_update_fuse. do 3 f_equal. apply objects_update_ext.
  intros []; reflexivity.
Qed.

Lemma update_field_ext f n g h :
  (forall d, g d = h d) -> update_field f n g = update_field f n h.
Proof.
  intros H. unfold update_field.
  destruct (nth_error (form_ids f) n); simpl; [|reflexivity].
  destruct (objects_get (objects (doc f)) o); simpl; [|reflexivity].
  destruct (as_dict o0); [|reflexivity]. do 3 f_equal. apply objects_update_ext.
  intros []; rewrite ?H; reflexivity.
Qed.

Lemma filter_filter_and {A} (p q : A -> bool) l :
  filter p (filter q l) = filter (fun x => p x && q x) l.
Proof.
  induction l as [|x l IH]; simpl; [reflexivity|].
  destruct (q x); simpl; destruct (p x); simpl; rewrite IH; reflexivity.
Qed.

Lemma dict_set_set d k a b : dict_set (dict_set d k a) k b = dict_set d k b.
Proof.
  unfold dict_set, dict_remove. rewrite filter_app, filter_filter_and. simpl.
  rewrite String.eqb_refl. simpl. rewrite app_nil_r. f_equal. apply filter_ext.
  intros x. destruct (negb _); reflexivity.
Qed.

Lemma dict_set_pair_twice d a b :
  dict_set (dict_set (dict_set (dict_set d "V" a) "AS" a) "V" b) "AS" b =
  dict_set (dict_set d "V" b) "AS" b.
Proof.
  unfold dict_set, dict_remove. rewrite !filter_app, !filter_filter_and.
  cbn [filter fst]. rewrite !String.eqb_refl.
  replace (String.eqb "AS" "V") with false by reflexivity.
  replace (String.eqb "V" "AS") with false by reflexivity.
  cbn [negb andb]. rewrite <- !app_assoc. cbn [app]. f_equal. apply filter_ext.
  intros x. destruct (String.eqb "AS" (fst x)), (String.eqb "V" (fst x)); reflexivity.
Qed.

Lemma get_on_value_ext d1 d2 :
  dict_get d1 "AP" = dict_get d2 "AP" -> get_on_value d1 = get_on_value d2.
Proof. unfold get_on_value. intros ->. reflexivity. Qed.

(** X11: two successful calls of the choice and check-box setters on the same field: the second one, run after the first, gives the same form as when run alone (last write wins, and each such setter is idempotent). *)
Theorem value_setters_last_write_wins (op1 op2 : Setter) (f : Form) (n : nat)
  (f1 f2 : Form) :
  is_set_text op1 = false -> is_set_text op2 = false -> setter_utf8 op1 ->
  apply_setter op1 f n = Some (f1, Ok tt) ->
  apply_setter op2 f n = Some (f2, Ok tt) ->
  apply_setter op2 f1 n = Some (f2, Ok tt).
Proof.
  intros T1 T2 U1 H1 H2.
  destruct op1 as [c1 s1|b1|s1|cs1|s1]; try discriminate T1;
  destruct op2 as [c2 s2|b2|s2|cs2|s2]; try discriminate T2; simpl in *;
  unfold set_check_box, set_radio, set_list_box, set_combo_box in *;
  destruct (get_state f n) as [st|] eqn:Hst; try discriminate H1;
  destruct st; simpl in H1, H2; try discriminate H1; try discriminate H2.
  all: inv_opt H1; inv_opt H2; injection H1 as ->; injection H2 as ->.
  - (* check box *)
    match goal with U : update_field f n _ = Some f1 |- _ => rename U into Hu1 end.
    match goal with U : update_field f n _ = Some f2 |- _ => rename U into Hu2 end.
    match goal with E : form_field f n = Some ?d |- _ => rename E into Hf; rename d into field end.
    assert (Hv : utf8_valid (if b1 then get_on_value field else "Off") = true)
      by (destruct b1; [apply get_on_value_utf8|reflexivity]).
    rewrite (check_box_written _ _ _ _ _ _ _ Hst Hv Hu1). simpl.
    rewrite (form_field_update _ _ _ _ _ Hf Hu1). simpl.
    rewrite (get_on_value_ext _ field) by (rewrite !dict_get_set; reflexivity).
    rewrite (update_field_twice _ _ _ _ _ Hu1).
    erewrite update_field_ext; [rewrite Hu2; reflexivity|].
    intros d0. cbv beta. apply dict_set_pair_twice.
  - (* radio *)
    match goal with U : update_field f n _ = Some f1 |- _ => rename U into Hu1 end.
    match goal with U : update_field f n _ = Some f2 |- _ => rename U into Hu2 end.
    rewrite (radio_written _ _ _ _ _ _ _ _ Hst U1 Hu1). simpl.
    match goal with E : existsb (String.eqb s2) _ = true |- _ => rewrite E end.
    rewrite (update_field_twice _ _ _ _ _ Hu1).
    erewrite update_field_ext; [rewrite Hu2; reflexivity|].
    intros d0. cbv beta. apply dict_set_set.
  - (* list box *)
    match goal with U : update_field f n _ = Some f1 |- _ => rename U into Hu1 end.
    match goal with U : update_field f n _ = Some f2 |- _ => rename U into Hu2 end.
    rewrite (list_box_written _ _ _ _ _ _ _ _ _ Hst U1 Hu1). simpl.
    match goal with E : fold_left _ cs2 true = true |- _ => rewrite E end.
    match goal with E : (negb _ && (1 <? length cs2)%nat)%bool = false |- _ => rewrite E end.
    rewrite (update_field_twice _ _ _ _ _ Hu1).
    erewrite update_field_ext; [rewrite Hu2; reflexivity|].
    intros d0. cbv beta. apply dict_set_set.
  - (* combo box *)
    match goal with U : update_field f n _ = Some f1 |- _ => rename U into Hu1 end.
    match goal with U : update_field f n _ = Some f2 |- _ => rename U into Hu2 end.
    rewrite (combo_box_written _ _ _ _ _ _ _ _ _ Hst U1 Hu1). simpl.
    match goal with E : (existsb (String.eqb s2) _ || _)%bool = true |- _ => rewrite E end.
    rewrite (update_field_twice _ _ _ _ _ Hu1).
    erewrite update_field_ext; [rewrite Hu2; reflexivity|].
    intros d0. cbv beta. apply dict_set_set.
Qed.

Lemma value_setters_last_write_wins_witness :
  exists f1 f2,
  (is_set_text (SetRadio "a") = false /\ is_set_text (SetRadio "1") = false /\
   setter_utf8 (SetRadio "a") /\
   apply_setter (SetRadio "a") sample_form 3 = Some (f1, Ok tt) /\
   apply_setter (SetRadio "1") sample_form 3 = Some (f2, Ok tt)) /\
  apply_setter (SetRadio "1") f1 3 = Some (f2, Ok tt).
Proof.
  do 2 eexists.
  split; [split; [reflexivity|split; [reflexivity|split; [reflexivity|split; reflexivity]]]|].
  apply (value_setters_last_write_wins (SetRadio "a") (SetRadio "1") sample_form 3);
    reflexivity.
Defined.

Lemma on_value_scan_not_off options o s :
  (forall s', o = Some s' -> s' <> "Off") ->
  on_value_scan options o = Some s -> s <> "Off".
Proof.
  revert o. induction options as [|[name v] rest IH]; intros o Ho H; simpl in H.
  - exact (Ho s H).
  - refine (IH _ _ H). intros s' Hs'.
    destruct (from_utf8 name) as [nm|].
    + destruct (String.eqb_spec nm "Off") as [E|E]; simpl in Hs'.
      * exact (Ho s' Hs').
      * destruct o; simpl in Hs'; [exact (Ho s' Hs')|injection Hs' as <-; exact E].
    + exact (Ho s' Hs').
Qed.

(** X12: [get_on_value] never returns [Off], and always returns valid UTF-8. *)
Theorem get_on_value_not_off (field : Dict) :
  get_on_value field <> "Off" /\ utf8_valid (get_on_value field) = true.
Proof.
  split; [|apply get_on_value_utf8].
  unfold get_on_value.
  destruct (dict_get field "AP") as [ap|]; [|discriminate].
  destruct (as_dict ap) as [dict|]; [|discriminate].
  destruct (dict_get dict "N") as [values|]; [|discriminate].
  destruct (as_dict values) as [options|]; [|discriminate].
  destruct (on_value_scan options None) as [s|] eqn:E; [|discriminate].
  apply (on_value_scan_not_off options None s); [discriminate|exact E].
Qed.

Lemma testbit_mod_pow2 i k : (0 <= k < 32)%Z -> Z.testbit (i mod 2 ^ 32) k = Z.testbit i k.
Proof.
  intros Hk. rewrite <- (Z.land_ones i 32) by lia. rewrite Z.land_spec, Z.ones_spec_low by lia.
  apply andb_true_r.
Qed.

Lemma intersects_bit fl k :
  (0 <= k)%Z -> intersects fl (2 ^ k) = Z.testbit fl k.
Proof.
  intros Hk. unfold intersects.
  assert (Hb : forall j, Z.testbit (Z.land fl (2 ^ k)) j = Z.testbit fl j && Z.eqb k j).
  { intros j. rewrite Z.land_spec.
    destruct (Z_lt_le_dec j 0) as [Hj|Hj].
    - rewrite !Z.testbit_neg_r by lia. reflexivity.
    - rewrite Z.pow2_bits_eqb by lia. reflexivity. }
  destruct (Z.testbit fl k) eqn:E.
  - apply Bool.negb_true_iff, Z.eqb_neq. intros H.
    specialize (Hb k). rewrite H, Z.testbit_0_l, E, Z.eqb_refl in Hb. discriminate.
  - apply Bool.negb_false_iff, Z.eqb_eq. apply Z.bits_inj. intros j.
    rewrite Hb, Z.testbit_0_l.
    destruct (Z.eqb_spec k j) as [<-|]; [rewrite E; reflexivity|apply andb_false_r].
Qed.

(** X13: [get_field_flags] is [Ff] taken modulo 2^32 (0 without [Ff], a panic for a non-integer [Ff]); [is_read_only] and [is_required] are bits 0 and 1 of [Ff]. *)
Theorem field_flags_bits (field : Dict) :
  get_field_flags field =
    match dict_get field "Ff" with
    | None => Some 0%Z
    | Some (Integer i) => Some (i mod 2 ^ 32)%Z
    | Some _ => None
    end /\
  is_read_only field =
    match dict_get field "Ff" with
    | None => Some false
    | Some (Integer i) => Some (Z.testbit i 0)
    | Some _ => None
    end /\
  is_required field =
    match dict_get field "Ff" with
    | None => Some false
    | Some (Integer i) => Some (Z.testbit i 1)
    | Some _ => None
    end.
Proof.
  unfold is_read_only, is_required, get_field_flags.
  destruct (dict_get field "Ff") as [o|]; [|repeat split].
  destruct o; try (repeat split; reflexivity). simpl.
  unfold FieldFlags.READONLY, FieldFlags.REQUIRED.
  rewrite !intersects_truncate by reflexivity.
  change (intersects ?x 1%Z) with (intersects x (2 ^ 0)%Z).
  change (intersects ?x 2%Z) with (intersects x (2 ^ 1)%Z).
  rewrite !intersects_bit, !testbit_mod_pow2 by lia. repeat split.
Qed.

Lemma discover_sound fuel d q ids r :
  discover fuel d q ids = Some (Ok r) ->
  Forall (resolves_to_field d) ids -> Forall (resolves_to_field d) r.
Proof.
  revert q ids. induction fuel as [|fuel IH]; intros q ids H Hids; [discriminate|].
  destruct q as [|o rest]; simpl in H; [injection H as <-; exact Hids|].
  destruct (deref d o) as [x|e] eqn:Ed; [|discriminate].
  destruct x; try exact (IH _ _ H Hids).
  destruct (as_reference o) as [id|] eqn:Eo; [|discriminate]. simpl in H.
  apply (IH _ _ H). destruct (has_key d0 "FT") eqn:Hft; [|exact Hids].
  apply Forall_app. split; [exact Hids|]. constructor; [|constructor].
  destruct o; try discriminate. injection Eo as ->. unfold deref in Ed.
  destruct (objects_get (objects d) id) as [o'|] eqn:Eg; [|discriminate].
  injection Ed as ->. exists d0. split; assumption.
Qed.

(** X14: a successful [load_doc] records only ids that resolve, in the given document, to dictionaries with an [FT] entry, and every index below [len] reads a field dictionary with [FT]. *)
Theorem load_doc_sound (fuel : nat) (d : Document) (f : Form) :
  load_doc fuel d = Some (Ok f) ->
  Forall (resolves_to_field d) (form_ids f) /\
  forall n, (n < len f)%nat ->
    exists field, form_field f n = Some field /\ has_key field "FT" = true.
Proof.
  unfold load_doc. intros H.
  destruct (acroform_fields d) as [fl|e]; [|discriminate].
  destruct (discover fuel d fl []) as [[ids|e]|] eqn:Hd; simpl in H; try discriminate.
  injection H as <-. simpl.
  pose proof (discover_sound _ _ _ _ _ Hd (Forall_nil _)) as Hs.
  split; [exact Hs|].
  intros n Hn. unfold len in Hn. simpl in Hn.
  destruct (nth_error ids n) as [id|] eqn:Hid;
    [|apply nth_error_None in Hid; lia].
  apply nth_error_In in Hid as Hin.
  rewrite Forall_forall in Hs. destruct (Hs id Hin) as (dict & Ho & Hft).
  exists dict. split; [|exact Hft].
  unfold form_field. simpl. rewrite Hid. simpl. rewrite Ho. reflexivity.
Qed.

Lemma load_doc_sound_witness :
  load_doc 20 sample_doc = Some (Ok sample_form) /\
  (Forall (resolves_to_field sample_doc) (form_ids sample_form) /\
   forall n, (n < len sample_form)%nat ->
     exists field, form_field sample_form n = Some field /\ has_key field "FT" = true).
Proof.
  split; [reflexivity|]. apply load_doc_sound with (fuel := 20%nat). reflexivity.
Defined.

Lemma discover_bad fuel d pre bad post ids e :
  Forall (fun o => exists x, deref d o = Ok x) pre -> deref d bad = Err e ->
  (length pre < fuel)%nat ->
  discover fuel d (pre ++ bad :: post)%list ids = Some (Err e).
Proof.
  revert fuel pre post ids. induction fuel as [|fuel IH]; intros pre post ids Hpre Hbad Hl;
    [lia|].
  destruct pre as [|o pre]; simpl; [rewrite Hbad; reflexivity|].
  inversion Hpre as [|? ? (x & Hx) Hpre']; subst. rewrite Hx.
  simpl in Hl.
  destruct x; try (apply IH; [exact Hpre'|exact Hbad|lia]).
  destruct o; try discriminate Hx. simpl.
  rewrite <- app_assoc. simpl. apply IH; [exact Hpre'|exact Hbad|lia].
Qed.

(** X15: if an entry of [Fields] does not resolve, and every entry before it does, [load_doc] fails with that entry's error. *)
Theorem load_doc_bad_field_entry (fuel : nat) (d : Document)
  (pre post : list Object) (bad : Object) (e : LoadError) :
  acroform_fields d = Ok (pre ++ bad :: post)%list ->
  Forall (fun o => exists x, deref d o = Ok x) pre ->
  deref d bad = Err e ->
  (length pre < fuel)%nat ->
  load_doc fuel d = Some (Err e).
Proof.
  intros Ha Hpre Hbad Hl. unfold load_doc. rewrite Ha.
  rewrite (discover_bad _ _ _ _ _ _ _ Hpre Hbad Hl). reflexivity.
Qed.

Lemma load_doc_bad_field_entry_witness :
  (acroform_fields dangling_field_doc = Ok ([ref 3] ++ ref 9 :: [])%list /\
   Forall (fun o => exists x, deref dangling_field_doc o = Ok x) [ref 3] /\
   deref dangling_field_doc (ref 9) = Err (NoSuchReference (9, 0)%N) /\
   (length [ref 3] < 5)%nat) /\
  load_doc 5 dangling_field_doc = Some (Err (NoSuchReference (9, 0)%N)).
Proof.
  assert (Ha : acroform_fields dangling_field_doc = Ok ([ref 3] ++ ref 9 :: [])%list)
    by reflexivity.
  assert (Hp : Forall (fun o => exists x, deref dangling_field_doc o = Ok x) [ref 3])
    by (constructor; [eexists; reflexivity|constructor]).
  assert (Hb : deref dangling_field_doc (ref 9) = Err (NoSuchReference (9, 0)%N))
    by reflexivity.
  assert (Hl : (length [ref 3] < 5)%nat) by (simpl; lia).
  split; [repeat split; assumption|].
  exact (load_doc_bad_field_entry 5 dangling_field_doc [ref 3] [] (ref 9) _ Ha Hp Hb Hl).
Defined.

Lemma discover_self_kid fuel d id dict ids :
  objects_get (objects d) id = Some (Dictionary dict) ->
  kids_entries dict = [Reference id] ->
  discover fuel d [Reference id] ids = None.
Proof.
  intros Ho Hk. revert ids. induction fuel as [|fuel IH]; intros ids; [reflexivity|].
  rewrite (discover_step _ _ _ _ _ _ Ho), Hk. simpl. apply IH.
Qed.

(** X16: a field that lists itself among its [Kids] makes [load_doc] loop for ever. *)
Theorem load_doc_self_kid_diverges (d : Document) (id : ObjectId) (dict : Dict) :
  acroform_fields d = Ok [Reference id] ->
  objects_get (objects d) id = Some (Dictionary dict) ->
  kids_entries dict = [Reference id] ->
  forall fuel, load_doc fuel d = None.
Proof.
  intros Ha Ho Hk fuel. unfold load_doc. rewrite Ha.
  rewrite (discover_self_kid _ _ _ _ _ Ho Hk). reflexivity.
Qed.

Lemma load_doc_self_kid_diverges_witness :
  (acroform_fields self_kid_doc = Ok [Reference (3, 0)%N] /\
   objects_get (objects self_kid_doc) (3, 0)%N =
     Some (Dictionary [("FT", Name "Tx"); ("Kids", Array [ref 3])]) /\
   kids_entries [("FT", Name "Tx"); ("Kids", Array [ref 3])] = [Reference (3, 0)%N]) /\
  load_doc 1000 self_kid_doc = None.
Proof.
  split; [repeat split; reflexivity|].
  exact (load_doc_self_kid_diverges self_kid_doc (3, 0)%N
           [("FT", Name "Tx"); ("Kids", Array [ref 3])] eq_refl eq_refl eq_refl 1000).
Defined.

Lemma discover_suffix k d q ids r :
  discover k d q ids = Some (Ok r) -> exists rest, r = (ids ++ rest)%list.
Proof.
  revert q ids. induction k as [|k IH]; intros q ids H; [discriminate|].
  destruct q as [|o rest]; simpl in H.
  - injection H as <-. exists []. rewrite app_nil_r. reflexivity.
  - destruct (deref d o) as [x|e]; [|discriminate].
    destruct x; try exact (IH _ _ H).
    destruct (as_reference o) as [id|]; [|discriminate]. simpl in H.
    destruct (IH _ _ H) as [rest' ->].
    destruct (has_key d0 "FT").
    + exists (id :: rest'). rewrite <- app_assoc. reflexivity.
    + exists rest'. reflexivity.
Qed.

Lemma discover_prefix fuel d fl q ids r :
  Forall (fun o => exists x, deref d o = Ok x) fl ->
  discover fuel d (fl ++ q)%list ids = Some (Ok r) ->
  exists rest, r = (ids ++ top_level_fields d fl ++ rest)%list.
Proof.
  revert fl q ids. induction fuel as [|fuel IH]; intros fl q ids Hfl H; [discriminate|].
  destruct fl as [|o fl].
  - cbn [app] in H. destruct (discover_suffix _ _ _ _ _ H) as [rest ->].
    exists rest. reflexivity.
  - inversion Hfl as [|? ? (x & Hx) Hfl']; subst.
    simpl in H. rewrite Hx in H.
    destruct o; try discriminate Hx. simpl in Hx.
    destruct (objects_get (objects d) id) as [o'|] eqn:Eo; [|discriminate].
    injection Hx as ->. simpl. rewrite Eo.
    destruct x; try (destruct (IH _ _ _ Hfl' H) as [rest ->]; exists rest; reflexivity).
    simpl in H. rewrite <- app_assoc in H.
    destruct (IH _ _ _ Hfl' H) as [rest ->]. exists rest.
    destruct (has_key d0 "FT"); simpl; rewrite <- ?app_assoc; reflexivity.
Qed.

(** X17: when every entry of [Fields] resolves, the form's ids start with the top-level entries that have [FT], in the order of [Fields], before any kid. *)
Theorem load_doc_top_level_first (fuel : nat) (d : Document) (fields_list : list Object)
  (f : Form) :
  acroform_fields d = Ok fields_list ->
  Forall (fun o => exists x, deref d o = Ok x) fields_list ->
  load_doc fuel d = Some (Ok f) ->
  exists rest, form_ids f = (top_level_fields d fields_list ++ rest)%list.
Proof.
  intros Ha Hfl H. unfold load_doc in H. rewrite Ha in H.
  destruct (discover fuel d fields_list []) as [[ids|e]|] eqn:Hd; simpl in H; try discriminate.
  injection H as <-. simpl.
  rewrite <- (app_nil_r fields_list) in Hd.
  exact (discover_prefix _ _ _ _ _ _ Hfl Hd).
Qed.

Lemma load_doc_top_level_first_witness :
  (acroform_fields sample_doc = Ok [ref 3; ref 4; ref 5; ref 6] /\
   Forall (fun o => exists x, deref sample_doc o = Ok x) [ref 3; ref 4; ref 5; ref 6] /\
   load_doc 20 sample_doc = Some (Ok sample_form)) /\
  exists rest, form_ids sample_form =
    (top_level_fields sample_doc [ref 3; ref 4; ref 5; ref 6] ++ rest)%list.
Proof.
  assert (Ha : acroform_fields sample_doc = Ok [ref 3; ref 4; ref 5; ref 6]) by reflexivity.
  assert (Hf : Forall (fun o => exists x, deref sample_doc o = Ok x) [ref 3; ref 4; ref 5; ref 6])
    by (repeat constructor; eexists; reflexivity).
  assert (Hl : load_doc 20 sample_doc = Some (Ok sample_form)) by reflexivity.
  split; [repeat split; assumption|].
  exact (load_doc_top_level_first 20 sample_doc _ sample_form Ha Hf Hl).
Defined.

(** X18: a setter that returns an error leaves the form unchanged, and the error is [TypeMismatch] exactly when the field's state is of a kind the setter is not written for. *)
Theorem setter_errors (op : Setter) (f : Form) (n : nat) (f' : Form) (e : ValueError) :
  apply_setter op f n = Some (f', Err e) ->
  f' = f /\
  (e = TypeMismatch <-> exists st, get_state f n = Some st /\ setter_accepts op st = false).
Proof.
  intros H.
  destruct op as [c s|b|s|cs|s]; simpl in H;
    [unfold set_text in H|unfold set_check_box in H|unfold set_radio in H
    |unfold set_list_box in H|unfold set_combo_box in H];
    destruct (get_state f n) as [st|] eqn:Hst; try discriminate H;
    destruct st; simpl in H; inv_opt H; try discriminate H;
    injection H as <- <-;
    (split; [reflexivity|split; [intros Heq; try discriminate Heq; eexists; split; reflexivity
                                |intros (st0 & Est & A); injection Est as <-;
                                 first [reflexivity|discriminate A]]]).
Qed.

Lemma setter_errors_witness :
  apply_setter (SetRadio "a") sample_form 0 = Some (sample_form, Err TypeMismatch) /\
  (sample_form = sample_form /\
   (TypeMismatch = TypeMismatch <->
    exists st, get_state sample_form 0 = Some st /\ setter_accepts (SetRadio "a") st = false)).
Proof.
  split; [reflexivity|]. apply setter_errors. reflexivity.
Defined.

(** X19: [set_text] on a text field without [DA], [Rect] or [AP] only writes [V] and returns [Ok]. *)
Theorem set_text_without_appearance (c : Codec) (f : Form) (n : nat) (s t : string)
  (ro rq : bool) (field : Dict) :
  get_state f n = Some (FieldState.Text t ro rq) ->
  form_field f n = Some field ->
  dict_get field "DA" = None \/ dict_get field "Rect" = None \/ dict_get field "AP" = None ->
  exists f', update_field f n (fun d => dict_set d "V" (Str s Literal)) = Some f' /\
             set_text c f n s = Some (f', Ok tt).
Proof.
  intros H Hf Hmiss.
  destruct (update_field_some f n (fun d => dict_set d "V" (Str s Literal)) field Hf)
    as [f1 [Hu _]].
  pose proof (form_field_update _ _ _ _ _ Hf Hu) as Hf1.
  exists f1. split; [exact Hu|].
  unfold set_text. rewrite H, Hu. simpl.
  unfold regenerate_text_appearance. rewrite Hf1. simpl.
  rewrite !dict_get_set. simpl.
  destruct Hmiss as [E|[E|E]]; rewrite E; [reflexivity| |].
  - destruct (dict_get field "DA"); reflexivity.
  - destruct (dict_get field "DA"); [|reflexivity].
    destruct (dict_get field "Rect") as [r|]; simpl; [|reflexivity].
    destruct (as_array r); reflexivity.
Qed.

Lemma set_text_without_appearance_witness :
  (get_state plain_text_form 0 = Some (FieldState.Text "" false false) /\
   form_field plain_text_form 0 = Some plain_text_field /\
   (dict_get plain_text_field "DA" = None \/ dict_get plain_text_field "Rect" = None \/
    dict_get plain_text_field "AP" = None)) /\
  exists f', update_field plain_text_form 0 (fun d => dict_set d "V" (Str "hi" Literal)) = Some f' /\
             set_text trivial_codec plain_text_form 0 "hi" = Some (f', Ok tt).
Proof.
  assert (Hm : dict_get plain_text_field "DA" = None \/ dict_get plain_text_field "Rect" = None \/
               dict_get plain_text_field "AP" = None) by (left; reflexivity).
  split; [split; [reflexivity|split; [reflexivity|exact Hm]]|].
  exact (set_text_without_appearance trivial_codec plain_text_form 0 "hi" "" false false
           plain_text_field eq_refl eq_refl Hm).
Defined.

Lemma kids_options_bad d kids i kid :
  In kid kids ->
  match unwrap (deref d kid) with Some (Dictionary _) => False | _ => True end ->
  kids_options d kids i = None.
Proof.
  revert i. induction kids as [|k kids IH]; intros i Hin Hbad; [destruct Hin|].
  simpl. destruct Hin as [->|Hin].
  - unfold kid_option. destruct (unwrap (deref d kid)) as [[]|]; simpl;
      try reflexivity; contradiction.
  - destruct (kid_option d k i); simpl; [|reflexivity].
    rewrite (IH (S i) Hin Hbad). reflexivity.
Qed.

(** X20: the state of a radio group one of whose kids does not resolve to a dictionary cannot be read: [get_state] panics. *)
Theorem radio_bad_kid_panics (f : Form) (n : nat) (field : Dict) (kid : Object) :
  form_field f n = Some field ->
  get_type f n = Some FieldType.Radio ->
  In kid (kids_entries field) ->
  match unwrap (deref (doc f) kid) with Some (Dictionary _) => False | _ => True end ->
  get_state f n = None.
Proof.
  intros Hf Ht Hin Hbad.
  unfold get_type in Ht. rewrite Hf in Ht. simpl in Ht.
  rewrite (get_state_unfold _ _ _ Hf), Ht. simpl.
  destruct (match dict_get field "V" with
            | Some name => as_name_str name
            | None => match dict_get field "AS" with
                      | Some name => as_name_str name
                      | None => Some "" end end); simpl; [|reflexivity].
  destruct (nth_error (form_ids f) n) as [id|] eqn:Hid; simpl; [|reflexivity].
  rewrite (get_possibilities_field _ _ _ _ Hf Hid).
  rewrite (kids_options_bad _ _ _ _ Hin Hbad). reflexivity.
Qed.

Lemma radio_bad_kid_panics_witness :
  (form_field bad_kid_form 0 = Some bad_kid_radio /\
   get_type bad_kid_form 0 = Some FieldType.Radio /\
   In (ref 9) (kids_entries bad_kid_radio) /\
   match unwrap (deref (doc bad_kid_form) (ref 9)) with
   | Some (Dictionary _) => False | _ => True end) /\
  get_state bad_kid_form 0 = None.
Proof.
  assert (Hin : In (ref 9) (kids_entries bad_kid_radio)) by (simpl; auto).
  assert (Hb : match unwrap (deref (doc bad_kid_form) (ref 9)) with
               | Some (Dictionary _) => False | _ => True end) by exact I.
  split; [split; [reflexivity|split; [reflexivity|split; [exact Hin|exact Hb]]]|].
  exact (radio_bad_kid_panics bad_kid_form 0 bad_kid_radio (ref 9) eq_refl eq_refl Hin Hb).
Defined.

Lemma choice_bit i k m :
  m = (2 ^ k)%Z -> (0 <= k < 32)%Z -> Z.land ChoiceFlags.all m = m ->
  intersects (from_bits_truncate ChoiceFlags.all (i mod 2 ^ 32)) m = Z.testbit i k.
Proof.
  intros -> Hk Hm. rewrite intersects_truncate by exact Hm.
  rewrite intersects_bit by lia. apply testbit_mod_pow2. exact Hk.
Qed.

(** X21: a choice field with an integer [Ff] is a combo box when bit 17 of [Ff] is set and a list box otherwise. *)
Theorem choice_type_bit (field : Dict) (i : Z) :
  dict_get field "FT" = Some (Name "Ch") ->
  dict_get field "Ff" = Some (Integer i) ->
  field_type field =
    Some (if Z.testbit i 17 then FieldType.ComboBox else FieldType.ListBox).
Proof.
  intros Hft Hff. unfold field_type. rewrite Hft. simpl.
  unfold get_field_flags. rewrite Hff. simpl. unfold classify_choice. cbv zeta.
  change (Z.pow_pos 2 32) with (2 ^ 32)%Z.
  rewrite (choice_bit i 17 ChoiceFlags.COBMO) by (reflexivity || lia).
  reflexivity.
Qed.

Lemma choice_type_bit_witness :
  (dict_get sample_combo_box "FT" = Some (Name "Ch") /\
   dict_get sample_combo_box "Ff" = Some (Integer 393216)) /\
  field_type sample_combo_box =
    Some (if Z.testbit 393216 17 then FieldType.ComboBox else FieldType.ListBox).
Proof.
  split; [split; reflexivity|]. apply choice_type_bit; reflexivity.
Defined.

(** X22: the multi-select flag of a list box state is bit 21 of [Ff], and the editable flag of a combo box state is bit 18 of [Ff]. *)
Theorem choice_state_bits (f : Form) (n : nat) (field : Dict) (i : Z) :
  form_field f n = Some field ->
  dict_get field "Ff" = Some (Integer i) ->
  (forall sel opts ms ro rq,
     get_state f n = Some (FieldState.ListBox sel opts ms ro rq) -> ms = Z.testbit i 21) /\
  (forall sel opts ed ro rq,
     get_state f n = Some (FieldState.ComboBox sel opts ed ro rq) -> ed = Z.testbit i 18).
Proof.
  intros Hf Hff.
  assert (Hg : get_field_flags field = Some (i mod 2 ^ 32)%Z)
    by (unfold get_field_flags; rewrite Hff; reflexivity).
  split.
  - intros sel opts ms ro rq H.
    rewrite (get_state_unfold _ _ _ Hf) in H.
    destruct (field_type field) as [[]|]; simpl in H; inv_opt H; try discriminate.
    injection H as _ _ <- _ _.
    injection Hg as ->.
    apply (choice_bit i 21 ChoiceFlags.MULTISELECT); (reflexivity || lia).
  - intros sel opts ed ro rq H.
    rewrite (get_state_unfold _ _ _ Hf) in H.
    destruct (field_type field) as [[]|]; simpl in H; inv_opt H; try discriminate.
    injection H as _ _ <- _ _.
    injection Hg as ->.
    apply (choice_bit i 18 ChoiceFlags.EDIT); (reflexivity || lia).
Qed.

Lemma choice_state_bits_witness :
  (form_field sample_combo_form 0 = Some sample_combo_box /\
   dict_get sample_combo_box "Ff" = Some (Integer 393216)) /\
  ((forall sel opts ms ro rq,
     get_state sample_combo_form 0 = Some (FieldState.ListBox sel opts ms ro rq) ->
     ms = Z.testbit 393216 21) /\
   (forall sel opts ed ro rq,
     get_state sample_combo_form 0 = Some (FieldState.ComboBox sel opts ed ro rq) ->
     ed = Z.testbit 393216 18)).
Proof.
  split; [split; reflexivity|]. apply (choice_state_bits sample_combo_form 0 sample_combo_box); reflexivity.
Defined.

Lemma ascii_not_ws2 c c1 : (nat_of_ascii c < 128)%nat -> ws2 c c1 = false.
Proof.
  intro H. unfold ws2. replace (nat_of_ascii c =? 194)%nat with false; [reflexivity|].
  symmetry; apply Nat.eqb_neq; lia.
Qed.

Lemma ascii_not_ws2_rev c c1 : (nat_of_ascii c < 128)%nat -> ws2 c1 c = false.
Proof.
  intro H. unfold ws2.
  replace (nat_of_ascii c =? 133)%nat with false by (symmetry; apply Nat.eqb_neq; lia).
  replace (nat_of_ascii c =? 160)%nat with false by (symmetry; apply Nat.eqb_neq; lia).
  apply andb_false_r.
Qed.

Lemma ascii_not_ws3 c c1 c2 : (nat_of_ascii c < 128)%nat -> ws3 c c1 c2 = false.
Proof.
  intro H. unfold ws3.
  replace (nat_of_ascii c =? 225)%nat with false by (symmetry; apply Nat.eqb_neq; lia).
  replace (nat_of_ascii c =? 226)%nat with false by (symmetry; apply Nat.eqb_neq; lia).
  replace (nat_of_ascii c =? 227)%nat with false by (symmetry; apply Nat.eqb_neq; lia).
  reflexivity.
Qed.

Lemma ascii_not_ws3_rev c c1 c2 : (nat_of_ascii c < 128)%nat -> ws3 c2 c1 c = false.
Proof.
  intro H. unfold ws3.
  replace (nat_of_ascii c =? 128)%nat with false by (symmetry; apply Nat.eqb_neq; lia).
  replace (nat_of_ascii c =? 159)%nat with false by (symmetry; apply Nat.eqb_neq; lia).
  replace (nat_of_ascii c =? 168)%nat with false by (symmetry; apply Nat.eqb_neq; lia).
  replace (nat_of_ascii c =? 169)%nat with false by (symmetry; apply Nat.eqb_neq; lia).
  replace (nat_of_ascii c =? 175)%nat with false by (symmetry; apply Nat.eqb_neq; lia).
  replace (128 <=? nat_of_ascii c)%nat with false by (symmetry; apply Nat.leb_gt; lia).
  rewrite !andb_false_r. reflexivity.
Qed.

Lemma trim_start_stop c r :
  (nat_of_ascii c < 128)%nat -> ws1 c = false -> trim_start (String c r) = String c r.
Proof.
  intros H W. simpl. rewrite W.
  destruct r as [|c1 r1]; [reflexivity|].
  rewrite (ascii_not_ws2 c c1 H).
  destruct r1 as [|c2 r2]; [reflexivity|].
  rewrite (ascii_not_ws3 c c1 c2 H). reflexivity.
Qed.

Lemma trim_start_rev_stop c r :
  (nat_of_ascii c < 128)%nat -> ws1 c = false -> trim_start_rev (String c r) = String c r.
Proof.
  intros H W. simpl. rewrite W.
  destruct r as [|c1 r1]; [reflexivity|].
  rewrite (ascii_not_ws2_rev c c1 H).
  destruct r1 as [|c2 r2]; [reflexivity|].
  rewrite (ascii_not_ws3_rev c c1 c2 H). reflexivity.
Qed.

Lemma app_empty_r (s : string) : (s ++ "")%string = s.
Proof. induction s as [|c s IH]; simpl; [reflexivity|]. rewrite IH. reflexivity. Qed.

Lemma app_assoc_str (a b c : string) : (a ++ (b ++ c))%string = ((a ++ b) ++ c)%string.
Proof. induction a as [|x a IH]; simpl; [reflexivity|]. rewrite IH. reflexivity. Qed.

Lemma string_rev_app a b : string_rev (a ++ b) = (string_rev b ++ string_rev a)%string.
Proof.
  induction a as [|c a IH]; simpl.
  - rewrite app_empty_r. reflexivity.
  - rewrite IH, app_assoc_str. reflexivity.
Qed.

Lemma string_rev_involutive s : string_rev (string_rev s) = s.
Proof.
  induction s as [|c s IH]; simpl; [reflexivity|].
  rewrite string_rev_app, IH. reflexivity.
Qed.

Lemma alnum_plain c : is_alnum c = true -> plain_char c = true.
Proof. destruct c as [[][][][][][][][]]; vm_compute; congruence. Qed.

Lemma num_plain c : num_char c = true -> plain_char c = true.
Proof. destruct c as [[][][][][][][][]]; vm_compute; congruence. Qed.

Lemma num_not_T c : num_char c = true -> Ascii.eqb c "T" = false.
Proof. destruct c as [[][][][][][][][]]; vm_compute; congruence. Qed.

Lemma digit_num c : is_digit c = true -> num_char c = true.
Proof. unfold num_char. intros ->. reflexivity. Qed.

Lemma plain_facts c : plain_char c = true ->
  (nat_of_ascii c < 128)%nat /\ ws1 c = false /\ Ascii.eqb c " " = false
  /\ Ascii.eqb c "/" = false.
Proof.
  unfold plain_char. intro H.
  apply andb_prop in H as [H H4]. apply andb_prop in H as [H H3].
  apply andb_prop in H as [H1 H2].
  apply Nat.ltb_lt in H1. apply negb_true_iff in H2, H3, H4. auto.
Qed.

Lemma all_chars_impl (p q : ascii -> bool) s :
  (forall c, p c = true -> q c = true) -> all_chars p s = true -> all_chars q s = true.
Proof.
  intros Hpq. induction s as [|c s IH]; simpl; [reflexivity|].
  intro H. apply andb_prop in H as [H1 H2]. rewrite (Hpq c H1), (IH H2). reflexivity.
Qed.

Lemma all_chars_app p a b :
  all_chars p (a ++ b) = all_chars p a && all_chars p b.
Proof.
  induction a as [|c a IH]; simpl; [reflexivity|]. rewrite IH, andb_assoc. reflexivity.
Qed.

Lemma digits_value_chars s acc v :
  digits_value s acc = Some v -> all_chars is_digit s = true.
Proof.
  revert acc. induction s as [|c s IH]; intro acc;
    cbn [digits_value all_chars]; [reflexivity|].
  unfold is_digit at 1.
  destruct ((48 <=? nat_of_ascii c)%nat && (nat_of_ascii c <=? 57)%nat);
    [|intro; discriminate]. apply IH.
Qed.

Lemma parse_i32_body s v :
  parse_i32 s = Some v ->
  exists body, (s = body \/ s = String "-" body \/ s = String "+" body)
    /\ body <> "" /\ exists z, digits_value body 0 = Some z.
Proof.
  intro H. unfold parse_i32 in H.
  destruct (match s with
            | String "-" r => (true, r)
            | String "+" r => (false, r)
            | _ => (false, s)
            end) as [neg body] eqn:E.
  destruct body as [|a b]; [discriminate|].
  destruct (digits_value (String a b) 0) as [z|] eqn:Ed; [|discriminate].
  exists (String a b). split; [|split; [discriminate|eauto]].
  destruct s as [|c r]; [discriminate|].
  destruct c as [[][][][][][][][]]; cbn in E; injection E as E1 E2; subst;
    first [left; reflexivity | right; left; reflexivity | right; right; reflexivity].
Qed.

Lemma parse_i32_chars s v :
  parse_i32 s = Some v -> s <> "" /\ all_chars num_char s = true.
Proof.
  intro H. apply parse_i32_body in H as (body & Hs & Hne & z & Hz).
  assert (Hb : all_chars num_char body = true).
  { apply (all_chars_impl is_digit); [exact digit_num|].
    eapply digits_value_chars; eassumption. }
  destruct Hs as [-> | [-> | ->]]; split; try assumption; try discriminate;
    cbn [all_chars]; rewrite Hb; reflexivity.
Qed.

Lemma split_tf_cons c c1 r1 :
  split_tf (String c (String c1 r1)) =
  if Ascii.eqb c "T" && Ascii.eqb c1 "f" then "" :: split_tf r1
  else cons_head c (split_tf (String c1 r1)).
Proof. reflexivity. Qed.

Lemma has_tf_cons c c1 r1 :
  has_tf (String c (String c1 r1)) =
  (Ascii.eqb c "T" && Ascii.eqb c1 "f") || has_tf (String c1 r1).
Proof. reflexivity. Qed.

Lemma split_tf_no_tf s : has_tf s = false -> split_tf s = [s].
Proof.
  induction s as [|c r IH]; [reflexivity|].
  destruct r as [|c1 r1]; [reflexivity|].
  intro H. rewrite has_tf_cons in H. apply orb_false_iff in H as [H1 H2].
  rewrite split_tf_cons, H1, (IH H2). reflexivity.
Qed.

Lemma split_tf_app a b :
  has_tf a = false -> split_tf (a ++ "Tf" ++ b) = a :: split_tf b.
Proof.
  induction a as [|c a IH]; intro H; [reflexivity|].
  destruct a as [|c1 a1].
  - cbn [append]. rewrite split_tf_cons, andb_false_r. reflexivity.
  - rewrite has_tf_cons in H. apply orb_false_iff in H as [H1 H2].
    change (split_tf (String c (String c1 a1) ++ "Tf" ++ b))
      with (split_tf (String c (String c1 (a1 ++ "Tf" ++ b)))).
    rewrite split_tf_cons, H1.
    change (String c1 (a1 ++ "Tf" ++ b)) with (String c1 a1 ++ "Tf" ++ b).
    rewrite (IH H2). reflexivity.
Qed.

Lemma has_tf_space a b :
  has_tf a = false -> has_tf b = false -> has_tf (a ++ String " " b) = false.
Proof.
  intros Ha Hb. induction a as [|c a IH].
  - cbn [append]. destruct b as [|c1 b1]; [reflexivity|].
    rewrite has_tf_cons, Hb. reflexivity.
  - destruct a as [|c1 a1].
    + cbn [append]. rewrite has_tf_cons, andb_false_r.
      destruct b as [|c2 b2]; [reflexivity|]. rewrite has_tf_cons, Hb. reflexivity.
    + rewrite has_tf_cons in Ha. apply orb_false_iff in Ha as [H1 H2].
      change (has_tf (String c (String c1 a1) ++ String " " b))
        with (has_tf (String c (String c1 (a1 ++ String " " b)))).
      rewrite has_tf_cons, H1.
      change (String c1 (a1 ++ String " " b)) with (String c1 a1 ++ String " " b).
      rewrite (IH H2). reflexivity.
Qed.

Lemma has_tf_num s : all_chars num_char s = true -> has_tf s = false.
Proof.
  induction s as [|c r IH]; intro H; [reflexivity|].
  cbn [all_chars] in H. apply andb_prop in H as [H1 H2].
  destruct r as [|c1 r1]; [reflexivity|].
  rewrite has_tf_cons, (num_not_T c H1). exact (IH H2).
Qed.

Lemma split_space_plain s : all_chars plain_char s = true -> split_space s = [s].
Proof.
  induction s as [|c r IH]; intro H; [reflexivity|].
  cbn [all_chars] in H. apply andb_prop in H as [H1 H2].
  destruct (plain_facts c H1) as (_ & _ & Hsp & _).
  cbn [split_space]. rewrite Hsp, (IH H2). reflexivity.
Qed.

Lemma split_space_app a b :
  all_chars plain_char a = true ->
  split_space (a ++ String " " b) = a :: split_space b.
Proof.
  induction a as [|c r IH]; intro H; [reflexivity|].
  cbn [all_chars] in H. apply andb_prop in H as [H1 H2].
  destruct (plain_facts c H1) as (_ & _ & Hsp & _).
  cbn [append split_space]. rewrite Hsp.
  change (split_space (r ++ String " " b)) with (split_space (r ++ String " " b)).
  rewrite (IH H2). reflexivity.
Qed.

Lemma trim_start_slash_plain c r :
  plain_char c = true -> trim_start_slash (String c r) = String c r.
Proof. destruct c as [[][][][][][][][]]; vm_compute; congruence. Qed.

Lemma rev_first p s :
  all_chars p s = true -> s <> "" ->
  exists d t, string_rev s = String d t /\ p d = true.
Proof.
  induction s as [|c r IH]; intros H Hne; [congruence|].
  cbn [all_chars] in H. apply andb_prop in H as [H1 H2].
  destruct r as [|c1 r1].
  - exists c, "". split; [reflexivity|exact H1].
  - destruct (IH H2 ltac:(discriminate)) as (d & t & E & Hd).
    exists d, (t ++ String c ""). split; [|exact Hd].
    cbn [string_rev]. cbn [string_rev] in E. rewrite E. reflexivity.
Qed.

Lemma trim_end_last s d t :
  string_rev s = String d t -> plain_char d = true -> trim_end s = s.
Proof.
  intros E Hd. destruct (plain_facts d Hd) as (Hc & Hw & _).
  unfold trim_end. rewrite E, trim_start_rev_stop by assumption.
  rewrite <- E. apply string_rev_involutive.
Qed.

Lemma trim_end_space s d t :
  string_rev s = String d t -> plain_char d = true -> trim_end (s ++ " ") = s.
Proof.
  intros E Hd. unfold trim_end. rewrite string_rev_app.
  cbn [string_rev append trim_start_rev].
  replace (ws1 " ") with true by reflexivity.
  fold (trim_end s). apply (trim_end_last s d t); assumption.
Qed.

Lemma string_rev_app_last a b d t :
  string_rev b = String d t -> string_rev (a ++ b) = String d (t ++ string_rev a).
Proof. intro E. rewrite string_rev_app, E. reflexivity. Qed.

Lemma trim_start_slash_suffix s : exists p, s = (p ++ trim_start_slash s)%string.
Proof.
  induction s as [|c r IH]; [exists ""; reflexivity|].
  destruct IH as [p Hp].
  destruct c as [[][][][][][][][]]; cbn [trim_start_slash];
    first [exists ""; reflexivity
          | exists (String "/" p); cbn [append]; rewrite <- Hp; reflexivity].
Qed.

Lemma trim_start_slash_first s b :
  s <> "" -> all_chars plain_char s = true ->
  trim_start_slash (s ++ b) = (s ++ b)%string.
Proof.
  destruct s as [|c r]; intros Hne H; [congruence|].
  cbn [all_chars] in H. apply andb_prop in H as [H _].
  change (String c r ++ b)%string with (String c (r ++ b)).
  apply trim_start_slash_plain. exact H.
Qed.

Lemma trim_start_lead s b :
  s <> "" -> all_chars plain_char s = true -> trim_start (s ++ b) = (s ++ b)%string.
Proof.
  destruct s as [|c r]; intros Hne H; [congruence|].
  cbn [all_chars] in H. apply andb_prop in H as [H _].
  destruct (plain_facts c H) as (Hc & Hw & _).
  change (String c r ++ b)%string with (String c (r ++ b)).
  apply trim_start_stop; assumption.
Qed.

Lemma has_tf_tail c r : has_tf (String c r) = false -> has_tf r = false.
Proof.
  destruct r as [|c1 r1]; [reflexivity|].
  rewrite has_tf_cons. intro H. apply orb_false_iff in H as [_ H]. exact H.
Qed.

Lemma has_tf_suffix p s : has_tf (p ++ s) = false -> has_tf s = false.
Proof.
  induction p as [|c p IH]; [trivial|].
  intro H. apply IH. exact (has_tf_tail c _ H).
Qed.

Lemma alnum_word_facts s :
  alnum_word s = true ->
  s <> "" /\ all_chars plain_char s = true /\ has_tf s = false.
Proof.
  destruct s as [|c r]; [discriminate|]. unfold alnum_word.
  intro H. apply andb_prop in H as [H1 H2]. apply negb_true_iff in H2.
  split; [discriminate|]. split; [|exact H2].
  apply (all_chars_impl is_alnum); [exact alnum_plain|exact H1].
Qed.

Lemma parse_i32_plain s v :
  parse_i32 s = Some v ->
  s <> "" /\ all_chars plain_char s = true /\ has_tf s = false.
Proof.
  intro H. apply parse_i32_chars in H as [Hne Hn].
  split; [exact Hne|]. split; [|exact (has_tf_num s Hn)].
  apply (all_chars_impl num_char); [exact num_plain|exact Hn].
Qed.

Lemma first_plain s :
  s <> "" -> all_chars plain_char s = true ->
  exists c r, s = String c r /\ plain_char c = true.
Proof.
  destruct s as [|c r]; intros Hne H; [congruence|].
  cbn [all_chars] in H. apply andb_prop in H as [H _]. eauto.
Qed.

Ltac str_norm :=
  repeat (first [rewrite <- app_assoc_str | progress cbn [append]]); reflexivity.

(** X23: [parse_font] on a string that does not contain [Tf] returns the default font [Helv] 12 and the default gray color 0. *)
Theorem parse_font_without_tf s :
  has_tf s = false ->
  parse_font (Some s) = (("Helv", 12%Z), ("g", 0%Z, 0%Z, 0%Z, 0%Z)).
Proof.
  intro H. destruct (trim_start_slash_suffix s) as [p Hp].
  assert (Ht : has_tf (trim_start_slash s) = false).
  { apply (has_tf_suffix p). rewrite <- Hp. exact H. }
  unfold parse_font. rewrite (split_tf_no_tf _ Ht). reflexivity.
Qed.

Lemma parse_font_without_tf_witness :
  has_tf "/Helv 12 0 g" = false /\
  parse_font (Some "/Helv 12 0 g") = (("Helv", 12%Z), ("g", 0%Z, 0%Z, 0%Z, 0%Z)).
Proof. split; [reflexivity|]. apply parse_font_without_tf. reflexivity. Defined.

(** X24: [parse_font] on [/<font> <size> Tf <c> <op>], for a letter-and-digit font name and operator, reads the font name, the size and a gray color [c]: with two words after [Tf] the operator word itself is not looked at. *)
Theorem parse_font_gray font sz col op size c :
  alnum_word font = true -> parse_i32 sz = Some size ->
  parse_i32 col = Some c -> alnum_word op = true ->
  parse_font (Some ("/" ++ font ++ " " ++ sz ++ " Tf " ++ col ++ " " ++ op))
  = ((font, size), ("g", c, 0%Z, 0%Z, 0%Z)).
Proof.
  intros Hf Hs Hc Ho.
  destruct (alnum_word_facts font Hf) as (Hfne & Hfp & Hft).
  destruct (alnum_word_facts op Ho) as (Hone & Hop & Hot).
  destruct (parse_i32_plain sz size Hs) as (Hsne & Hsp & Hst).
  destruct (parse_i32_plain col c Hc) as (Hcne & Hcp & Hct).
  assert (Esplit :
    split_tf (trim_start_slash
      ("/" ++ font ++ " " ++ sz ++ " Tf " ++ col ++ " " ++ op))
    = [(font ++ String " " (sz ++ " "))%string;
       String " " (col ++ String " " op)]).
  { replace ("/" ++ font ++ " " ++ sz ++ " Tf " ++ col ++ " " ++ op)%string
      with (String "/" ((font ++ String " " (sz ++ " ")) ++ "Tf"
                         ++ String " " (col ++ String " " op)))
      by str_norm.
    cbn [trim_start_slash].
    rewrite <- app_assoc_str, trim_start_slash_first, app_assoc_str by assumption.
    rewrite split_tf_app.
    - rewrite split_tf_no_tf; [reflexivity|].
      apply (has_tf_space ""); [reflexivity|]. apply has_tf_space; assumption.
    - apply has_tf_space; [assumption|]. apply has_tf_space; [assumption|reflexivity]. }
  assert (Efam : split_space (trim (font ++ String " " (sz ++ " "))) = [font; sz]).
  { destruct (rev_first plain_char sz Hsp Hsne) as (d & t & Ed & Hd).
    unfold trim.
    replace (font ++ String " " (sz ++ " "))%string
      with (font ++ (String " " sz ++ " "))%string by str_norm.
    rewrite trim_start_lead, app_assoc_str by assumption.
    rewrite (trim_end_space _ d (t ++ string_rev (font ++ " "))).
    - rewrite split_space_app by assumption. rewrite split_space_plain by assumption.
      reflexivity.
    - replace (font ++ String " " sz)%string with ((font ++ " ") ++ sz)%string
        by str_norm.
      apply string_rev_app_last. exact Ed.
    - exact Hd. }
  assert (Ecol : split_space (trim (String " " (col ++ String " " op))) = [col; op]).
  { destruct (rev_first plain_char op Hop Hone) as (d & t & Ed & Hd).
    unfold trim. cbn [trim_start]. replace (ws1 " ") with true by reflexivity.
    rewrite trim_start_lead by assumption.
    rewrite (trim_end_last _ d (t ++ string_rev (col ++ " "))).
    - rewrite split_space_app by assumption. rewrite split_space_plain by assumption.
      reflexivity.
    - replace (col ++ String " " op)%string with ((col ++ " ") ++ op)%string
        by str_norm.
      apply string_rev_app_last. exact Ed.
    - exact Hd. }
  unfold parse_font. rewrite Esplit.
  cbn [length nth Nat.ltb Nat.leb]. rewrite Efam, Ecol.
  cbn [length nth Nat.leb Nat.eqb]. rewrite Hs, Hc. reflexivity.
Qed.

Lemma parse_font_gray_witness :
  parse_font (Some ("/" ++ "Helv" ++ " " ++ "12" ++ " Tf " ++ "0" ++ " " ++ "rg"))
  = (("Helv", 12%Z), ("g", 0%Z, 0%Z, 0%Z, 0%Z)).
Proof. apply parse_font_gray; reflexivity. Defined.
